(** * Linker abstraction layer of mesonbuild: [mesonbuild/linkers.py]

    A shallow embedding of the dynamic-linker classes of
    [mesonbuild/linkers.py] and of the RPATH helpers
    ([prepare_rpaths], [order_rpaths], [evaluate_rpath]), together with
    the parts of the Python runtime they call ([str] methods, [sorted],
    [os.path] in its POSIX flavour).

    Python strings are modelled by [string]; one [ascii] stands for one
    character (code points below 256), so that [String.length] is
    Python's [len]. *)

From Stdlib Require Import String Ascii List Bool Arith Lia.
From Stdlib Require Import Permutation.
Import ListNotations.

Open Scope string_scope.
Open Scope list_scope.

(* ================================================================== *)
(** ** Exceptions and the error monad *)

(** The exceptions that the modelled code raises or catches. *)
Inductive exn : Type :=
| EnvironmentException (msg : string)   (* mesonlib.EnvironmentException *)
| MesonException (msg : string)         (* mesonlib.MesonException *)
| ValueError (msg : string)             (* raised by os.path.relpath *)
| OSError (msg : string)                (* OSError and its subclasses *)
| AttributeError (name : string).       (* method not found along the MRO *)

(** A call either returns a value or raises. *)
Inductive result (A : Type) : Type :=
| Ok (a : A)
| Raise (e : exn).

Arguments Ok {A} a.
Arguments Raise {A} e.

Definition bind {A B : Type} (m : result A) (k : A -> result B) : result B :=
  match m with
  | Ok a => k a
  | Raise e => Raise e
  end.

Notation "x <- m ;; k" := (bind m (fun x => k))
  (at level 61, m at next level, right associativity).

(** A list comprehension [[f(p) for p in l]] whose body may raise: the
    first exception, in iteration order, aborts the comprehension. *)
Fixpoint comprehension {A B : Type} (f : A -> result B) (l : list A)
  : result (list B) :=
  match l with
  | [] => Ok []
  | x :: xs => y <- f x ;; ys <- comprehension f xs ;; Ok (y :: ys)
  end.

(* ================================================================== *)
(** ** Python [str] primitives *)

Module PyStr.

(** [not s] on a string: true exactly for the empty string. *)
Definition is_empty (s : string) : bool :=
  match s with EmptyString => true | String _ _ => false end.

(** [s.startswith(c)] for a one-character [c]. *)
Definition startswith (c : ascii) (s : string) : bool :=
  match s with
  | EmptyString => false
  | String a _ => Ascii.eqb a c
  end.

(** [s.startswith(p)] for a string [p]. *)
Fixpoint has_prefix (p s : string) : bool :=
  match p, s with
  | EmptyString, _ => true
  | String a p', String b s' => Ascii.eqb b a && has_prefix p' s'
  | String _ _, EmptyString => false
  end.

(** [s.endswith(c)] for a one-character [c]. *)
Fixpoint endswith (c : ascii) (s : string) : bool :=
  match s with
  | EmptyString => false
  | String a EmptyString => Ascii.eqb a c
  | String _ s' => endswith c s'
  end.

(** [c * n]: a one-character string repeated. *)
Fixpoint repeat (c : ascii) (n : nat) : string :=
  match n with
  | O => EmptyString
  | S n' => String c (repeat c n')
  end.

(** [sep.join(l)]. *)
Fixpoint join (sep : string) (l : list string) : string :=
  match l with
  | [] => EmptyString
  | [x] => x
  | x :: xs => x ++ sep ++ join sep xs
  end.

(** [s.split(sep)] for a one-character separator: never the empty
    list, [''.split(sep) == ['']]. *)
Fixpoint split (sep : ascii) (s : string) : list string :=
  match s with
  | EmptyString => [EmptyString]
  | String c s' =>
      if Ascii.eqb c sep then EmptyString :: split sep s'
      else match split sep s' with
           | [] => [String c EmptyString]
           | w :: ws => String c w :: ws
           end
  end.

(** [l[-1]] on a list known to be non-empty (the default is never
    returned for the result of [split]). *)
Definition last_item (l : list string) : string := List.last l EmptyString.

(** [c.isspace()] for the characters below 256: TAB, LF, VT, FF, CR,
    FS, GS, RS, US, SPACE, NEL and NBSP. *)
Definition isspace (c : ascii) : bool :=
  let n := nat_of_ascii c in
  (((9 <=? n) && (n <=? 13)) || ((28 <=? n) && (n <=? 32))
   || (n =? 133) || (n =? 160))%nat.

Fixpoint lstrip (s : string) : string :=
  match s with
  | EmptyString => EmptyString
  | String c s' => if isspace c then lstrip s' else s
  end.

Fixpoint rstrip (s : string) : string :=
  match s with
  | EmptyString => EmptyString
  | String c s' =>
      let r := rstrip s' in
      if is_empty r && isspace c then EmptyString else String c r
  end.

(** [s.strip()] with no argument. *)
Definition strip (s : string) : string := rstrip (lstrip s).

(** [c in s] for a one-character [c]. *)
Fixpoint contains (c : ascii) (s : string) : bool :=
  match s with
  | EmptyString => false
  | String a s' => Ascii.eqb a c || contains c s'
  end.

End PyStr.

(* ================================================================== *)
(** ** [sorted(l, key=k)] with a boolean key *)

Section Sorted.
Variable A : Type.
Variable key : A -> bool.

(** Python compares the keys with [<]; on [bool], [False < True]. *)
Definition key_lt (x y : A) : bool := negb (key x) && key y.

(** The elements whose key is [False]. *)
Definition key_false (x : A) : bool := negb (key x).

(** [x] is placed in front of the first element whose key is not
    smaller than its own: elements with equal keys keep their order. *)
Fixpoint insert_by_key (x : A) (l : list A) : list A :=
  match l with
  | [] => [x]
  | y :: l' => if key_lt y x then y :: insert_by_key x l' else x :: y :: l'
  end.

(** [sorted] is stable; it is modelled by a stable insertion sort. *)
Fixpoint sorted (l : list A) : list A :=
  match l with
  | [] => []
  | x :: l' => insert_by_key x (sorted l')
  end.
End Sorted.

Arguments key_lt {A} key x y.
Arguments key_false {A} key x.
Arguments insert_by_key {A} key x l.
Arguments sorted {A} key l.

(* ================================================================== *)
(** ** [os.path] (posixpath) *)

Module PosixPath.

Definition sep : ascii := "/"%char.

(** [os.path.isabs(s)]: [s.startswith('/')]. *)
Definition isabs (s : string) : bool := PyStr.startswith sep s.

(** One step of [os.path.join]: the loop body for a further
    component [b]. *)
Definition join_step (path b : string) : string :=
  if PyStr.startswith sep b then b
  else if PyStr.is_empty path || PyStr.endswith sep path then path ++ b
  else path ++ "/" ++ b.

(** [os.path.join(a, *p)]. *)
Definition join (a : string) (p : list string) : string :=
  fold_left join_step p a.

(** The two-argument call [os.path.join(a, b)]. *)
Definition join2 (a b : string) : string := join a [b].

(** [not l] on a list. *)
Definition is_nil (l : list string) : bool :=
  match l with [] => true | _ => false end.

(** The body of the loop of [normpath] over the components; the
    state is [new_comps]. *)
Definition normpath_step (initial_slashes : nat) (new_comps : list string)
           (comp : string) : list string :=
  if String.eqb comp "" || String.eqb comp "." then new_comps
  else if negb (String.eqb comp "..")
          || ((initial_slashes =? 0)%nat && is_nil new_comps)
          || (negb (is_nil new_comps)
              && String.eqb (List.last new_comps "") "..")
       then new_comps ++ [comp]
       else if negb (is_nil new_comps) then List.removelast new_comps
       else new_comps.

(** The value of [initial_slashes] in [normpath]: POSIX allows one or
    two initial slashes, but treats three or more as a single slash. *)
Definition initial_slashes (path : string) : nat :=
  if PyStr.startswith sep path then
    if PyStr.has_prefix "//" path && negb (PyStr.has_prefix "///" path)
    then 2 else 1
  else 0.

(** [os.path.normpath(path)]. *)
Definition normpath (path : string) : string :=
  if PyStr.is_empty path then "."
  else
    let initial_slashes := initial_slashes path in
    let comps := PyStr.split sep path in
    let new_comps := fold_left (normpath_step initial_slashes) comps [] in
    let path := PyStr.join "/" new_comps in
    let path := (PyStr.repeat sep initial_slashes ++ path)%string in
    if PyStr.is_empty path then "." else path.

(** [os.path.abspath(path)]; [getcwd] is what the call [os.getcwd()]
    does: it returns the current directory, or it raises (an [OSError]
    when the directory is gone).  It is only called for a path that is
    not absolute. *)
Definition abspath (getcwd : result string) (path : string) : result string :=
  if isabs path then Ok (normpath path)
  else cwd <- getcwd ;; Ok (normpath (join2 cwd path)).

(** [os.path.commonprefix] on two lists of components: their longest
    common prefix. *)
Fixpoint commonprefix (l1 l2 : list string) : list string :=
  match l1, l2 with
  | x :: l1', y :: l2' =>
      if String.eqb x y then x :: commonprefix l1' l2' else []
  | _, _ => []
  end.

(** [[x for x in s.split('/') if x]]. *)
Definition components (s : string) : list string :=
  filter (fun x => negb (PyStr.is_empty x)) (PyStr.split sep s).

(** [os.path.relpath(path, start)]; what [abspath] raises is not among
    the exceptions that the function catches. *)
Definition relpath (getcwd : result string) (path start : string)
  : result string :=
  if PyStr.is_empty path then Raise (ValueError "no path specified")
  else
    start_abs <- abspath getcwd start ;;
    let start_list := components start_abs in
    path_abs <- abspath getcwd path ;;
    let path_list := components path_abs in
    let i := List.length (commonprefix start_list path_list) in
    let rel_list :=
      List.repeat ".." (List.length start_list - i) ++ skipn i path_list in
    match rel_list with
    | [] => Ok "."
    | a :: p => Ok (join a p)
    end.

End PosixPath.

(* ================================================================== *)
(** ** [mesonlib.OrderedSet] *)

(** Modelled from the spec: [mesonlib.OrderedSet] is defined in
    [mesonbuild/mesonlib.py]; the linkers only construct it from a list,
    [add] to it and iterate over it.  It is an insertion-ordered set:
    iteration yields each distinct element once, in first-seen order,
    and adding an element that is already present changes nothing. *)
Module OrderedSet.

(** The elements in iteration order. *)
Definition t : Type := list string.

Definition mem (x : string) (s : t) : bool := existsb (String.eqb x) s.

(** [s.add(x)]. *)
Definition add (s : t) (x : string) : t :=
  if mem x s then s else s ++ [x].

(** [OrderedSet(iterable)]: the elements are added one by one. *)
Definition of_list (l : list string) : t := fold_left add l [].

End OrderedSet.

(* ================================================================== *)
(** ** The RPATH helpers *)

(** What the code reads from the machine it runs on: the outcome of
    [os.getcwd()] and the [mesonlib.is_*()] predicates on the running
    platform. *)
Record Host : Type := {
  getcwd : result string;
  is_dragonflybsd : bool;
  is_openbsd : bool;
  is_sunos : bool
}.

Definition evaluate_rpath (host : Host) (p build_dir from_dir : string)
  : result string :=
  if String.eqb p from_dir then
    Ok ""  (* relpath errors out in this case *)
  else if PosixPath.isabs p then
    Ok p   (* These can be outside of build dir. *)
  else
    PosixPath.relpath (getcwd host)
      (PosixPath.join2 build_dir p) (PosixPath.join2 build_dir from_dir).

Definition order_rpaths (rpath_list : list string) : list string :=
  sorted PosixPath.isabs rpath_list.

Definition prepare_rpaths (host : Host) (raw_rpaths : list string)
           (build_dir from_dir : string) : result (list string) :=
  internal_format_rpaths <-
    comprehension (fun p => evaluate_rpath host p build_dir from_dir) raw_rpaths ;;
  let ordered_rpaths := order_rpaths internal_format_rpaths in
  Ok ordered_rpaths.

(* ================================================================== *)
(** ** Machines, environment and linker instances *)

(** [mesonlib.MachineChoice]. *)
Inductive MachineChoice : Type := BUILD | HOST.

(** The predicates of a [MachineInfo] that the linkers consult. *)
Record MachineInfo : Type := {
  is_windows : bool;
  is_cygwin : bool;
  is_haiku : bool
}.

(** [env.machines[for_machine]]. *)
Record Environment : Type := {
  machines : MachineChoice -> MachineInfo
}.

(** [prefix_arg : Union[str, List[str]]]. *)
Inductive PrefixArg : Type :=
| PrefixStr (s : string)
| PrefixList (l : list string).

(** The classes of the dynamic-linker hierarchy, mixins included. *)
Inductive cls : Type :=
| DynamicLinker
| PosixDynamicLinkerMixin
| GnuLikeDynamicLinkerMixin
| AppleDynamicLinker
| GnuDynamicLinker
| LLVMDynamicLinker
| XildLinuxDynamicLinker
| XildAppleDynamicLinker
| CcrxDynamicLinker
| ArmDynamicLinker
| ArmClangDynamicLinker
| PGIDynamicLinker
| VisualStudioLikeLinkerMixin
| MSVCDynamicLinker
| ClangClDynamicLinker
| XilinkDynamicLinker
| SolarisDynamicLinker
| OptlinkDynamicLinker
| CudaLinker.

(** The method resolution order of each class (without [object]). *)
Definition mro (c : cls) : list cls :=
  match c with
  | DynamicLinker => [DynamicLinker]
  | PosixDynamicLinkerMixin => [PosixDynamicLinkerMixin]
  | GnuLikeDynamicLinkerMixin => [GnuLikeDynamicLinkerMixin]
  | VisualStudioLikeLinkerMixin => [VisualStudioLikeLinkerMixin]
  | AppleDynamicLinker =>
      [AppleDynamicLinker; PosixDynamicLinkerMixin; DynamicLinker]
  | GnuDynamicLinker =>
      [GnuDynamicLinker; GnuLikeDynamicLinkerMixin; PosixDynamicLinkerMixin;
       DynamicLinker]
  | LLVMDynamicLinker =>
      [LLVMDynamicLinker; GnuLikeDynamicLinkerMixin; PosixDynamicLinkerMixin;
       DynamicLinker]
  | XildLinuxDynamicLinker =>
      [XildLinuxDynamicLinker; GnuLikeDynamicLinkerMixin;
       PosixDynamicLinkerMixin; DynamicLinker]
  | XildAppleDynamicLinker =>
      [XildAppleDynamicLinker; AppleDynamicLinker; PosixDynamicLinkerMixin;
       DynamicLinker]
  | CcrxDynamicLinker => [CcrxDynamicLinker; DynamicLinker]
  | ArmDynamicLinker =>
      [ArmDynamicLinker; PosixDynamicLinkerMixin; DynamicLinker]
  | ArmClangDynamicLinker =>
      [ArmClangDynamicLinker; ArmDynamicLinker; PosixDynamicLinkerMixin;
       DynamicLinker]
  | PGIDynamicLinker =>
      [PGIDynamicLinker; PosixDynamicLinkerMixin; DynamicLinker]
  | MSVCDynamicLinker =>
      [MSVCDynamicLinker; VisualStudioLikeLinkerMixin; DynamicLinker]
  | ClangClDynamicLinker =>
      [ClangClDynamicLinker; VisualStudioLikeLinkerMixin; DynamicLinker]
  | XilinkDynamicLinker =>
      [XilinkDynamicLinker; VisualStudioLikeLinkerMixin; DynamicLinker]
  | SolarisDynamicLinker =>
      [SolarisDynamicLinker; PosixDynamicLinkerMixin; DynamicLinker]
  | OptlinkDynamicLinker =>
      [OptlinkDynamicLinker; VisualStudioLikeLinkerMixin; DynamicLinker]
  | CudaLinker => [CudaLinker; PosixDynamicLinkerMixin; DynamicLinker]
  end.

(** The concrete toolchain variants: the classes that are instantiated. *)
Definition is_variant (c : cls) : bool :=
  match c with
  | DynamicLinker | PosixDynamicLinkerMixin | GnuLikeDynamicLinkerMixin
  | VisualStudioLikeLinkerMixin => false
  | _ => true
  end.

(** A linker object: its class and the attributes set by
    [DynamicLinker.__init__]. *)
Record Linker : Type := {
  class_of : cls;
  exelist : list string;
  for_machine : MachineChoice;
  version : string;
  id : string;
  prefix_arg : PrefixArg
}.

(** Attribute lookup along an MRO: the first class that defines the
    method, together with its definition. *)
Fixpoint lookup {M : Type} (own : cls -> option M) (l : list cls)
  : option (cls * M) :=
  match l with
  | [] => None
  | k :: l' =>
      match own k with
      | Some m => Some (k, m)
      | None => lookup own l'
      end
  end.

Definition resolve {M : Type} (own : cls -> option M) (c : cls)
  : option (cls * M) :=
  lookup own (mro c).

(** [DynamicLinker._apply_prefix]. *)
Definition _apply_prefix (self : Linker) (arg : string) : list string :=
  match prefix_arg self with
  | PrefixStr s => [(s ++ arg)%string]
  | PrefixList l => l ++ [arg]
  end.

(* ================================================================== *)
(** ** The methods, class by class *)

(** Lines 529-535 and 915-921: the padding that reserves room for the
    install-time RPATH; [paths] is [':'.join(all_paths)]. *)
Definition pad_to_install_rpath (paths install_rpath : string) : string :=
  if (String.length paths <? String.length install_rpath)%nat then
    let padding :=
      PyStr.repeat "X" (String.length install_rpath - String.length paths) in
    if PyStr.is_empty paths then padding
    else (paths ++ ":" ++ padding)%string
  else paths.

(** Lines 513-516, 633-635 and 909-911: the ordered set of the
    placeholder-prefixed paths, with [build_rpath] added when it is not
    the empty string. *)
Definition collect_all_paths (origin_placeholder : string)
           (processed_rpaths : list string) (build_rpath : string)
  : OrderedSet.t :=
  let all_paths :=
    OrderedSet.of_list
      (map (fun p => PosixPath.join2 origin_placeholder p) processed_rpaths) in
  if negb (String.eqb build_rpath "") then OrderedSet.add all_paths build_rpath
  else all_paths.

(** The guard [not rpath_paths and not install_rpath and not build_rpath]. *)
Definition nothing_to_embed (rpath_paths : list string)
           (build_rpath install_rpath : string) : bool :=
  PosixPath.is_nil rpath_paths && PyStr.is_empty install_rpath
  && PyStr.is_empty build_rpath.

Module DynamicLinker.

Definition get_pie_args (self : Linker) : result (list string) :=
  let m := ("Linker " ++ id self
            ++ " does not support position-independent executable")%string in
  Raise (EnvironmentException m).

Definition sanitizer_args (self : Linker) (value : string) : list string :=
  [].

Definition get_link_whole_for (self : Linker) (args : list string)
  : result (list string) :=
  Raise (EnvironmentException
           ("Linker " ++ id self ++ " does not support link_whole")%string).

Definition build_rpath_args (host : Host) (self : Linker) (env : Environment)
           (build_dir from_dir : string) (rpath_paths : list string)
           (build_rpath install_rpath : string) : result (list string) :=
  Ok [].

End DynamicLinker.

Module GnuLikeDynamicLinkerMixin.

Definition get_pie_args (self : Linker) : result (list string) :=
  Ok ["-pie"].

Definition get_link_whole_for (self : Linker) (args : list string)
  : result (list string) :=
  if PosixPath.is_nil args then Ok args
  else Ok (_apply_prefix self "--whole-archive" ++ args
           ++ _apply_prefix self "--no-whole-archive").

Definition sanitizer_args (self : Linker) (value : string) : list string :=
  if String.eqb value "none" then []
  else [("-fsanitize=" ++ value)%string].

Definition get_soname_args (self : Linker) (env : Environment)
           (prefix shlib_name suffix : string) (soversion : option string)
           (darwin_versions : option (string * string))
           (is_shared_module : bool) : result (list string) :=
  let m := machines env (for_machine self) in
  if is_windows m || is_cygwin m then
    (* For PE/COFF the soname argument has no effect *)
    Ok []
  else
    let sostr :=
      match soversion with
      | None => ""
      | Some v => ("." ++ v)%string
      end in
    Ok (_apply_prefix self
          ("-soname," ++ prefix ++ shlib_name ++ "." ++ suffix ++ sostr)%string).

Definition build_rpath_args (host : Host) (self : Linker) (env : Environment)
           (build_dir from_dir : string) (rpath_paths : list string)
           (build_rpath install_rpath : string) : result (list string) :=
  let m := machines env (for_machine self) in
  if is_windows m || is_cygwin m then Ok []
  else if nothing_to_embed rpath_paths build_rpath install_rpath then Ok []
  else
    let args := [] in
    let origin_placeholder := "$ORIGIN" in
    processed_rpaths <- prepare_rpaths host rpath_paths build_dir from_dir ;;
    let all_paths :=
      collect_all_paths origin_placeholder processed_rpaths build_rpath in
    let args :=
      if is_dragonflybsd host || is_openbsd host
      then args ++ _apply_prefix self "-z,origin"
      else args in
    let paths := PyStr.join ":" all_paths in
    let paths := pad_to_install_rpath paths install_rpath in
    let args := args ++ _apply_prefix self ("-rpath," ++ paths)%string in
    if is_sunos host then Ok args
    else
      Ok (fold_left
            (fun args p =>
               args ++ _apply_prefix self
                 ("-rpath-link," ++ PosixPath.join2 build_dir p)%string)
            rpath_paths args).

End GnuLikeDynamicLinkerMixin.

Module AppleDynamicLinker.

Definition get_pie_args (self : Linker) : result (list string) :=
  Ok ["-pie"].

Definition get_link_whole_for (self : Linker) (args : list string)
  : result (list string) :=
  let result := [] in
  Ok (fold_left
        (fun result a => (result ++ _apply_prefix self "-force_load") ++ [a])
        args result).

Definition sanitizer_args (self : Linker) (value : string) : list string :=
  if String.eqb value "none" then []
  else [("-fsanitize=" ++ value)%string].

Definition get_soname_args (self : Linker) (env : Environment)
           (prefix shlib_name suffix : string) (soversion : option string)
           (darwin_versions : option (string * string))
           (is_shared_module : bool) : result (list string) :=
  if is_shared_module then Ok []
  else
    let install_name := ["@rpath/"; prefix; shlib_name] in
    let install_name :=
      match soversion with
      | Some v => install_name ++ [("." ++ v)%string]
      | None => install_name
      end in
    let install_name := install_name ++ [".dylib"] in
    let args := ["-install_name"; PyStr.join "" install_name] in
    match darwin_versions with
    | Some (compat, current) =>
        Ok (args ++ ["-compatibility_version"; compat;
                     "-current_version"; current])
    | None => Ok args
    end.

Definition build_rpath_args (host : Host) (self : Linker) (env : Environment)
           (build_dir from_dir : string) (rpath_paths : list string)
           (build_rpath install_rpath : string) : result (list string) :=
  if nothing_to_embed rpath_paths build_rpath install_rpath then Ok []
  else
    (* Ensure that there is enough space for install_name_tool in-place
       editing of large RPATHs *)
    let args := _apply_prefix self "-headerpad_max_install_names" in
    (* @loader_path is the equivalent of $ORIGIN on macOS *)
    let origin_placeholder := "@loader_path" in
    processed_rpaths <- prepare_rpaths host rpath_paths build_dir from_dir ;;
    let all_paths :=
      collect_all_paths origin_placeholder processed_rpaths build_rpath in
    Ok (fold_left
          (fun args rp => args ++ _apply_prefix self ("-rpath," ++ rp)%string)
          all_paths args).

End AppleDynamicLinker.

Module CcrxDynamicLinker.

Definition get_soname_args (self : Linker) (env : Environment)
           (prefix shlib_name suffix : string) (soversion : option string)
           (darwin_versions : option (string * string))
           (is_shared_module : bool) : result (list string) :=
  Ok [].

End CcrxDynamicLinker.

Module PGIDynamicLinker.

Definition get_soname_args (self : Linker) (env : Environment)
           (prefix shlib_name suffix : string) (soversion : option string)
           (darwin_versions : option (string * string))
           (is_shared_module : bool) : result (list string) :=
  Ok [].

Definition build_rpath_args (host : Host) (self : Linker) (env : Environment)
           (build_dir from_dir : string) (rpath_paths : list string)
           (build_rpath install_rpath : string) : result (list string) :=
  if negb (is_windows (machines env (for_machine self))) then
    Ok (map (fun p => ("-R" ++ PosixPath.join2 build_dir p)%string) rpath_paths)
  else Ok [].

End PGIDynamicLinker.

Module VisualStudioLikeLinkerMixin.

(** [mesonlib.listify] leaves a list of strings as it is. *)
Definition get_link_whole_for (self : Linker) (args : list string)
  : result (list string) :=
  let l := [] in
  Ok (fold_left
        (fun l a => l ++ _apply_prefix self ("/WHOLEARCHIVE:" ++ a)%string)
        args l).

Definition get_soname_args (self : Linker) (env : Environment)
           (prefix shlib_name suffix : string) (soversion : option string)
           (darwin_versions : option (string * string))
           (is_shared_module : bool) : result (list string) :=
  Ok [].

End VisualStudioLikeLinkerMixin.

Module SolarisDynamicLinker.

Definition get_link_whole_for (self : Linker) (args : list string)
  : result (list string) :=
  if PosixPath.is_nil args then Ok args
  else Ok (_apply_prefix self "--whole-archive" ++ args
           ++ _apply_prefix self "--no-whole-archive").

Definition build_rpath_args (host : Host) (self : Linker) (env : Environment)
           (build_dir from_dir : string) (rpath_paths : list string)
           (build_rpath install_rpath : string) : result (list string) :=
  if nothing_to_embed rpath_paths build_rpath install_rpath then Ok []
  else
    processed_rpaths <- prepare_rpaths host rpath_paths build_dir from_dir ;;
    let all_paths := collect_all_paths "$ORIGIN" processed_rpaths build_rpath in
    let paths := PyStr.join ":" all_paths in
    let paths := pad_to_install_rpath paths install_rpath in
    Ok (_apply_prefix self ("-rpath," ++ paths)%string).

Definition get_soname_args (self : Linker) (env : Environment)
           (prefix shlib_name suffix : string) (soversion : option string)
           (darwin_versions : option (string * string))
           (is_shared_module : bool) : result (list string) :=
  let sostr :=
    match soversion with
    | None => ""
    | Some v => ("." ++ v)%string
    end in
  Ok (_apply_prefix self
        ("-soname," ++ prefix ++ shlib_name ++ "." ++ suffix ++ sostr)%string).

End SolarisDynamicLinker.

Module CudaLinker.

(** What [mesonlib.Popen_safe(version_cmd)] does is an input of the
    model: it raises, or it returns the process, its standard output
    and its standard error. *)
Definition Popen_safe_t : Type :=
  list string -> result (nat * string * string).

Definition parse_version (Popen_safe : Popen_safe_t) : result string :=
  let version_cmd := ["nvlink"; "--version"] in
  match Popen_safe version_cmd with
  | Raise (OSError _) => Ok "unknown version"
  | Raise e => Raise e
  | Ok (_, out, _) =>
      (* we need the most verbose version output. Luckily starting with V *)
      Ok (PyStr.last_item (PyStr.split "V" (PyStr.strip out)))
  end.

Definition get_soname_args (self : Linker) (env : Environment)
           (prefix shlib_name suffix : string) (soversion : option string)
           (darwin_versions : option (string * string))
           (is_shared_module : bool) : result (list string) :=
  Ok [].

End CudaLinker.

(* ================================================================== *)
(** ** Method tables and dispatch *)

Definition soname_method : Type :=
  Linker -> Environment -> string -> string -> string -> option string ->
  option (string * string) -> bool -> result (list string).

Definition rpath_method : Type :=
  Host -> Linker -> Environment -> string -> string -> list string ->
  string -> string -> result (list string).

(** Which classes define [get_pie_args] in their own body. *)
Definition own_get_pie_args (k : cls)
  : option (Linker -> result (list string)) :=
  match k with
  | DynamicLinker => Some DynamicLinker.get_pie_args
  | GnuLikeDynamicLinkerMixin => Some GnuLikeDynamicLinkerMixin.get_pie_args
  | AppleDynamicLinker => Some AppleDynamicLinker.get_pie_args
  | _ => None
  end.

Definition own_sanitizer_args (k : cls)
  : option (Linker -> string -> list string) :=
  match k with
  | DynamicLinker => Some DynamicLinker.sanitizer_args
  | GnuLikeDynamicLinkerMixin => Some GnuLikeDynamicLinkerMixin.sanitizer_args
  | AppleDynamicLinker => Some AppleDynamicLinker.sanitizer_args
  | _ => None
  end.

Definition own_get_link_whole_for (k : cls)
  : option (Linker -> list string -> result (list string)) :=
  match k with
  | DynamicLinker => Some DynamicLinker.get_link_whole_for
  | GnuLikeDynamicLinkerMixin =>
      Some GnuLikeDynamicLinkerMixin.get_link_whole_for
  | AppleDynamicLinker => Some AppleDynamicLinker.get_link_whole_for
  | VisualStudioLikeLinkerMixin =>
      Some VisualStudioLikeLinkerMixin.get_link_whole_for
  | SolarisDynamicLinker => Some SolarisDynamicLinker.get_link_whole_for
  | _ => None
  end.

(** [DynamicLinker] itself has no [get_soname_args]. *)
Definition own_get_soname_args (k : cls) : option soname_method :=
  match k with
  | GnuLikeDynamicLinkerMixin => Some GnuLikeDynamicLinkerMixin.get_soname_args
  | AppleDynamicLinker => Some AppleDynamicLinker.get_soname_args
  | CcrxDynamicLinker => Some CcrxDynamicLinker.get_soname_args
  | PGIDynamicLinker => Some PGIDynamicLinker.get_soname_args
  | VisualStudioLikeLinkerMixin =>
      Some VisualStudioLikeLinkerMixin.get_soname_args
  | SolarisDynamicLinker => Some SolarisDynamicLinker.get_soname_args
  | CudaLinker => Some CudaLinker.get_soname_args
  | _ => None
  end.

Definition own_build_rpath_args (k : cls) : option rpath_method :=
  match k with
  | DynamicLinker => Some DynamicLinker.build_rpath_args
  | GnuLikeDynamicLinkerMixin => Some GnuLikeDynamicLinkerMixin.build_rpath_args
  | AppleDynamicLinker => Some AppleDynamicLinker.build_rpath_args
  | PGIDynamicLinker => Some PGIDynamicLinker.build_rpath_args
  | SolarisDynamicLinker => Some SolarisDynamicLinker.build_rpath_args
  | _ => None
  end.

(** The class whose definition a call [self.get_pie_args()] reaches. *)
Definition get_pie_args_provider (c : cls) : option cls :=
  option_map fst (resolve own_get_pie_args c).

(** [self.get_pie_args()]. *)
Definition get_pie_args (self : Linker) : result (list string) :=
  match resolve own_get_pie_args (class_of self) with
  | Some (_, m) => m self
  | None => Raise (AttributeError "get_pie_args")
  end.

(** [self.sanitizer_args(value)]. *)
Definition sanitizer_args (self : Linker) (value : string)
  : result (list string) :=
  match resolve own_sanitizer_args (class_of self) with
  | Some (_, m) => Ok (m self value)
  | None => Raise (AttributeError "sanitizer_args")
  end.

(** [self.get_link_whole_for(args)]. *)
Definition get_link_whole_for (self : Linker) (args : list string)
  : result (list string) :=
  match resolve own_get_link_whole_for (class_of self) with
  | Some (_, m) => m self args
  | None => Raise (AttributeError "get_link_whole_for")
  end.

(** [self.get_soname_args(env, prefix, shlib_name, suffix, soversion,
    darwin_versions, is_shared_module)]. *)
Definition get_soname_args : soname_method :=
  fun self env prefix shlib_name suffix soversion darwin_versions
      is_shared_module =>
    match resolve own_get_soname_args (class_of self) with
    | Some (_, m) =>
        m self env prefix shlib_name suffix soversion darwin_versions
          is_shared_module
    | None => Raise (AttributeError "get_soname_args")
    end.

(** [self.build_rpath_args(env, build_dir, from_dir, rpath_paths,
    build_rpath, install_rpath)], run on [host]. *)
Definition build_rpath_args (host : Host) (self : Linker) : 
  Environment -> string -> string -> list string -> string -> string ->
  result (list string) :=
  match resolve own_build_rpath_args (class_of self) with
  | Some (_, m) => m host self
  | None => fun _ _ _ _ _ _ => Raise (AttributeError "build_rpath_args")
  end.

(** The classes that take their behaviour from the GNU-like mixin, and
    those that take it from Apple's linker. *)
Definition is_gnu_like (c : cls) : bool :=
  match c with
  | GnuDynamicLinker | LLVMDynamicLinker | XildLinuxDynamicLinker => true
  | _ => false
  end.

Definition is_apple_like (c : cls) : bool :=
  match c with
  | AppleDynamicLinker | XildAppleDynamicLinker => true
  | _ => false
  end.

(* ================================================================== *)
(** ** The other capabilities of the dynamic linkers *)

(** The attributes that [VisualStudioLikeLinkerMixin.__init__] adds to
    the object; only the methods of that mixin read them. *)
Record VSAttrs : Type := {
  direct : bool;
  machine : string
}.

(** [mesonlib.is_windows()] and [mesonlib.is_linux()], on the machine
    the code runs on. *)
Record Running : Type := {
  on_windows : bool;
  on_linux : bool
}.

(** What a class holds under a method name: a body, or the mark left by
    [abc.abstractmethod]. *)
Inductive impl (M : Type) : Type :=
| Abstract
| Concrete (m : M).

Arguments Abstract {M}.
Arguments Concrete {M} m.

(** The outcome of [d[key]]: the value, or [KeyError]. *)
Inductive item (A : Type) : Type :=
| Item (a : A)
| KeyError (key : string).

Arguments Item {A} a.
Arguments KeyError {A} key.

(** [d[key]] on a dict written as its list of items. *)
Fixpoint getitem {A : Type} (d : list (string * A)) (key : string) : item A :=
  match d with
  | [] => KeyError key
  | (k, v) :: d' => if String.eqb k key then Item v else getitem d' key
  end.

(** [needle in hay] on strings. *)
Fixpoint str_in (needle hay : string) : bool :=
  PyStr.has_prefix needle hay
  || match hay with
     | EmptyString => false
     | String _ hay' => str_in needle hay'
     end.

Module More.

Module DynamicLinker.

Definition _BUILDTYPE_ARGS : list (string * list string) :=
  [("plain", []); ("debug", []); ("debugoptimized", []); ("release", []);
   ("minsize", []); ("custom", [])].

(** [table] is [self._BUILDTYPE_ARGS], looked up on the class of
    [self]. *)
Definition get_buildtype_args (table : list (string * list string))
           (self : Linker) (buildtype : string) : item (list string) :=
  getitem table buildtype.

Definition get_std_shared_lib_args (run : Running) (vs : VSAttrs)
           (self : Linker) : result (list string) :=
  Ok [].

Definition get_allow_undefined_args (self : Linker) : result (list string) :=
  Raise (EnvironmentException
           ("Linker " ++ id self ++ " does not support allow undefined")%string).

Definition get_coverage_args (self : Linker) : result (list string) :=
  let m := ("Linker " ++ id self
            ++ " doesn't implement coverage data generation.")%string in
  Raise (EnvironmentException m).

Definition bitcode_args (self : Linker) : result (list string) :=
  Raise (MesonException "This linker does not support bitcode bundles").

Definition get_debugfile_args (vs : VSAttrs) (self : Linker)
           (targetfile : string) : list string :=
  [].

End DynamicLinker.

Module PosixDynamicLinkerMixin.

Definition get_output_args (vs : VSAttrs) (self : Linker) (outname : string)
  : result (list string) :=
  Ok ["-o"; outname].

Definition get_std_shared_lib_args (run : Running) (vs : VSAttrs)
           (self : Linker) : result (list string) :=
  Ok ["-shared"].

Definition get_search_args (self : Linker) (dirname : string)
  : result (list string) :=
  Ok [("-L" ++ dirname)%string].

End PosixDynamicLinkerMixin.

Module GnuLikeDynamicLinkerMixin.

Definition _BUILDTYPE_ARGS : list (string * list string) :=
  [("plain", []); ("debug", []); ("debugoptimized", []);
   ("release", ["-O1"]); ("minsize", []); ("custom", [])].

(** [listify] is [mesonlib.listify], which is not part of this file. *)
Definition get_buildtype_args (listify : list (list string) -> list string)
           (table : list (string * list string))
           (self : Linker) (buildtype : string) : item (list string) :=
  match getitem table buildtype with
  | Item args => Item (listify (map (fun a => _apply_prefix self a) args))
  | KeyError k => KeyError k
  end.

Definition get_allow_undefined_args (self : Linker) : result (list string) :=
  Ok (_apply_prefix self "--allow-shlib-undefined").

Definition get_coverage_args (self : Linker) : result (list string) :=
  Ok ["--coverage"].

End GnuLikeDynamicLinkerMixin.

Module AppleDynamicLinker.

Definition get_allow_undefined_args (self : Linker) : result (list string) :=
  Ok (_apply_prefix self "-undefined,dynamic_lookup").

Definition get_std_shared_module_args (run : Running) (vs : VSAttrs)
           (self : Linker) : result (list string) :=
  Ok ("-bundle" :: _apply_prefix self "-undefined,dynamic_lookup").

Definition get_coverage_args (self : Linker) : result (list string) :=
  Ok ["--coverage"].

Definition bitcode_args (self : Linker) : result (list string) :=
  Ok (_apply_prefix self "-bitcode_bundle").

End AppleDynamicLinker.

Module CcrxDynamicLinker.

Definition get_std_shared_lib_args (run : Running) (vs : VSAttrs)
           (self : Linker) : result (list string) :=
  Ok [].

Definition get_output_args (vs : VSAttrs) (self : Linker)
           (outputname : string) : result (list string) :=
  Ok [("-output=" ++ outputname)%string].

(** [EnvironmentError] is Python's alias of [OSError]. *)
Definition get_search_args (self : Linker) (dirname : string)
  : result (list string) :=
  Raise (OSError "rlink.exe does not have a search dir argument").

Definition get_allow_undefined_args (self : Linker) : result (list string) :=
  Ok [].

End CcrxDynamicLinker.

Module ArmDynamicLinker.

Definition get_std_shared_lib_args (run : Running) (vs : VSAttrs)
           (self : Linker) : result (list string) :=
  Raise (MesonException "The Arm Linkers do not support shared libraries").

Definition get_allow_undefined_args (self : Linker) : result (list string) :=
  Ok [].

End ArmDynamicLinker.

Module PGIDynamicLinker.

Definition get_allow_undefined_args (self : Linker) : result (list string) :=
  Ok [].

Definition get_std_shared_lib_args (run : Running) (vs : VSAttrs)
           (self : Linker) : result (list string) :=
  (* PGI -shared is Linux only. *)
  if on_windows run then Ok ["-Bdynamic"; "-Mmakedll"]
  else if on_linux run then Ok ["-shared"]
  else Ok [].

End PGIDynamicLinker.

Module VisualStudioLikeLinkerMixin.

Definition _BUILDTYPE_ARGS : list (string * list string) :=
  [("plain", []); ("debug", []); ("debugoptimized", []);
   (* The otherwise implicit REF and ICF linker optimisations are
      disabled by /DEBUG. REF implies ICF. *)
   ("release", ["/OPT:REF"]); ("minsize", ["/INCREMENTAL:NO"; "/OPT:REF"]);
   ("custom", [])].

Definition invoked_by_compiler (vs : VSAttrs) (self : Linker) : bool :=
  direct vs.

Definition get_output_args (vs : VSAttrs) (self : Linker)
           (outputname : string) : result (list string) :=
  Ok (_apply_prefix self ("/MACHINE:" ++ machine vs)%string
      ++ _apply_prefix self ("/OUT:" ++ outputname)%string).

Definition get_search_args (self : Linker) (dirname : string)
  : result (list string) :=
  Ok (_apply_prefix self ("/LIBPATH:" ++ dirname)%string).

Definition get_std_shared_lib_args (run : Running) (vs : VSAttrs)
           (self : Linker) : result (list string) :=
  Ok (_apply_prefix self "/DLL").

Definition get_debugfile_args (vs : VSAttrs) (self : Linker)
           (targetfile : string) : list string :=
  let pdbarr := removelast (PyStr.split "." targetfile) in
  let pdbarr := pdbarr ++ ["pdb"] in
  _apply_prefix self "/DEBUG"
  ++ _apply_prefix self ("/PDB:" ++ PyStr.join "." pdbarr)%string.

Definition get_allow_undefined_args (self : Linker) : result (list string) :=
  (* link.exe *)
  Ok (_apply_prefix self "/FORCE:UNRESOLVED").

End VisualStudioLikeLinkerMixin.

Module SolarisDynamicLinker.

Definition get_allow_undefined_args (self : Linker) : result (list string) :=
  Ok ["-z"; "nodefs"].

End SolarisDynamicLinker.

Module OptlinkDynamicLinker.

Definition get_allow_undefined_args (self : Linker) : result (list string) :=
  Ok [].

End OptlinkDynamicLinker.

Module CudaLinker.

Definition get_allow_undefined_args (self : Linker) : result (list string) :=
  Ok [].

End CudaLinker.

End More.

(** *** Method tables *)

Definition own__BUILDTYPE_ARGS (k : cls)
  : option (list (string * list string)) :=
  match k with
  | DynamicLinker => Some More.DynamicLinker._BUILDTYPE_ARGS
  | GnuLikeDynamicLinkerMixin =>
      Some More.GnuLikeDynamicLinkerMixin._BUILDTYPE_ARGS
  | VisualStudioLikeLinkerMixin =>
      Some More.VisualStudioLikeLinkerMixin._BUILDTYPE_ARGS
  | _ => None
  end.

Definition own_get_buildtype_args
           (listify : list (list string) -> list string) (k : cls)
  : option (list (string * list string) -> Linker -> string ->
            item (list string)) :=
  match k with
  | DynamicLinker => Some More.DynamicLinker.get_buildtype_args
  | GnuLikeDynamicLinkerMixin =>
      Some (More.GnuLikeDynamicLinkerMixin.get_buildtype_args listify)
  | _ => None
  end.

Definition own_get_std_shared_lib_args (k : cls)
  : option (Running -> VSAttrs -> Linker -> result (list string)) :=
  match k with
  | DynamicLinker => Some More.DynamicLinker.get_std_shared_lib_args
  | PosixDynamicLinkerMixin =>
      Some More.PosixDynamicLinkerMixin.get_std_shared_lib_args
  | CcrxDynamicLinker => Some More.CcrxDynamicLinker.get_std_shared_lib_args
  | ArmDynamicLinker => Some More.ArmDynamicLinker.get_std_shared_lib_args
  | PGIDynamicLinker => Some More.PGIDynamicLinker.get_std_shared_lib_args
  | VisualStudioLikeLinkerMixin =>
      Some More.VisualStudioLikeLinkerMixin.get_std_shared_lib_args
  | _ => None
  end.

(** [self.get_std_shared_lib_args()]. *)
Definition get_std_shared_lib_args (run : Running) (vs : VSAttrs)
           (self : Linker) : result (list string) :=
  match resolve own_get_std_shared_lib_args (class_of self) with
  | Some (_, m) => m run vs self
  | None => Raise (AttributeError "get_std_shared_lib_args")
  end.

(** [DynamicLinker.get_std_shared_module_args]: the call goes back to
    the object, [self.get_std_shared_lib_args()]. *)
Definition DynamicLinker_get_std_shared_module_args (run : Running)
           (vs : VSAttrs) (self : Linker) : result (list string) :=
  get_std_shared_lib_args run vs self.

Definition own_get_std_shared_module_args (k : cls)
  : option (Running -> VSAttrs -> Linker -> result (list string)) :=
  match k with
  | DynamicLinker => Some DynamicLinker_get_std_shared_module_args
  | AppleDynamicLinker => Some More.AppleDynamicLinker.get_std_shared_module_args
  | _ => None
  end.

(** [self.get_std_shared_module_args(options)]; no definition reads
    [options]. *)
Definition get_std_shared_module_args (run : Running) (vs : VSAttrs)
           (self : Linker) : result (list string) :=
  match resolve own_get_std_shared_module_args (class_of self) with
  | Some (_, m) => m run vs self
  | None => Raise (AttributeError "get_std_shared_module_args")
  end.

Definition own_get_allow_undefined_args (k : cls)
  : option (Linker -> result (list string)) :=
  match k with
  | DynamicLinker => Some More.DynamicLinker.get_allow_undefined_args
  | GnuLikeDynamicLinkerMixin =>
      Some More.GnuLikeDynamicLinkerMixin.get_allow_undefined_args
  | AppleDynamicLinker => Some More.AppleDynamicLinker.get_allow_undefined_args
  | CcrxDynamicLinker => Some More.CcrxDynamicLinker.get_allow_undefined_args
  | ArmDynamicLinker => Some More.ArmDynamicLinker.get_allow_undefined_args
  | PGIDynamicLinker => Some More.PGIDynamicLinker.get_allow_undefined_args
  | VisualStudioLikeLinkerMixin =>
      Some More.VisualStudioLikeLinkerMixin.get_allow_undefined_args
  | SolarisDynamicLinker =>
      Some More.SolarisDynamicLinker.get_allow_undefined_args
  | OptlinkDynamicLinker =>
      Some More.OptlinkDynamicLinker.get_allow_undefined_args
  | CudaLinker => Some More.CudaLinker.get_allow_undefined_args
  | _ => None
  end.

(** [self.get_allow_undefined_args()]. *)
Definition get_allow_undefined_args (self : Linker) : result (list string) :=
  match resolve own_get_allow_undefined_args (class_of self) with
  | Some (_, m) => m self
  | None => Raise (AttributeError "get_allow_undefined_args")
  end.

Definition own_get_coverage_args (k : cls)
  : option (Linker -> result (list string)) :=
  match k with
  | DynamicLinker => Some More.DynamicLinker.get_coverage_args
  | GnuLikeDynamicLinkerMixin =>
      Some More.GnuLikeDynamicLinkerMixin.get_coverage_args
  | AppleDynamicLinker => Some More.AppleDynamicLinker.get_coverage_args
  | _ => None
  end.

(** [self.get_coverage_args()]. *)
Definition get_coverage_args (self : Linker) : result (list string) :=
  match resolve own_get_coverage_args (class_of self) with
  | Some (_, m) => m self
  | None => Raise (AttributeError "get_coverage_args")
  end.

Definition own_bitcode_args (k : cls)
  : option (Linker -> result (list string)) :=
  match k with
  | DynamicLinker => Some More.DynamicLinker.bitcode_args
  | AppleDynamicLinker => Some More.AppleDynamicLinker.bitcode_args
  | _ => None
  end.

(** [self.bitcode_args()]. *)
Definition bitcode_args (self : Linker) : result (list string) :=
  match resolve own_bitcode_args (class_of self) with
  | Some (_, m) => m self
  | None => Raise (AttributeError "bitcode_args")
  end.

(** [get_output_args] and [get_search_args] are abstract in
    [DynamicLinker]. *)
Definition own_get_output_args (k : cls)
  : option (impl (VSAttrs -> Linker -> string -> result (list string))) :=
  match k with
  | DynamicLinker => Some Abstract
  | PosixDynamicLinkerMixin =>
      Some (Concrete More.PosixDynamicLinkerMixin.get_output_args)
  | CcrxDynamicLinker => Some (Concrete More.CcrxDynamicLinker.get_output_args)
  | VisualStudioLikeLinkerMixin =>
      Some (Concrete More.VisualStudioLikeLinkerMixin.get_output_args)
  | _ => None
  end.

Definition own_get_search_args (k : cls)
  : option (impl (Linker -> string -> result (list string))) :=
  match k with
  | DynamicLinker => Some Abstract
  | PosixDynamicLinkerMixin =>
      Some (Concrete More.PosixDynamicLinkerMixin.get_search_args)
  | CcrxDynamicLinker => Some (Concrete More.CcrxDynamicLinker.get_search_args)
  | VisualStudioLikeLinkerMixin =>
      Some (Concrete More.VisualStudioLikeLinkerMixin.get_search_args)
  | _ => None
  end.

(** Whether [abc] lets the class be instantiated: neither abstract
    method resolves to its abstract declaration. *)
Definition instantiable (c : cls) : bool :=
  match resolve own_get_output_args c, resolve own_get_search_args c with
  | Some (_, Concrete _), Some (_, Concrete _) => true
  | _, _ => false
  end.

(** [self.get_output_args(outname)]; the body of the abstract
    declaration is [pass], which returns [None]: no list of arguments. *)
Definition get_output_args (vs : VSAttrs) (self : Linker) (outname : string)
  : option (result (list string)) :=
  match resolve own_get_output_args (class_of self) with
  | Some (_, Concrete m) => Some (m vs self outname)
  | Some (_, Abstract) => None
  | None => Some (Raise (AttributeError "get_output_args"))
  end.

(** [self.get_search_args(dirname)]. *)
Definition get_search_args (self : Linker) (dirname : string)
  : option (result (list string)) :=
  match resolve own_get_search_args (class_of self) with
  | Some (_, Concrete m) => Some (m self dirname)
  | Some (_, Abstract) => None
  | None => Some (Raise (AttributeError "get_search_args"))
  end.

Definition own_get_debugfile_args (k : cls)
  : option (VSAttrs -> Linker -> string -> list string) :=
  match k with
  | DynamicLinker => Some More.DynamicLinker.get_debugfile_args
  | VisualStudioLikeLinkerMixin =>
      Some More.VisualStudioLikeLinkerMixin.get_debugfile_args
  | _ => None
  end.

(** [self.get_debugfile_args(targetfile)]. *)
Definition get_debugfile_args (vs : VSAttrs) (self : Linker)
           (targetfile : string) : result (list string) :=
  match resolve own_get_debugfile_args (class_of self) with
  | Some (_, m) => Ok (m vs self targetfile)
  | None => Raise (AttributeError "get_debugfile_args")
  end.

(** [self.get_buildtype_args(buildtype)]: the method and the table
    [self._BUILDTYPE_ARGS] are both looked up along the MRO. *)
Definition get_buildtype_args (listify : list (list string) -> list string)
           (self : Linker) (buildtype : string)
  : option (item (list string)) :=
  match resolve (own_get_buildtype_args listify) (class_of self),
        resolve own__BUILDTYPE_ARGS (class_of self) with
  | Some (_, m), Some (_, table) => Some (m table self buildtype)
  | _, _ => None
  end.

(** The fixed enumeration of build types. *)
Definition buildtypes : list string :=
  ["plain"; "debug"; "debugoptimized"; "release"; "minsize"; "custom"].

(** The classes that take their behaviour from the Visual Studio
    mixin. *)
Definition is_vs_like (c : cls) : bool :=
  match c with
  | MSVCDynamicLinker | ClangClDynamicLinker | XilinkDynamicLinker
  | OptlinkDynamicLinker => true
  | _ => false
  end.

(* ================================================================== *)
(** ** The archivers *)

(** An archiver object with the attributes that the constructors of
    [ArLinker] and [ArmarLinker] set. *)
Record Archiver : Type := {
  ar_exelist : list string;
  ar_id : string;
  std_args : list string
}.

Module ArLinker.

(** [mesonlib.Popen_safe] is an input of the model, as for nvlink; the
    constructor does not catch what it raises. *)
Definition __init__ (Popen_safe : CudaLinker.Popen_safe_t)
           (exelist : list string) : result Archiver :=
  r <- Popen_safe (exelist ++ ["-h"]) ;;
  let '(pc, stdo, _) := r in
  (* Enable deterministic builds if they are available. *)
  if str_in "[D]" stdo
  then Ok {| ar_exelist := exelist; ar_id := "ar"; std_args := ["csrD"] |}
  else Ok {| ar_exelist := exelist; ar_id := "ar"; std_args := ["csr"] |}.

Definition get_std_link_args (self : Archiver) : list string :=
  std_args self.

Definition get_output_args (self : Archiver) (target : string)
  : list string :=
  [target].

End ArLinker.

Module ArmarLinker.

(** The constructor calls [StaticLinker.__init__], not the one of
    [ArLinker]. *)
Definition __init__ (exelist : list string) : Archiver :=
  {| ar_exelist := exelist; ar_id := "armar"; std_args := ["-csr"] |}.

Definition can_linker_accept_rsp (self : Archiver) : bool :=
  (* armar can't accept arguments using the @rsp syntax *)
  false.

End ArmarLinker.

(* ================================================================== *)
(** ** Lists as shared objects *)

(** Python lists are objects in a store; a reference is the position of
    the object. *)
Definition ref : Type := nat.
Definition Store : Type := list (list string).

(** The list that a reference points to. *)
Definition deref (st : Store) (r : ref) : list string := nth r st [].

(** A new list object. *)
Definition alloc (st : Store) (l : list string) : Store * ref :=
  (st ++ [l], List.length st).

(** Any mutation of the object at [r]: its content becomes [l]. *)
Fixpoint assign (st : Store) (r : ref) (l : list string) : Store :=
  match st, r with
  | [], _ => []
  | _ :: st', O => l :: st'
  | x :: st', S r' => x :: assign st' r' l
  end.

(** The list attributes of a linker object, as references. *)
Record ListAttrs : Type := {
  exelist_at : ref;
  std_args_at : ref
}.

(** [get_exelist] of [StaticLinker] and of [DynamicLinker]:
    [self.exelist.copy()]. *)
Definition get_exelist (st : Store) (self : ListAttrs) : Store * ref :=
  alloc st (deref st (exelist_at self)).

(** [get_std_link_args] of [ArLinker] and [PGIStaticLinker]:
    [self.std_args] itself. *)
Definition get_std_link_args (st : Store) (self : ListAttrs) : Store * ref :=
  (st, std_args_at self).

(* ================================================================== *)
(** ** Vocabulary of the statements *)

(** A resolved entry that is not absolute. *)
Definition relative : string -> bool := key_false PosixPath.isabs.

(** [os.getcwd()] is not called, or it returns: the build directory is
    absolute, or the current directory can be read. *)
Definition cwd_at_hand (host : Host) (build_dir : string) : Prop :=
  PosixPath.isabs build_dir = true \/ exists d, getcwd host = Ok d.

(** A raw entry that [relpath] is called on with a path that is not
    empty: it is neither [from_dir] nor absolute, and it or the build
    directory is not the empty string. *)
Definition needs_cwd (build_dir from_dir p : string) : Prop :=
  p <> from_dir /\ PosixPath.isabs p = false
  /\ (build_dir <> "" \/ p <> "").

(** A component that [normpath] keeps: not empty, without a slash. *)
Definition plain (e : string) : Prop :=
  e <> "" /\ PyStr.contains PosixPath.sep e = false.

(** What [os.path.join] puts in front of a relative second argument. *)
Definition dir_prefix (a : string) : string :=
  if PyStr.is_empty a || PyStr.endswith PosixPath.sep a then a
  else (a ++ "/")%string.

(** The components of [p] that [normpath] keeps when none of them is
    [..]: neither empty nor [.]. *)
Definition kept_components (p : string) : list string :=
  filter (fun c => negb (String.eqb c "" || String.eqb c "."))
         (PyStr.split PosixPath.sep p).

(** No component of [p] is [..]. *)
Definition no_dotdot (p : string) : Prop :=
  ~ In ".." (PyStr.split PosixPath.sep p).

(** What [relpath] makes of the components of a path and of a start. *)
Definition relative_from (start_list path_list : list string) : string :=
  let i := List.length (PosixPath.commonprefix start_list path_list) in
  match (List.repeat ".." (List.length start_list - i)
         ++ skipn i path_list)%list with
  | [] => "."
  | a :: p => PosixPath.join a p
  end.

(** The argument that makes the linker record [$ORIGIN] (lines
    519-525); empty except on DragonFly BSD and OpenBSD. *)
Definition origin_args (host : Host) (self : Linker) : list string :=
  if is_dragonflybsd host || is_openbsd host
  then _apply_prefix self "-z,origin" else [].

(** The link-time search directives (lines 539-558), one per raw entry;
    none on SunOS. *)
Definition rpath_link_args (host : Host) (self : Linker) (build_dir : string)
           (rpath_paths : list string) : list string :=
  if is_sunos host then []
  else flat_map
         (fun p => _apply_prefix self
                     ("-rpath-link," ++ PosixPath.join2 build_dir p)%string)
         rpath_paths.



(* ================================================================== *)
(** ** Sample objects *)

(** Concrete hosts, environments and linkers on which the statements
    below are instantiated. *)
Module Sample.

Definition linux_host : Host :=
  {| getcwd := Ok "/home/user/project";
     is_dragonflybsd := false; is_openbsd := false; is_sunos := false |}.

Definition openbsd_host : Host :=
  {| getcwd := Ok "/home/user/project";
     is_dragonflybsd := false; is_openbsd := true; is_sunos := false |}.

(** A host whose current directory has been removed: [os.getcwd()]
    raises [FileNotFoundError], an [OSError]. *)
Definition adrift_host : Host :=
  {| getcwd := Raise (OSError "[Errno 2] No such file or directory");
     is_dragonflybsd := false; is_openbsd := false; is_sunos := false |}.

Definition elf_machine : MachineInfo :=
  {| is_windows := false; is_cygwin := false; is_haiku := false |}.

Definition elf_env : Environment := {| machines := fun _ => elf_machine |}.

Definition ld_bfd : Linker :=
  {| class_of := GnuDynamicLinker; exelist := ["ld.bfd"];
     for_machine := HOST; version := "2.31.1"; id := "ld.bfd";
     prefix_arg := PrefixStr "-Wl," |}.

Definition ld64 : Linker :=
  {| class_of := AppleDynamicLinker; exelist := ["ld"];
     for_machine := HOST; version := "450.3"; id := "ld64";
     prefix_arg := PrefixStr "-Wl," |}.

Definition solaris_ld : Linker :=
  {| class_of := SolarisDynamicLinker; exelist := ["ld"];
     for_machine := HOST; version := "5.11"; id := "ld.solaris";
     prefix_arg := PrefixStr "-Wl," |}.

Definition nvlink : Linker :=
  {| class_of := CudaLinker; exelist := ["nvlink"];
     for_machine := HOST; version := "10.0.166"; id := "nvlink";
     prefix_arg := PrefixList ["-Xlinker"] |}.

Definition armlink : Linker :=
  {| class_of := ArmDynamicLinker; exelist := ["armlink"];
     for_machine := HOST; version := "unknown version"; id := "armlink";
     prefix_arg := PrefixStr "" |}.

(** A probe that runs and prints the banner of nvlink 10.0. *)
Definition nvlink_banner : string :=
  "nvlink: NVIDIA (R) Cuda linker" ++ String "010" (
  "Cuda compilation tools, release 10.0, V10.0.166" ++ String "010" "").

Definition probe_ok : CudaLinker.Popen_safe_t :=
  fun _ => Ok (0, nvlink_banner, "").

(** A probe whose program is missing. *)
Definition probe_missing : CudaLinker.Popen_safe_t :=
  fun _ => Raise (OSError "No such file or directory: 'nvlink'").

(** A probe that runs a program which prints something else. *)
Definition probe_other : CudaLinker.Popen_safe_t :=
  fun _ => Ok (1, "nvlink: unrecognized option", "").

End Sample.

(* ================================================================== *)
(** * Properties *)

(** ** Strings *)

Section StringFacts.

Lemma str_app_assoc (a b c : string) :
  ((a ++ b) ++ c = a ++ (b ++ c))%string.
Proof. induction a as [|x a IH]; simpl; [reflexivity | now rewrite IH]. Qed.

Lemma str_app_nil_r (a : string) : (a ++ "" = a)%string.
Proof. induction a as [|x a IH]; simpl; [reflexivity | now rewrite IH]. Qed.

Lemma str_length_app (a b : string) :
  String.length (a ++ b) = String.length a + String.length b.
Proof. induction a as [|x a IH]; simpl; [reflexivity | now rewrite IH]. Qed.

Lemma length_repeat (c : ascii) (n : nat) :
  String.length (PyStr.repeat c n) = n.
Proof. induction n as [|n IH]; simpl; [reflexivity | now rewrite IH]. Qed.

Lemma is_empty_true (s : string) : PyStr.is_empty s = true <-> s = "".
Proof. destruct s; simpl; split; intro H; try reflexivity; discriminate. Qed.

Lemma is_empty_false (s : string) : PyStr.is_empty s = false <-> s <> "".
Proof.
  destruct s; simpl; split; intro H; try reflexivity; try discriminate.
  now contradiction H.
Qed.

Lemma is_empty_app (a b : string) :
  PyStr.is_empty (a ++ b) = PyStr.is_empty a && PyStr.is_empty b.
Proof. destruct a; reflexivity. Qed.

Lemma startswith_app (c : ascii) (a b : string) :
  a <> "" -> PyStr.startswith c (a ++ b) = PyStr.startswith c a.
Proof. destruct a; simpl; [intro H; now contradiction H | reflexivity]. Qed.

Lemma contains_startswith (c : ascii) (s : string) :
  PyStr.contains c s = false -> PyStr.startswith c s = false.
Proof.
  destruct s as [|a s]; simpl; [reflexivity|].
  intro H. now apply orb_false_iff in H.
Qed.

(** [split] never returns the empty list. *)
Lemma split_not_nil (c : ascii) (s : string) : PyStr.split c s <> [].
Proof.
  induction s as [|a s IH]; simpl; [discriminate|].
  destruct (Ascii.eqb a c); [discriminate|].
  destruct (PyStr.split c s); [contradiction | discriminate].
Qed.

(** No piece of a [split] contains the separator. *)
Lemma split_pieces_free (c : ascii) (s e : string) :
  In e (PyStr.split c s) -> PyStr.contains c e = false.
Proof.
  revert e. induction s as [|a s IH]; simpl; intros e H.
  - destruct H as [<-|[]]. reflexivity.
  - destruct (Ascii.eqb a c) eqn:Hac.
    + destruct H as [<-|H]; [reflexivity | now apply IH].
    + destruct (PyStr.split c s) as [|w ws] eqn:Hs.
      * now destruct (split_not_nil c s).
      * destruct H as [<-|H].
        -- simpl. rewrite Hac. simpl. apply IH. now left.
        -- apply IH. now right.
Qed.

(** A string without the separator is its own single piece. *)
Lemma split_free (c : ascii) (s : string) :
  PyStr.contains c s = false -> PyStr.split c s = [s].
Proof.
  induction s as [|a s IH]; simpl; [reflexivity|].
  intro H. apply orb_false_iff in H. destruct H as [Hac Hs].
  rewrite Hac, (IH Hs). reflexivity.
Qed.

(** Splitting around an occurrence of the separator. *)
Lemma split_app (c : ascii) (a b : string) :
  PyStr.split c (a ++ String c b) = PyStr.split c a ++ PyStr.split c b.
Proof.
  induction a as [|x a IH]; simpl.
  - now rewrite Ascii.eqb_refl.
  - destruct (Ascii.eqb x c); rewrite IH; [reflexivity|].
    destruct (PyStr.split c a) as [|w ws] eqn:Hs; [|reflexivity].
    now destruct (split_not_nil c a).
Qed.

Lemma last_app_not_nil (l1 l2 : list string) (d : string) :
  l2 <> [] -> List.last (l1 ++ l2) d = List.last l2 d.
Proof.
  intro H. induction l1 as [|x l1 IH]; simpl; [reflexivity|].
  destruct (l1 ++ l2) eqn:E; [|exact IH].
  apply app_eq_nil in E. now destruct E.
Qed.

(** The last piece is what follows the last separator. *)
Lemma last_item_split_after (c : ascii) (a b : string) :
  PyStr.contains c b = false ->
  PyStr.last_item (PyStr.split c (a ++ String c b)) = b.
Proof.
  intro Hb. unfold PyStr.last_item.
  rewrite split_app, last_app_not_nil by apply split_not_nil.
  now rewrite (split_free _ _ Hb).
Qed.

Lemma join_nil_iff (sp : string) (l : list string) :
  Forall (fun x => x <> "") l -> (PyStr.join sp l = "" <-> l = []).
Proof.
  intro HF. split; [|intros ->; reflexivity].
  destruct l as [|x l]; [reflexivity|].
  inversion HF as [|? ? Hx _]; subst.
  destruct x; [now contradiction Hx|].
  destruct l; simpl; discriminate.
Qed.

Lemma str_app_inv_head (a x y : string) :
  (a ++ x)%string = (a ++ y)%string -> x = y.
Proof.
  induction a as [|c a IH]; simpl; intro H; [exact H|].
  inversion H. now apply IH.
Qed.

End StringFacts.

(** ** Dispatch *)

Section Dispatch.

Variable self : Linker.

Lemma gnu_like_get_link_whole_for :
  is_gnu_like (class_of self) = true ->
  get_link_whole_for self = GnuLikeDynamicLinkerMixin.get_link_whole_for self.
Proof.
  unfold get_link_whole_for. destruct (class_of self); try discriminate;
    reflexivity.
Qed.

Lemma apple_like_get_link_whole_for :
  is_apple_like (class_of self) = true ->
  get_link_whole_for self = AppleDynamicLinker.get_link_whole_for self.
Proof.
  unfold get_link_whole_for. destruct (class_of self); try discriminate;
    reflexivity.
Qed.

Lemma gnu_like_get_soname_args :
  is_gnu_like (class_of self) = true ->
  get_soname_args self = GnuLikeDynamicLinkerMixin.get_soname_args self.
Proof.
  unfold get_soname_args. destruct (class_of self); try discriminate;
    reflexivity.
Qed.

Lemma gnu_like_build_rpath_args (host : Host) :
  is_gnu_like (class_of self) = true ->
  build_rpath_args host self =
  GnuLikeDynamicLinkerMixin.build_rpath_args host self.
Proof.
  unfold build_rpath_args. destruct (class_of self); try discriminate;
    reflexivity.
Qed.

Lemma apple_like_build_rpath_args (host : Host) :
  is_apple_like (class_of self) = true ->
  build_rpath_args host self = AppleDynamicLinker.build_rpath_args host self.
Proof.
  unfold build_rpath_args. destruct (class_of self); try discriminate;
    reflexivity.
Qed.

Lemma solaris_build_rpath_args (host : Host) :
  class_of self = SolarisDynamicLinker ->
  build_rpath_args host self =
  SolarisDynamicLinker.build_rpath_args host self.
Proof. unfold build_rpath_args. intros ->. reflexivity. Qed.

(** Among the variants, exactly the GNU-like and the Apple ones
    supply [get_pie_args]; the others inherit the base definition. *)
Lemma get_pie_args_provider_variants :
  is_variant (class_of self) = true ->
  get_pie_args_provider (class_of self) =
  if is_gnu_like (class_of self) then Some GnuLikeDynamicLinkerMixin
  else if is_apple_like (class_of self) then Some AppleDynamicLinker
  else Some DynamicLinker.
Proof. destruct (class_of self); try discriminate; reflexivity. Qed.

Lemma supplied_get_pie_args :
  is_gnu_like (class_of self) || is_apple_like (class_of self) = true ->
  get_pie_args self = Ok ["-pie"].
Proof.
  unfold get_pie_args. destruct (class_of self); try discriminate;
    reflexivity.
Qed.

End Dispatch.

(** The loop of [AppleDynamicLinker.get_link_whole_for], started from
    any accumulated [result]. *)
Lemma force_load_loop (self : Linker) (args acc : list string) :
  fold_left
    (fun result a => (result ++ _apply_prefix self "-force_load") ++ [a])
    args acc
  = acc ++ flat_map (fun a => _apply_prefix self "-force_load" ++ [a]) args.
Proof.
  revert acc. induction args as [|a args IH]; intro acc; simpl.
  - now rewrite app_nil_r.
  - rewrite IH. now rewrite <- !app_assoc.
Qed.

(** The loops that extend [args] by one prefixed argument per item. *)
Lemma extend_loop (self : Linker) (f : string -> string)
      (items acc : list string) :
  fold_left (fun args p => args ++ _apply_prefix self (f p)) items acc
  = acc ++ flat_map (fun p => _apply_prefix self (f p)) items.
Proof.
  revert acc. induction items as [|a items IH]; intro acc; simpl.
  - now rewrite app_nil_r.
  - rewrite IH. now rewrite <- app_assoc.
Qed.

(** ** The claims on single methods *)

(** C10: on the GNU-like and on the Apple dynamic linkers,
    [sanitizer_args('none')] is the empty list, and for every other
    value [v] the result is exactly [['-fsanitize=' + v]]. *)
Theorem sanitizer_args_none_or_flag (self : Linker) (value : string) :
  is_gnu_like (class_of self) || is_apple_like (class_of self) = true ->
  sanitizer_args self "none" = Ok [] /\
  (value <> "none" ->
   sanitizer_args self value = Ok [("-fsanitize=" ++ value)%string]).
Proof.
  intro Hc.
  assert (Hm : sanitizer_args self value
               = Ok (if String.eqb value "none" then []
                     else [("-fsanitize=" ++ value)%string])
               /\ sanitizer_args self "none" = Ok []).
  { unfold sanitizer_args.
    destruct (class_of self); try discriminate Hc; split; reflexivity. }
  destruct Hm as [Hv Hnone]. split; [exact Hnone|].
  intro Hne. rewrite Hv.
  apply String.eqb_neq in Hne. now rewrite Hne.
Qed.

Lemma sanitizer_args_none_or_flag_witness :
  (sanitizer_args Sample.ld_bfd "none" = Ok [] /\
   sanitizer_args Sample.ld_bfd "address" = Ok ["-fsanitize=address"]) /\
  (sanitizer_args Sample.ld64 "none" = Ok [] /\
   sanitizer_args Sample.ld64 "thread" = Ok ["-fsanitize=thread"]).
Proof.
  split.
  - destruct (sanitizer_args_none_or_flag Sample.ld_bfd "address" eq_refl)
      as [H1 H2].
    split; [exact H1 | apply H2; discriminate].
  - destruct (sanitizer_args_none_or_flag Sample.ld64 "thread" eq_refl)
      as [H1 H2].
    split; [exact H1 | apply H2; discriminate].
Defined.

(** C8: on a variant that does not supply [get_pie_args] (the call
    reaches [DynamicLinker.get_pie_args]), the call raises an
    [EnvironmentException] whose message carries the linker id; it
    returns no argument list, in particular not the empty one, which is
    what a variant that supports PIE without arguments would return. *)
Theorem get_pie_args_unsupported (self : Linker) :
  get_pie_args_provider (class_of self) = Some DynamicLinker ->
  get_pie_args self =
  Raise (EnvironmentException
           ("Linker " ++ id self
            ++ " does not support position-independent executable")%string)
  /\ get_pie_args self <> Ok []
  /\ forall args, get_pie_args self <> Ok args.
Proof.
  intro Hp.
  assert (H : get_pie_args self = DynamicLinker.get_pie_args self).
  { unfold get_pie_args. unfold get_pie_args_provider in Hp.
    destruct (class_of self); try discriminate Hp; reflexivity. }
  rewrite H. unfold DynamicLinker.get_pie_args.
  split; [reflexivity|]. split; [discriminate|]. intros args; discriminate.
Qed.

Lemma get_pie_args_unsupported_witness :
  get_pie_args Sample.solaris_ld =
  Raise (EnvironmentException
           "Linker ld.solaris does not support position-independent executable")
  /\ get_pie_args Sample.solaris_ld <> Ok []
  /\ forall args, get_pie_args Sample.solaris_ld <> Ok args.
Proof. exact (get_pie_args_unsupported Sample.solaris_ld eq_refl). Defined.

(** C7: on a GNU-style linker [get_link_whole_for] wraps a non-empty
    list once, between the prefixed [--whole-archive] and the prefixed
    [--no-whole-archive]; on an Apple-style linker every member is
    preceded by its own prefixed [-force_load]; on the empty list both
    return the empty list, without any marker. *)
Theorem get_link_whole_for_wrapping (gnu apple : Linker) (args : list string) :
  is_gnu_like (class_of gnu) = true ->
  is_apple_like (class_of apple) = true ->
  (args <> [] ->
   get_link_whole_for gnu args =
   Ok (_apply_prefix gnu "--whole-archive" ++ args
       ++ _apply_prefix gnu "--no-whole-archive"))
  /\ get_link_whole_for apple args =
     Ok (flat_map (fun a => _apply_prefix apple "-force_load" ++ [a]) args)
  /\ get_link_whole_for gnu [] = Ok []
  /\ get_link_whole_for apple [] = Ok [].
Proof.
  intros Hg Ha.
  rewrite (gnu_like_get_link_whole_for gnu Hg).
  rewrite (apple_like_get_link_whole_for apple Ha).
  unfold GnuLikeDynamicLinkerMixin.get_link_whole_for,
    AppleDynamicLinker.get_link_whole_for.
  repeat split.
  - intro Hne. destruct args as [|a args]; [now contradiction Hne|].
    reflexivity.
  - now rewrite force_load_loop.
Qed.

Lemma get_link_whole_for_wrapping_witness :
  get_link_whole_for Sample.ld_bfd ["a.a"; "b.a"] =
  Ok ["-Wl,--whole-archive"; "a.a"; "b.a"; "-Wl,--no-whole-archive"]
  /\ get_link_whole_for Sample.ld64 ["a.a"; "b.a"] =
     Ok ["-Wl,-force_load"; "a.a"; "-Wl,-force_load"; "b.a"]
  /\ get_link_whole_for Sample.ld_bfd [] = Ok []
  /\ get_link_whole_for Sample.ld64 [] = Ok [].
Proof.
  destruct (get_link_whole_for_wrapping Sample.ld_bfd Sample.ld64
              ["a.a"; "b.a"] eq_refl eq_refl) as (H1 & H2 & H3 & H4).
  split; [apply H1; discriminate|].
  split; [exact H2|]. split; [exact H3 | exact H4].
Defined.

(** The SONAME directive of the GNU-like linkers, for any components. *)
Lemma gnu_like_soname_directive (self : Linker) (env : Environment)
      (prefix shlib_name suffix : string) (soversion : option string)
      (darwin_versions : option (string * string)) (is_shared_module : bool) :
  is_gnu_like (class_of self) = true ->
  is_windows (machines env (for_machine self)) = false ->
  is_cygwin (machines env (for_machine self)) = false ->
  get_soname_args self env prefix shlib_name suffix soversion darwin_versions
    is_shared_module
  = Ok (_apply_prefix self
          ("-soname," ++ prefix ++ shlib_name ++ "." ++ suffix
           ++ match soversion with
              | None => ""
              | Some v => "." ++ v
              end)%string).
Proof.
  intros Hc Hw Hy. rewrite (gnu_like_get_soname_args self Hc).
  unfold GnuLikeDynamicLinkerMixin.get_soname_args. rewrite Hw, Hy. simpl.
  destruct soversion; reflexivity.
Qed.

(** C6: on a GNU-like linker whose target is neither Windows nor
    Cygwin, [get_soname_args] with prefix [lib], name [foo], suffix [so]
    and soversion [1] is the one directive [-soname,libfoo.so.1], passed
    through the prefix of the linker; with no soversion the version
    segment is left out and the directive is [-soname,libfoo.so]. *)
Theorem get_soname_args_elf (self : Linker) (env : Environment)
        (darwin_versions : option (string * string))
        (is_shared_module : bool) :
  is_gnu_like (class_of self) = true ->
  is_windows (machines env (for_machine self)) = false ->
  is_cygwin (machines env (for_machine self)) = false ->
  get_soname_args self env "lib" "foo" "so" (Some "1") darwin_versions
    is_shared_module
  = Ok (match prefix_arg self with
        | PrefixStr s => [(s ++ "-soname,libfoo.so.1")%string]
        | PrefixList l => l ++ ["-soname,libfoo.so.1"]
        end)
  /\ get_soname_args self env "lib" "foo" "so" None darwin_versions
       is_shared_module
     = Ok (match prefix_arg self with
           | PrefixStr s => [(s ++ "-soname,libfoo.so")%string]
           | PrefixList l => l ++ ["-soname,libfoo.so"]
           end).
Proof.
  intros Hc Hw Hy.
  rewrite !(gnu_like_soname_directive self env _ _ _ _ _ _ Hc Hw Hy).
  split; reflexivity.
Qed.

Lemma get_soname_args_elf_witness :
  get_soname_args Sample.ld_bfd Sample.elf_env "lib" "foo" "so" (Some "1")
    None false
  = Ok ["-Wl,-soname,libfoo.so.1"]
  /\ get_soname_args Sample.ld_bfd Sample.elf_env "lib" "foo" "so" None
       None false
     = Ok ["-Wl,-soname,libfoo.so"].
Proof.
  exact (get_soname_args_elf Sample.ld_bfd Sample.elf_env None false
           eq_refl eq_refl eq_refl).
Defined.

(** ** The version probe of the CUDA linker *)

(** The output of the probe used against C9 has no [V] in it, and
    [parse_version] returns it whole instead of the sentinel. *)
Lemma parse_version_without_V_not_sentinel :
  PyStr.contains "V" "nvlink: unrecognized option" = false
  /\ CudaLinker.parse_version Sample.probe_other
     = Ok "nvlink: unrecognized option"
  /\ CudaLinker.parse_version Sample.probe_other <> Ok "unknown version".
Proof. split; [reflexivity|]. split; [reflexivity | discriminate]. Qed.

(** C9, amended: [parse_version] returns the sentinel when running
    the probe raises [OSError], and lets every other exception of the
    probe through; when the probe returns, whatever its return code,
    the result is what follows the last [V] of the stripped output, and
    the whole stripped output when there is no [V] in it. *)
Theorem parse_version_cases (Popen_safe : CudaLinker.Popen_safe_t) :
  (forall msg,
      Popen_safe ["nvlink"; "--version"] = Raise (OSError msg) ->
      CudaLinker.parse_version Popen_safe = Ok "unknown version")
  /\ (forall e,
         Popen_safe ["nvlink"; "--version"] = Raise e ->
         (forall msg, e <> OSError msg) ->
         CudaLinker.parse_version Popen_safe = Raise e)
  /\ (forall p out err,
         Popen_safe ["nvlink"; "--version"] = Ok (p, out, err) ->
         (forall a b,
             PyStr.strip out = (a ++ String "V" b)%string ->
             PyStr.contains "V" b = false ->
             CudaLinker.parse_version Popen_safe = Ok b)
         /\ (PyStr.contains "V" (PyStr.strip out) = false ->
             CudaLinker.parse_version Popen_safe = Ok (PyStr.strip out))).
Proof.
  unfold CudaLinker.parse_version. split; [|split].
  - intros msg ->. reflexivity.
  - intros e -> He. destruct e; try reflexivity.
    now contradiction (He msg).
  - intros p out err ->. split.
    + intros a b -> Hb. now rewrite last_item_split_after.
    + intro HV. now rewrite (split_free _ _ HV).
Qed.

Lemma parse_version_cases_witness :
  CudaLinker.parse_version Sample.probe_missing = Ok "unknown version"
  /\ CudaLinker.parse_version Sample.probe_ok = Ok "10.0.166"
  /\ CudaLinker.parse_version Sample.probe_other
     = Ok "nvlink: unrecognized option".
Proof.
  destruct (parse_version_cases Sample.probe_missing) as [H1 _].
  destruct (parse_version_cases Sample.probe_ok) as (_ & _ & H2).
  destruct (parse_version_cases Sample.probe_other) as (_ & _ & H3).
  split; [exact (H1 _ eq_refl)|]. split.
  - destruct (H2 _ _ _ eq_refl) as [H _].
    apply (H ("nvlink: NVIDIA (R) Cuda linker" ++ String "010"
                "Cuda compilation tools, release 10.0, ")%string "10.0.166");
      reflexivity.
  - destruct (H3 _ _ _ eq_refl) as [_ H]. apply H. reflexivity.
Defined.

(** ** Path resolution *)

Section PathFacts.

(** The components that [join] appends never replace what is already
    there when none of them is absolute. *)
Lemma join_keeps_head (a : string) (p : list string) :
  Forall (fun b => PyStr.startswith PosixPath.sep b = false) p ->
  exists t, PosixPath.join a p = (a ++ t)%string.
Proof.
  unfold PosixPath.join. revert a.
  induction p as [|b p IH]; intros a HF; simpl.
  - exists "". now rewrite str_app_nil_r.
  - inversion HF as [|? ? Hb HF']; subst.
    unfold PosixPath.join_step at 2. rewrite Hb.
    destruct (PyStr.is_empty a || PyStr.endswith PosixPath.sep a).
    + destruct (IH (a ++ b)%string HF') as [t Ht].
      exists (b ++ t)%string. now rewrite Ht, str_app_assoc.
    + destruct (IH (a ++ "/" ++ b)%string HF') as [t Ht].
      exists ("/" ++ b ++ t)%string. rewrite Ht.
      now rewrite !str_app_assoc.
Qed.

Lemma components_spec (s e : string) :
  In e (PosixPath.components s) ->
  e <> "" /\ PyStr.startswith PosixPath.sep e = false.
Proof.
  unfold PosixPath.components. intro H.
  apply filter_In in H. destruct H as [Hin Hne]. split.
  - apply is_empty_false. now apply negb_true_iff.
  - apply contains_startswith. now apply split_pieces_free with (s := s).
Qed.

(** [abspath] calls [os.getcwd()] for a path that is not absolute, and
    only then. *)
Lemma abspath_absolute (g : result string) (path : string) :
  PosixPath.isabs path = true ->
  PosixPath.abspath g path = Ok (PosixPath.normpath path).
Proof. intro H. unfold PosixPath.abspath. now rewrite H. Qed.

Lemma abspath_relative (cwd path : string) :
  PosixPath.isabs path = false ->
  PosixPath.abspath (Ok cwd) path
  = Ok (PosixPath.normpath (PosixPath.join2 cwd path)).
Proof. intro H. unfold PosixPath.abspath. now rewrite H. Qed.

Lemma abspath_raises (g : result string) (path : string) (e : exn) :
  PosixPath.abspath g path = Raise e
  <-> PosixPath.isabs path = false /\ g = Raise e.
Proof.
  unfold PosixPath.abspath.
  destruct (PosixPath.isabs path).
  - split; [discriminate | intros [H _]; discriminate].
  - destruct g as [d|e']; simpl.
    + split; [discriminate | intros [_ H]; discriminate].
    + split; [intro H; inversion H; now split|].
      intros [_ H]. now inversion H.
Qed.

(** What [relpath] returns is never an absolute path. *)
Lemma relpath_not_abs (g : result string) (path start r : string) :
  PosixPath.relpath g path start = Ok r -> PosixPath.isabs r = false.
Proof.
  unfold PosixPath.relpath.
  destruct (PyStr.is_empty path); [discriminate|].
  destruct (PosixPath.abspath g start) as [start_abs|]; [|discriminate].
  destruct (PosixPath.abspath g path) as [path_abs|]; [|discriminate].
  cbn [bind].
  set (start_list := PosixPath.components start_abs).
  set (path_list := PosixPath.components path_abs).
  set (i := List.length (PosixPath.commonprefix start_list path_list)).
  set (rel_list := List.repeat ".." (List.length start_list - i)
                     ++ skipn i path_list).
  assert (HF : Forall (fun e => e <> ""
                         /\ PyStr.startswith PosixPath.sep e = false)
                      rel_list).
  { apply Forall_app. split.
    - apply Forall_forall. intros e He. apply repeat_spec in He. subst e.
      split; [discriminate | reflexivity].
    - apply Forall_forall. intros e He.
      apply (components_spec path_abs).
      fold path_list.
      rewrite <- (firstn_skipn i path_list). apply in_or_app. now right. }
  destruct rel_list as [|a p]; intro H; inversion H; subst; [reflexivity|].
  inversion HF as [|? ? [Ha1 Ha2] HF']; subst.
  destruct (join_keeps_head a p) as [t Ht].
  { eapply Forall_impl; [|exact HF']. now intros e [_ He]. }
  rewrite Ht. unfold PosixPath.isabs. now rewrite startswith_app.
Qed.

(** [os.path.join(a, b)] is empty only when both arguments are. *)
Lemma join2_empty (a b : string) :
  PosixPath.join2 a b = "" -> a = "" /\ b = "".
Proof.
  unfold PosixPath.join2, PosixPath.join, PosixPath.join_step. simpl.
  destruct b as [|x b]; simpl.
  - destruct (PyStr.is_empty a || PyStr.endswith PosixPath.sep a).
    + rewrite str_app_nil_r. now intros ->.
    + destruct a; simpl; discriminate.
  - destruct (Ascii.eqb x PosixPath.sep); [discriminate|].
    destruct (PyStr.is_empty a || PyStr.endswith PosixPath.sep a);
      destruct a; simpl; discriminate.
Qed.

Lemma join2_absolute (a b : string) :
  PosixPath.isabs b = true -> PosixPath.join2 a b = b.
Proof.
  unfold PosixPath.join2, PosixPath.join, PosixPath.join_step,
    PosixPath.isabs. simpl. now intros ->.
Qed.

(** [relpath] returns on a path that is not empty, as long as
    [os.getcwd()] returns or is not called. *)
Lemma relpath_returns (g : result string) (path start : string) :
  path <> "" ->
  (PosixPath.isabs path = true /\ PosixPath.isabs start = true)
  \/ (exists d, g = Ok d) ->
  exists r, PosixPath.relpath g path start = Ok r.
Proof.
  intros Hne Hg. unfold PosixPath.relpath.
  apply is_empty_false in Hne. rewrite Hne.
  assert (H : exists sa pa,
             PosixPath.abspath g start = Ok sa
             /\ PosixPath.abspath g path = Ok pa).
  { destruct Hg as [[Hp Hs]|[d ->]].
    - rewrite (abspath_absolute g _ Hp), (abspath_absolute g _ Hs). eauto.
    - unfold PosixPath.abspath.
      destruct (PosixPath.isabs start), (PosixPath.isabs path);
        cbn [bind]; eauto. }
  destruct H as (sa & pa & -> & ->). cbn [bind].
  destruct (_ ++ _)%list; eauto.
Qed.

Variable host : Host.
Variables build_dir from_dir : string.

(** A resolved entry is absolute exactly when the raw entry is
    absolute and is not [from_dir]. *)
Lemma evaluate_rpath_isabs (p r : string) :
  evaluate_rpath host p build_dir from_dir = Ok r ->
  PosixPath.isabs r = PosixPath.isabs p && negb (String.eqb p from_dir).
Proof.
  unfold evaluate_rpath.
  destruct (String.eqb p from_dir); simpl.
  - intro H; inversion H; subst. now rewrite andb_false_r.
  - rewrite andb_true_r. destruct (PosixPath.isabs p) eqn:Hp.
    + intro H; inversion H; now subst.
    + apply relpath_not_abs.
Qed.

(** An absolute entry other than [from_dir] passes through. *)
Lemma evaluate_rpath_passes (p : string) :
  PosixPath.isabs p = true -> p <> from_dir ->
  evaluate_rpath host p build_dir from_dir = Ok p.
Proof.
  intros Habs Hne. unfold evaluate_rpath.
  apply String.eqb_neq in Hne. now rewrite Hne, Habs.
Qed.

End PathFacts.

(** ** Resolution against the build root *)

Section AtBuildRoot.

Lemma endswith_app_sep (w : string) :
  PyStr.endswith PosixPath.sep w = true ->
  exists w', w = (w' ++ "/")%string.
Proof.
  induction w as [|c w IH]; simpl; [discriminate|].
  destruct w as [|d w].
  - intro H. apply Ascii.eqb_eq in H. subst c. now exists "".
  - intro H. destruct (IH H) as [w' Hw]. exists (String c w').
    simpl. now rewrite <- Hw.
Qed.

Lemma endswith_app (a b : string) :
  b <> "" -> PyStr.endswith PosixPath.sep (a ++ b)
             = PyStr.endswith PosixPath.sep b.
Proof.
  intro Hb. induction a as [|c a IH]; [reflexivity|].
  simpl. destruct (a ++ b)%string eqn:E; [|exact IH].
  destruct a; simpl in E; [now subst | discriminate].
Qed.

Lemma removelast_In (l : list string) (x : string) :
  In x (removelast l) -> In x l.
Proof.
  induction l as [|y l IH]; simpl; [tauto|].
  destruct l as [|z l]; [intros []|].
  intros [->|H]; [now left | right; now apply IH].
Qed.

(** The loop of [normpath] only keeps plain components. *)
Lemma normpath_loop_plain (k : nat) (comps acc : list string) :
  Forall (fun e => PyStr.contains PosixPath.sep e = false) comps ->
  Forall plain acc ->
  Forall plain (fold_left (PosixPath.normpath_step k) comps acc).
Proof.
  revert acc. induction comps as [|c comps IH]; intros acc Hc Ha; simpl;
    [exact Ha|].
  inversion Hc as [|? ? Hc1 Hc2]; subst. apply IH; [exact Hc2|].
  unfold PosixPath.normpath_step.
  destruct (String.eqb_spec c "") as [->|Hne]; simpl; [exact Ha|].
  destruct (String.eqb c "."); simpl; [exact Ha|].
  match goal with |- Forall _ (if ?b then _ else _) => destruct b end.
  - apply Forall_app. split; [exact Ha|]. repeat constructor; assumption.
  - destruct (negb (PosixPath.is_nil acc)); [|exact Ha].
    apply Forall_forall. intros x Hx. apply removelast_In in Hx.
    revert x Hx. now apply Forall_forall.
Qed.

Lemma split_sep_free (s : string) :
  Forall (fun e => PyStr.contains PosixPath.sep e = false)
         (PyStr.split PosixPath.sep s).
Proof. apply Forall_forall. intros e. apply split_pieces_free. Qed.

Lemma components_cons_sep (s : string) :
  PosixPath.components (String PosixPath.sep s) = PosixPath.components s.
Proof. reflexivity. Qed.

Lemma components_repeat_sep (k : nat) (s : string) :
  PosixPath.components (PyStr.repeat PosixPath.sep k ++ s)
  = PosixPath.components s.
Proof. induction k as [|k IH]; simpl; [reflexivity | exact IH]. Qed.

Lemma components_app (a b : string) :
  PosixPath.components (a ++ String "/" b)
  = PosixPath.components a ++ PosixPath.components b.
Proof.
  unfold PosixPath.components, PosixPath.sep.
  now rewrite split_app, filter_app.
Qed.

(** The components of a [/]-joined list of plain components are the
    list itself. *)
Lemma components_join (l : list string) :
  Forall plain l -> PosixPath.components (PyStr.join "/" l) = l.
Proof.
  induction l as [|x l IH]; intro H; [reflexivity|].
  inversion H as [|? ? [Hx1 Hx2] Hl]; subst.
  assert (Hx : PosixPath.components x = [x]).
  { unfold PosixPath.components. rewrite (split_free _ _ Hx2). simpl.
    apply is_empty_false in Hx1. now rewrite Hx1. }
  destruct l as [|y l]; [exact Hx|].
  change (PyStr.join "/" (x :: y :: l))
    with (x ++ String "/" (PyStr.join "/" (y :: l)))%string.
  rewrite components_app, Hx, (IH Hl). reflexivity.
Qed.

Lemma commonprefix_app (l t : list string) :
  PosixPath.commonprefix l (l ++ t) = l.
Proof.
  induction l as [|x l IH]; simpl; [now destruct t|].
  now rewrite String.eqb_refl, IH.
Qed.

Lemma skipn_length_app (l t : list string) :
  skipn (List.length l) (l ++ t) = t.
Proof. induction l as [|x l IH]; simpl; [reflexivity | exact IH]. Qed.

(** Appending a relative suffix after a final slash does not change the
    count of initial slashes. *)
Lemma initial_slashes_app (w s : string) :
  PyStr.startswith PosixPath.sep s = false ->
  PosixPath.initial_slashes ((w ++ "/") ++ s)
  = PosixPath.initial_slashes (w ++ "/").
Proof.
  intro Hs. unfold PosixPath.initial_slashes.
  destruct w as [|c1 [|c2 [|c3 w]]]; cbn.
  - destruct s as [|a s]; cbn; [reflexivity|].
    cbn in Hs. unfold PosixPath.sep in Hs. now rewrite Hs.
  - destruct (Ascii.eqb c1 PosixPath.sep) eqn:H1; [|reflexivity].
    unfold PosixPath.sep in H1. rewrite H1. cbn.
    destruct s as [|a s]; cbn; [reflexivity|].
    cbn in Hs. unfold PosixPath.sep in Hs. now rewrite Hs.
  - reflexivity.
  - reflexivity.
Qed.

Lemma join2_relative (a b : string) :
  PyStr.startswith PosixPath.sep b = false ->
  PosixPath.join2 a b = (dir_prefix a ++ b)%string.
Proof.
  intro Hb. unfold PosixPath.join2, PosixPath.join, PosixPath.join_step,
              dir_prefix. simpl. rewrite Hb.
  destruct (PyStr.is_empty a || PyStr.endswith PosixPath.sep a);
    [reflexivity | now rewrite str_app_assoc].
Qed.

Lemma dir_prefix_endswith (a : string) :
  a <> "" -> PyStr.endswith PosixPath.sep (dir_prefix a) = true.
Proof.
  intro Ha. unfold dir_prefix. apply is_empty_false in Ha. rewrite Ha. simpl.
  destruct (PyStr.endswith PosixPath.sep a) eqn:He; [exact He|].
  rewrite endswith_app; [reflexivity | discriminate].
Qed.

Lemma dir_prefix_isabs (a : string) :
  PosixPath.isabs (dir_prefix a) = PosixPath.isabs a.
Proof.
  unfold dir_prefix. destruct a as [|c a]; [reflexivity|].
  destruct (PyStr.is_empty (String c a)
            || PyStr.endswith PosixPath.sep (String c a)); reflexivity.
Qed.

Lemma normpath_loop_below (k : nat) (acc : list string) :
  fold_left (PosixPath.normpath_step k) [""] acc = acc
  /\ fold_left (PosixPath.normpath_step k) ["relative"; "path"] acc
     = acc ++ ["relative"; "path"].
Proof.
  split; [reflexivity|]. simpl. unfold PosixPath.normpath_step. simpl.
  now rewrite <- app_assoc.
Qed.

(** Normalising an absolute directory [w/] and a path below it. *)
Lemma normpath_below (w : string) :
  PosixPath.isabs (w ++ "/") = true ->
  exists S,
    PosixPath.components (PosixPath.normpath (w ++ "/")) = S
    /\ PosixPath.components
         (PosixPath.normpath ((w ++ "/") ++ "relative/path"))
       = S ++ ["relative"; "path"].
Proof.
  intro Habs.
  assert (Hk : exists k', PosixPath.initial_slashes (w ++ "/") = S k').
  { unfold PosixPath.initial_slashes.
    unfold PosixPath.isabs in Habs. rewrite Habs.
    destruct (_ && _); eauto. }
  destruct Hk as [k' Hk].
  assert (H1 : PyStr.split PosixPath.sep (w ++ "/")
               = PyStr.split PosixPath.sep w ++ [""])
    by apply (split_app PosixPath.sep w "").
  assert (H2 : PyStr.split PosixPath.sep ((w ++ "/") ++ "relative/path")
               = PyStr.split PosixPath.sep w ++ ["relative"; "path"]).
  { rewrite str_app_assoc.
    apply (split_app PosixPath.sep w "relative/path"). }
  assert (E1 : PyStr.is_empty (w ++ "/") = false) by (now destruct w).
  assert (E2 : PyStr.is_empty ((w ++ "/") ++ "relative/path") = false)
    by (now destruct w).
  unfold PosixPath.normpath.
  rewrite initial_slashes_app by reflexivity.
  rewrite E1, E2, H1, H2, Hk, !fold_left_app.
  set (S0 := fold_left (PosixPath.normpath_step (S k'))
                       (PyStr.split PosixPath.sep w) []).
  assert (HS : Forall plain S0).
  { apply normpath_loop_plain; [apply split_sep_free | constructor]. }
  destruct (normpath_loop_below (S k') S0) as [-> ->].
  assert (E3 : forall x,
             PyStr.is_empty (PyStr.repeat PosixPath.sep (S k') ++ x) = false)
    by reflexivity.
  exists S0. rewrite !E3, !components_repeat_sep.
  split.
  - now apply components_join.
  - apply components_join. apply Forall_app. split; [exact HS|].
    repeat constructor; discriminate.
Qed.

(** Resolving [relative/path] when [from_dir] is the build root: the
    build directory is absolute, or the current directory is read and
    is absolute. *)
Lemma evaluate_rpath_at_build_root (host : Host) (build_dir : string) :
  PosixPath.isabs build_dir = true
  \/ (exists d, getcwd host = Ok d /\ PosixPath.isabs d = true) ->
  evaluate_rpath host "relative/path" build_dir "" = Ok "relative/path".
Proof.
  intro Hcwd. unfold evaluate_rpath. simpl String.eqb. cbv iota.
  change (PosixPath.isabs "relative/path") with false. cbv iota.
  rewrite !join2_relative by reflexivity. rewrite str_app_nil_r.
  set (Y := dir_prefix build_dir).
  assert (HW : exists w,
             PosixPath.isabs (w ++ "/") = true
             /\ PosixPath.abspath (getcwd host) Y
                = Ok (PosixPath.normpath (w ++ "/"))
             /\ PosixPath.abspath (getcwd host) (Y ++ "relative/path")
                = Ok (PosixPath.normpath ((w ++ "/") ++ "relative/path"))).
  { destruct (PosixPath.isabs Y) eqn:HY.
    - assert (Hb : build_dir <> "").
      { intro E. unfold Y in HY. rewrite E in HY. discriminate. }
      destruct (endswith_app_sep Y (dir_prefix_endswith _ Hb)) as [w Hw].
      exists w. rewrite <- Hw. split; [exact HY|].
      split; [now apply abspath_absolute|].
      apply abspath_absolute.
      unfold PosixPath.isabs in *. rewrite startswith_app; [exact HY|].
      intro E. rewrite E in HY. discriminate.
    - destruct Hcwd as [Hb|(d & Hd & Hcwd)].
      { unfold Y in HY. rewrite dir_prefix_isabs, Hb in HY. discriminate. }
      assert (Hc : d <> "") by (intro E; rewrite E in Hcwd; discriminate).
      assert (HYr : PosixPath.isabs (Y ++ "relative/path") = false).
      { unfold PosixPath.isabs in *. destruct Y; [reflexivity | exact HY]. }
      rewrite Hd, (abspath_relative d _ HY), (abspath_relative d _ HYr).
      rewrite !join2_relative by assumption.
      assert (He : PyStr.endswith PosixPath.sep (dir_prefix d ++ Y)
                   = true).
      { destruct (String.eqb_spec build_dir "") as [E|E].
        - unfold Y. rewrite E. change (dir_prefix "") with "".
          rewrite str_app_nil_r. now apply dir_prefix_endswith.
        - rewrite endswith_app; [now apply dir_prefix_endswith|].
          intro E'. pose proof (dir_prefix_endswith _ E) as H.
          fold Y in H. rewrite E' in H. discriminate. }
      destruct (endswith_app_sep _ He) as [w Hw].
      exists w. rewrite <- Hw. split; [|split].
      + unfold PosixPath.isabs. rewrite startswith_app.
        * fold (PosixPath.isabs (dir_prefix d)).
          now rewrite dir_prefix_isabs.
        * intro E. pose proof (dir_prefix_isabs d) as H.
          rewrite E, Hcwd in H. discriminate.
      + reflexivity.
      + now rewrite str_app_assoc. }
  destruct HW as (w & Hw & HY1 & HY2).
  destruct (normpath_below w Hw) as (S0 & HS1 & HS2).
  unfold PosixPath.relpath.
  assert (Hne : PyStr.is_empty (Y ++ "relative/path") = false).
  { rewrite is_empty_app. now rewrite andb_false_r. }
  rewrite Hne, HY1, HY2. cbn [bind]. rewrite HS1, HS2.
  rewrite commonprefix_app, Nat.sub_diag, skipn_length_app. reflexivity.
Qed.

(** A path joined behind an absolute directory is absolute. *)
Lemma join2_isabs (a b : string) :
  PosixPath.isabs a = true -> PosixPath.isabs (PosixPath.join2 a b) = true.
Proof.
  intro Ha. destruct (PosixPath.isabs b) eqn:Hb.
  - now rewrite join2_absolute.
  - rewrite join2_relative by exact Hb.
    unfold PosixPath.isabs. rewrite startswith_app.
    + fold (PosixPath.isabs (dir_prefix a)). now rewrite dir_prefix_isabs.
    + intro E. pose proof (dir_prefix_isabs a) as H.
      rewrite E, Ha in H. discriminate.
Qed.

(** A relative path joined behind a directory that is not absolute is
    not absolute. *)
Lemma join2_not_isabs (a b : string) :
  PosixPath.isabs a = false -> PosixPath.isabs b = false ->
  PosixPath.isabs (PosixPath.join2 a b) = false.
Proof.
  intros Ha Hb. rewrite join2_relative by exact Hb.
  unfold PosixPath.isabs.
  destruct (dir_prefix a) as [|c d] eqn:E; [exact Hb|].
  rewrite <- (dir_prefix_isabs a), E in Ha. exact Ha.
Qed.

(** Resolution returns unless the joined path is empty, as long as
    [os.getcwd()] returns or is not called. *)
Lemma evaluate_rpath_returns (host : Host) (build_dir from_dir p : string) :
  build_dir <> "" \/ p <> "" ->
  cwd_at_hand host build_dir ->
  exists r, evaluate_rpath host p build_dir from_dir = Ok r.
Proof.
  intros Hne Hg. unfold evaluate_rpath.
  destruct (String.eqb p from_dir); [eauto|].
  destruct (PosixPath.isabs p); [eauto|].
  apply relpath_returns.
  - intro He. apply join2_empty in He. tauto.
  - destruct Hg as [Hb|Hd]; [left | now right].
    split; now apply join2_isabs.
Qed.

End AtBuildRoot.

(** For C3: an absolute entry equal to [from_dir] resolves to the empty
    string, not to itself. *)
Lemma evaluate_rpath_absolute_from_dir :
  PosixPath.isabs "/opt/lib" = true
  /\ evaluate_rpath Sample.linux_host "/opt/lib" "/home/user/build" "/opt/lib"
     = Ok ""
  /\ evaluate_rpath Sample.linux_host "/opt/lib" "/home/user/build" "/opt/lib"
     <> Ok "/opt/lib".
Proof. split; [reflexivity|]. split; [reflexivity | discriminate]. Qed.

(** C3, amended: an absolute raw entry that is not equal to [from_dir]
    is returned unchanged, whatever [build_dir] and [from_dir] are; an
    entry equal to [from_dir], absolute or not, resolves to the empty
    string. *)
Theorem evaluate_rpath_absolute (host : Host) (p build_dir from_dir : string) :
  PosixPath.isabs p = true ->
  (p <> from_dir -> evaluate_rpath host p build_dir from_dir = Ok p)
  /\ (p = from_dir -> evaluate_rpath host p build_dir from_dir = Ok "").
Proof.
  intro Habs. split.
  - now apply evaluate_rpath_passes.
  - intros ->. unfold evaluate_rpath. now rewrite String.eqb_refl.
Qed.

Lemma evaluate_rpath_absolute_witness :
  evaluate_rpath Sample.linux_host "/opt/lib" "/home/user/build" "src"
  = Ok "/opt/lib"
  /\ evaluate_rpath Sample.linux_host "/opt/lib" "/home/user/build" "/opt/lib"
     = Ok "".
Proof.
  split.
  - apply (evaluate_rpath_absolute Sample.linux_host "/opt/lib"
             "/home/user/build" "src" eq_refl). discriminate.
  - apply (evaluate_rpath_absolute Sample.linux_host "/opt/lib"
             "/home/user/build" "/opt/lib" eq_refl). reflexivity.
Defined.

(** ** Ordering *)

Section SortedFacts.

Variable A : Type.
Variable key : A -> bool.

(** Inserting into a list made of a block of [False] keys followed by
    a block of [True] keys. *)
Lemma insert_by_key_blocks (x : A) (lo hi : list A) :
  Forall (fun y => key y = false) lo ->
  Forall (fun y => key y = true) hi ->
  insert_by_key key x (lo ++ hi)
  = if key x then lo ++ x :: hi else x :: lo ++ hi.
Proof.
  intros Hlo Hhi. induction Hlo as [|y lo Hy Hlo IH]; simpl.
  - destruct hi as [|z hi]; simpl.
    + now destruct (key x).
    + inversion Hhi as [|? ? Hz _]; subst.
      unfold key_lt. rewrite Hz. simpl. now destruct (key x).
  - unfold key_lt at 1. rewrite Hy. simpl.
    destruct (key x) eqn:Hx; [|reflexivity].
    now rewrite IH.
Qed.

Lemma filter_key_false (l : list A) :
  Forall (fun y => key y = false) (filter (key_false key) l).
Proof.
  apply Forall_forall. intros y Hy. apply filter_In in Hy.
  destruct Hy as [_ Hy]. unfold key_false in Hy.
  now apply negb_true_iff in Hy.
Qed.

Lemma filter_key_true (l : list A) :
  Forall (fun y => key y = true) (filter key l).
Proof.
  apply Forall_forall. intros y Hy. apply filter_In in Hy. tauto.
Qed.

(** Sorting on a boolean key is the stable partition: the elements
    with key [False] in their original order, then those with key
    [True] in their original order. *)
Lemma sorted_stable_partition (l : list A) :
  sorted key l = filter (key_false key) l ++ filter key l.
Proof.
  induction l as [|x l IH]; simpl; [reflexivity|].
  rewrite IH, insert_by_key_blocks
    by (apply filter_key_false || apply filter_key_true).
  unfold key_false at 3. now destruct (key x).
Qed.

End SortedFacts.

Section ComprehensionFacts.

Variables A B : Type.
Variable f : A -> result B.

Lemma comprehension_returns (l : list A) :
  (forall x, In x l -> exists y, f x = Ok y) ->
  exists r, comprehension f l = Ok r.
Proof.
  induction l as [|x l IH]; intro H; simpl; [eauto|].
  destruct (H x (or_introl eq_refl)) as [y ->].
  destruct IH as [r ->]; [intros; apply H; now right|].
  simpl. eauto.
Qed.

Lemma comprehension_Forall2 (l : list A) (r : list B) :
  comprehension f l = Ok r -> Forall2 (fun x y => f x = Ok y) l r.
Proof.
  revert r. induction l as [|x l IH]; intros r; simpl.
  - intro H; inversion H; constructor.
  - destruct (f x) as [y|e] eqn:Hx; simpl; [|discriminate].
    destruct (comprehension f l) as [ys|e]; simpl; [|discriminate].
    intro H; inversion H; subst. constructor; [exact Hx | now apply IH].
Qed.

End ComprehensionFacts.

(** What [prepare_rpaths] returns, in terms of the resolved entries. *)
Lemma prepare_rpaths_partition (host : Host) (raw : list string)
      (build_dir from_dir : string) (processed : list string) :
  prepare_rpaths host raw build_dir from_dir = Ok processed ->
  exists resolved,
    Forall2 (fun p r => evaluate_rpath host p build_dir from_dir = Ok r)
            raw resolved
    /\ processed = filter relative resolved ++ filter PosixPath.isabs resolved.
Proof.
  unfold prepare_rpaths, order_rpaths.
  destruct (comprehension _ raw) as [resolved|e] eqn:Hc; simpl; [|discriminate].
  intro H; inversion H; subst. exists resolved. split.
  - now apply comprehension_Forall2.
  - apply sorted_stable_partition.
Qed.

Lemma prepare_rpaths_returns (host : Host) (raw : list string)
      (build_dir from_dir : string) :
  build_dir <> "" ->
  cwd_at_hand host build_dir ->
  exists processed, prepare_rpaths host raw build_dir from_dir = Ok processed.
Proof.
  intros Hne Hg. unfold prepare_rpaths.
  destruct (comprehension_returns _ _
              (fun p => evaluate_rpath host p build_dir from_dir) raw)
    as [r ->]; simpl; [|eauto].
  intros p _. apply evaluate_rpath_returns; [now left | exact Hg].
Qed.

(** C2: [prepare_rpaths] returns the stable partition of the resolved
    entries, the relative ones first: every entry that resolves to a
    relative path comes before every entry that resolves to an absolute
    one, and each group keeps its original order.  It returns whenever
    [build_dir] is not empty and [os.getcwd()] returns or is not
    called.  On [["/abs/path"; "relative/path"]] the entry resolved
    from [relative/path] comes first and [/abs/path] second; resolved
    against the build root (an empty [from_dir]) the result is
    [["relative/path"; "/abs/path"]]. *)
Theorem prepare_rpaths_relative_first (host : Host) (raw : list string)
        (build_dir from_dir : string) :
  (forall processed,
      prepare_rpaths host raw build_dir from_dir = Ok processed ->
      exists resolved,
        Forall2 (fun p r => evaluate_rpath host p build_dir from_dir = Ok r)
                raw resolved
        /\ processed
           = filter relative resolved ++ filter PosixPath.isabs resolved)
  /\ (build_dir <> "" ->
      cwd_at_hand host build_dir ->
      exists processed,
        prepare_rpaths host raw build_dir from_dir = Ok processed)
  /\ (from_dir <> "/abs/path" ->
      cwd_at_hand host build_dir ->
      exists r,
        evaluate_rpath host "relative/path" build_dir from_dir = Ok r
        /\ PosixPath.isabs r = false
        /\ prepare_rpaths host ["/abs/path"; "relative/path"]
             build_dir from_dir
           = Ok [r; "/abs/path"])
  /\ (PosixPath.isabs build_dir = true
      \/ (exists d, getcwd host = Ok d /\ PosixPath.isabs d = true) ->
      prepare_rpaths host ["/abs/path"; "relative/path"] build_dir ""
      = Ok ["relative/path"; "/abs/path"]).
Proof.
  split; [|split; [|split]]; cycle 3.
  { intro Hcwd. unfold prepare_rpaths. simpl comprehension.
    rewrite (evaluate_rpath_at_build_root host build_dir Hcwd).
    reflexivity. }
  - intros processed Hp. now apply prepare_rpaths_partition.
  - apply prepare_rpaths_returns.
  - intros Hfd Hg.
    destruct (evaluate_rpath_returns host build_dir from_dir
                "relative/path") as [r Hr]; [right; discriminate | exact Hg|].
    exists r. split; [exact Hr|].
    assert (Hrel : PosixPath.isabs r = false).
    { rewrite (evaluate_rpath_isabs _ _ _ _ _ Hr). reflexivity. }
    split; [exact Hrel|].
    unfold prepare_rpaths. simpl comprehension.
    rewrite (evaluate_rpath_passes host build_dir from_dir "/abs/path")
      by (reflexivity || (intro E; now apply Hfd)).
    rewrite Hr. simpl.
    unfold order_rpaths. simpl. unfold key_lt. now rewrite Hrel.
Qed.

Lemma prepare_rpaths_relative_first_witness :
  prepare_rpaths Sample.linux_host ["/abs/path"; "relative/path"]
    "/home/user/build" ""
  = Ok ["relative/path"; "/abs/path"]
  /\ exists resolved,
      Forall2 (fun p r => evaluate_rpath Sample.linux_host p
                            "/home/user/build" "src" = Ok r)
              ["/usr/lib"; "src/a"; "/opt/lib"; "lib"] resolved
      /\ ["a"; "../lib"; "/usr/lib"; "/opt/lib"]
         = filter relative resolved ++ filter PosixPath.isabs resolved.
Proof.
  split.
  - destruct (prepare_rpaths_relative_first Sample.linux_host []
                "/home/user/build" "") as (_ & _ & _ & H).
    apply H. left. reflexivity.
  - destruct (prepare_rpaths_relative_first Sample.linux_host
                ["/usr/lib"; "src/a"; "/opt/lib"; "lib"]
                "/home/user/build" "src") as (H & _ & _ & _).
    apply H. reflexivity.
Defined.

(** The same call, evaluated: the relative entries, resolved against
    [src], come first and in their original order. *)
Example prepare_rpaths_mixed :
  prepare_rpaths Sample.linux_host ["/usr/lib"; "src/a"; "/opt/lib"; "lib"]
    "/home/user/build" "src"
  = Ok ["a"; "../lib"; "/usr/lib"; "/opt/lib"].
Proof. reflexivity. Qed.

(** ** The ordered set *)

Section OrderedSetFacts.

Lemma mem_In (x : string) (s : OrderedSet.t) :
  OrderedSet.mem x s = true <-> In x s.
Proof.
  unfold OrderedSet.mem. rewrite existsb_exists. split.
  - intros (y & Hy & He). apply String.eqb_eq in He. now subst.
  - intro H. exists x. split; [exact H | apply String.eqb_refl].
Qed.

Lemma mem_not_In (x : string) (s : OrderedSet.t) :
  OrderedSet.mem x s = false <-> ~ In x s.
Proof.
  rewrite <- mem_In. destruct (OrderedSet.mem x s); split; intro H;
    try reflexivity; try discriminate.
  now contradiction H.
Qed.

Lemma add_present (s : OrderedSet.t) (x : string) :
  In x s -> OrderedSet.add s x = s.
Proof. intro H. unfold OrderedSet.add. apply mem_In in H. now rewrite H. Qed.

Lemma add_fresh (s : OrderedSet.t) (x : string) :
  ~ In x s -> OrderedSet.add s x = s ++ [x].
Proof.
  intro H. unfold OrderedSet.add. apply mem_not_In in H. now rewrite H.
Qed.

Lemma add_NoDup (s : OrderedSet.t) (x : string) :
  NoDup s -> NoDup (OrderedSet.add s x).
Proof.
  intro Hs. unfold OrderedSet.add.
  destruct (OrderedSet.mem x s) eqn:Hm; [exact Hs|].
  apply mem_not_In in Hm.
  apply NoDup_app; [exact Hs | repeat constructor; intros [] |].
  intros y Hy [<-|[]]. now apply Hm.
Qed.

Lemma add_In (s : OrderedSet.t) (x y : string) :
  In y (OrderedSet.add s x) <-> In y s \/ y = x.
Proof.
  unfold OrderedSet.add. destruct (OrderedSet.mem x s) eqn:Hm.
  - apply mem_In in Hm. split; [tauto|]. intros [H| ->]; assumption.
  - rewrite in_app_iff. simpl. split; intros [H|H]; auto.
    + destruct H as [<-|[]]. now right.
Qed.

(** Adding the elements of [l] one by one to [s] extends [s] by the
    elements that are new, each once. *)
Lemma add_loop (l : list string) (s : OrderedSet.t) :
  exists r,
    fold_left OrderedSet.add l s = s ++ r
    /\ (forall y, In y r -> In y l /\ ~ In y s)
    /\ (forall y, In y l -> In y s \/ In y r)
    /\ NoDup r.
Proof.
  revert s. induction l as [|x l IH]; intro s; simpl.
  - exists []. rewrite app_nil_r. repeat split; try tauto; constructor.
  - destruct (IH (OrderedSet.add s x)) as (r & He & Hnew & Hall & Hnd).
    destruct (in_dec string_dec x s) as [Hx|Hx].
    + rewrite (add_present _ _ Hx) in *.
      exists r. split; [exact He|]. split; [|split; [|exact Hnd]].
      * intros y Hy. destruct (Hnew y Hy). split; [now right | assumption].
      * intros y [<-|Hy]; [now left | now apply Hall].
    + rewrite (add_fresh _ _ Hx) in *.
      exists (x :: r). rewrite He, <- app_assoc. simpl.
      split; [reflexivity|]. split; [|split].
      * intros y [<-|Hy]; [split; [now left | exact Hx]|].
        destruct (Hnew y Hy) as [Hl Hs]. split; [now right|].
        intro H. apply Hs. apply in_or_app. now left.
      * intros y [<-|Hy]; [right; now left|].
        destruct (Hall y Hy) as [H|H]; [|right; now right].
        apply in_app_or in H. destruct H as [H|[<-|[]]]; [now left|].
        right; now left.
      * constructor; [|exact Hnd].
        intro Hr. apply (Hnew x Hr). apply in_or_app. right. now left.
Qed.

Lemma of_list_In (l : list string) (y : string) :
  In y (OrderedSet.of_list l) <-> In y l.
Proof.
  unfold OrderedSet.of_list.
  destruct (add_loop l []) as (r & -> & Hnew & Hall & _). simpl. split.
  - intro H. now apply Hnew.
  - intro H. destruct (Hall y H) as [[]|H']. exact H'.
Qed.

Lemma of_list_NoDup (l : list string) : NoDup (OrderedSet.of_list l).
Proof.
  unfold OrderedSet.of_list.
  destruct (add_loop l []) as (r & -> & _ & _ & Hnd). exact Hnd.
Qed.


Variable origin : string.
Variable processed : list string.
Variable build_rpath : string.

Let prefixed : list string :=
  map (fun p => PosixPath.join2 origin p) processed.

Lemma collect_all_paths_NoDup :
  NoDup (collect_all_paths origin processed build_rpath).
Proof.
  unfold collect_all_paths.
  destruct (negb (String.eqb build_rpath ""));
    [apply add_NoDup|]; apply of_list_NoDup.
Qed.

Lemma collect_all_paths_In (y : string) :
  In y (collect_all_paths origin processed build_rpath)
  <-> In y prefixed \/ (y = build_rpath /\ build_rpath <> "").
Proof.
  unfold collect_all_paths.
  destruct (String.eqb_spec build_rpath "") as [He|He]; simpl.
  - rewrite of_list_In. tauto.
  - rewrite add_In, of_list_In. tauto.
Qed.


End OrderedSetFacts.

(** ** What [build_rpath_args] embeds *)

Section BuildRpathArgs.

Variable host : Host.
Variable self : Linker.
Variable env : Environment.
Variables build_dir from_dir : string.
Variable rpath_paths : list string.
Variables build_rpath install_rpath : string.
Variable processed : list string.

Hypothesis prepared :
  prepare_rpaths host rpath_paths build_dir from_dir = Ok processed.

(** The result of the GNU-like method once something is to be
    embedded: the origin argument, the one [-rpath] argument, the
    [-rpath-link] arguments. *)
Lemma gnu_like_embeds :
  is_windows (machines env (for_machine self))
  || is_cygwin (machines env (for_machine self)) = false ->
  nothing_to_embed rpath_paths build_rpath install_rpath = false ->
  GnuLikeDynamicLinkerMixin.build_rpath_args host self env build_dir
    from_dir rpath_paths build_rpath install_rpath
  = Ok (origin_args host self
        ++ _apply_prefix self
             ("-rpath,"
              ++ pad_to_install_rpath
                   (PyStr.join ":"
                      (collect_all_paths "$ORIGIN" processed build_rpath))
                   install_rpath)%string
        ++ rpath_link_args host self build_dir rpath_paths).
Proof.
  intros Hw Hn. unfold GnuLikeDynamicLinkerMixin.build_rpath_args.
  rewrite Hw, Hn, prepared. simpl bind.
  unfold origin_args, rpath_link_args.
  destruct (is_sunos host).
  - rewrite app_nil_r.
    destruct (is_dragonflybsd host || is_openbsd host); reflexivity.
  - rewrite (extend_loop self
               (fun p => ("-rpath-link," ++ PosixPath.join2 build_dir p)%string)).
    destruct (is_dragonflybsd host || is_openbsd host); simpl;
      now rewrite <- ?app_assoc.
Qed.

Lemma solaris_embeds :
  nothing_to_embed rpath_paths build_rpath install_rpath = false ->
  SolarisDynamicLinker.build_rpath_args host self env build_dir
    from_dir rpath_paths build_rpath install_rpath
  = Ok (_apply_prefix self
          ("-rpath,"
           ++ pad_to_install_rpath
                (PyStr.join ":"
                   (collect_all_paths "$ORIGIN" processed build_rpath))
                install_rpath)%string).
Proof.
  intros Hn. unfold SolarisDynamicLinker.build_rpath_args.
  now rewrite Hn, prepared.
Qed.

Lemma apple_embeds :
  nothing_to_embed rpath_paths build_rpath install_rpath = false ->
  AppleDynamicLinker.build_rpath_args host self env build_dir
    from_dir rpath_paths build_rpath install_rpath
  = Ok (_apply_prefix self "-headerpad_max_install_names"
        ++ flat_map (fun rp => _apply_prefix self ("-rpath," ++ rp)%string)
             (collect_all_paths "@loader_path" processed build_rpath)).
Proof.
  intros Hn. unfold AppleDynamicLinker.build_rpath_args.
  rewrite Hn, prepared. simpl bind.
  now rewrite (extend_loop self (fun rp => ("-rpath," ++ rp)%string)).
Qed.

End BuildRpathArgs.

Lemma nothing_to_embed_install (rpath_paths : list string)
      (build_rpath install_rpath : string) :
  install_rpath <> "" ->
  nothing_to_embed rpath_paths build_rpath install_rpath = false.
Proof.
  intro H. apply is_empty_false in H. unfold nothing_to_embed.
  rewrite H. now rewrite andb_false_r.
Qed.

Lemma nothing_to_embed_build (rpath_paths : list string)
      (build_rpath install_rpath : string) :
  build_rpath <> "" ->
  nothing_to_embed rpath_paths build_rpath install_rpath = false.
Proof.
  intro H. apply is_empty_false in H. unfold nothing_to_embed.
  rewrite H. now rewrite andb_false_r.
Qed.


(** ** Padding *)

Section Padding.

Variables paths install_rpath : string.
Hypothesis shorter : String.length paths < String.length install_rpath.

(** With a non-empty [paths], the padded value is [paths], a [:] and
    the padding, one character more than [install_rpath]. *)
Lemma pad_nonempty :
  paths <> "" ->
  pad_to_install_rpath paths install_rpath
  = (paths ++ ":"
     ++ PyStr.repeat "X" (String.length install_rpath - String.length paths))
      %string
  /\ String.length (pad_to_install_rpath paths install_rpath)
     = S (String.length install_rpath).
Proof.
  intro Hne. unfold pad_to_install_rpath.
  apply Nat.ltb_lt in shorter. rewrite shorter.
  apply Nat.ltb_lt in shorter.
  apply is_empty_false in Hne. rewrite Hne. split; [reflexivity|].
  rewrite !str_length_app, length_repeat. simpl. lia.
Qed.

(** With an empty [paths], the padded value is the padding alone, as
    long as [install_rpath]. *)
Lemma pad_empty :
  paths = "" ->
  pad_to_install_rpath paths install_rpath
  = PyStr.repeat "X" (String.length install_rpath)
  /\ String.length (pad_to_install_rpath paths install_rpath)
     = String.length install_rpath.
Proof.
  intro He. unfold pad_to_install_rpath.
  apply Nat.ltb_lt in shorter. rewrite shorter. subst paths. simpl.
  rewrite Nat.sub_0_r, length_repeat. now split.
Qed.

End Padding.

(** Every element of the set of paths is a non-empty string. *)
Lemma collect_all_paths_nonempty (origin : string) (processed : list string)
      (build_rpath : string) :
  origin <> "" ->
  Forall (fun x => x <> "") (collect_all_paths origin processed build_rpath).
Proof.
  intro Ho. apply Forall_forall. intros y Hy.
  apply collect_all_paths_In in Hy. destruct Hy as [Hy|[-> Hb]]; [|exact Hb].
  apply in_map_iff in Hy. destruct Hy as (p & <- & _).
  intro He. apply join2_empty in He. now destruct He.
Qed.

(** Against C1: one processed path, [$ORIGIN/sub], and an install RPATH
    of 21 characters; the embedded value has 22 characters, on the GNU
    linker and on the Solaris linker. *)
Lemma padded_value_one_longer :
  prepare_rpaths Sample.linux_host ["sub"] "/home/user/build" "" = Ok ["sub"]
  /\ PyStr.join ":" (collect_all_paths "$ORIGIN" ["sub"] "") = "$ORIGIN/sub"
  /\ build_rpath_args Sample.linux_host Sample.ld_bfd Sample.elf_env
       "/home/user/build" "" ["sub"] "" "/usr/local/lib/x86_64"
     = Ok ["-Wl,-rpath,$ORIGIN/sub:XXXXXXXXXX";
           "-Wl,-rpath-link,/home/user/build/sub"]
  /\ build_rpath_args Sample.linux_host Sample.solaris_ld Sample.elf_env
       "/home/user/build" "" ["sub"] "" "/usr/local/lib/x86_64"
     = Ok ["-Wl,-rpath,$ORIGIN/sub:XXXXXXXXXX"]
  /\ String.length "$ORIGIN/sub:XXXXXXXXXX"
     <> String.length "/usr/local/lib/x86_64".
Proof. repeat split; try reflexivity. discriminate. Qed.

(** C1, amended: when the joined paths [P] are shorter than
    [install_rpath], the GNU-like and the Solaris linkers embed
    [P + ':' + 'X' * (len(install_rpath) - len(P))] if there is any
    path, a value of [len(install_rpath) + 1] characters; with no path
    at all they embed ['X' * len(install_rpath)], of
    [len(install_rpath)] characters. *)
Theorem build_rpath_args_padding (host : Host) (gnu sol : Linker)
        (env : Environment) (build_dir from_dir : string)
        (rpath_paths : list string) (build_rpath install_rpath : string) :
  is_gnu_like (class_of gnu) = true ->
  class_of sol = SolarisDynamicLinker ->
  is_windows (machines env (for_machine gnu))
  || is_cygwin (machines env (for_machine gnu)) = false ->
  (build_dir <> "" ->
   cwd_at_hand host build_dir ->
   exists processed,
     prepare_rpaths host rpath_paths build_dir from_dir = Ok processed)
  /\ forall processed,
       prepare_rpaths host rpath_paths build_dir from_dir = Ok processed ->
       let all_paths := collect_all_paths "$ORIGIN" processed build_rpath in
       let P := PyStr.join ":" all_paths in
       String.length P < String.length install_rpath ->
       exists value,
         build_rpath_args host gnu env build_dir from_dir rpath_paths
           build_rpath install_rpath
         = Ok (origin_args host gnu
               ++ _apply_prefix gnu ("-rpath," ++ value)%string
               ++ rpath_link_args host gnu build_dir rpath_paths)
         /\ build_rpath_args host sol env build_dir from_dir rpath_paths
              build_rpath install_rpath
            = Ok (_apply_prefix sol ("-rpath," ++ value)%string)
         /\ (all_paths <> [] ->
             value = (P ++ ":"
                      ++ PyStr.repeat "X"
                           (String.length install_rpath - String.length P))
                       %string
             /\ String.length value = S (String.length install_rpath))
         /\ (all_paths = [] ->
             value = PyStr.repeat "X" (String.length install_rpath)
             /\ String.length value = String.length install_rpath).
Proof.
  intros Hg Hs Hw. split; [apply prepare_rpaths_returns|].
  intros processed Hp all_paths P Hlt.
  assert (Hi : install_rpath <> "").
  { intros ->. simpl in Hlt. lia. }
  pose proof (nothing_to_embed_install rpath_paths build_rpath _ Hi) as Hn.
  exists (pad_to_install_rpath P install_rpath).
  split; [|split; [|split]].
  - rewrite (gnu_like_build_rpath_args gnu host Hg).
    now apply gnu_like_embeds.
  - rewrite (solaris_build_rpath_args sol host Hs).
    now apply solaris_embeds.
  - intro Hne. apply pad_nonempty; [exact Hlt|].
    intro He. apply Hne. apply (join_nil_iff ":"); [|exact He].
    apply collect_all_paths_nonempty. discriminate.
  - intro He. apply pad_empty; [exact Hlt|]. unfold P. now rewrite He.
Qed.

Lemma build_rpath_args_padding_witness :
  build_rpath_args Sample.linux_host Sample.ld_bfd Sample.elf_env
    "/home/user/build" "" ["sub"] "" "/usr/local/lib/x86_64"
  = Ok ["-Wl,-rpath,$ORIGIN/sub:XXXXXXXXXX";
        "-Wl,-rpath-link,/home/user/build/sub"]
  /\ build_rpath_args Sample.linux_host Sample.solaris_ld Sample.elf_env
       "/home/user/build" "" ["sub"] "" "/usr/local/lib/x86_64"
     = Ok ["-Wl,-rpath,$ORIGIN/sub:XXXXXXXXXX"]
  /\ String.length "$ORIGIN/sub:XXXXXXXXXX"
     = S (String.length "/usr/local/lib/x86_64").
Proof.
  destruct (build_rpath_args_padding Sample.linux_host Sample.ld_bfd
              Sample.solaris_ld Sample.elf_env "/home/user/build" ""
              ["sub"] "" "/usr/local/lib/x86_64"
              eq_refl eq_refl eq_refl)
    as [_ H].
  destruct (H ["sub"] eq_refl) as (value & Hgnu & Hsol & Hsome & _);
    [vm_compute; lia|].
  destruct Hsome as [Hv Hl]; [discriminate|].
  vm_compute in Hv. subst value.
  split; [exact Hgnu|]. split; [exact Hsol | exact Hl].
Defined.

(** ** Deduplication *)

Section Occurrences.

Variable A : Type.
Variable P : A -> bool.




End Occurrences.













(** Against C5: [/opt/lib] is both a raw entry and the build RPATH; it
    is embedded once, and nothing is appended after the processed
    entries. *)
Lemma build_rpath_already_present :
  map (fun p => PosixPath.join2 "$ORIGIN" p) ["/opt/lib"] = ["/opt/lib"]
  /\ collect_all_paths "$ORIGIN" ["/opt/lib"] "/opt/lib" = ["/opt/lib"]
  /\ build_rpath_args Sample.linux_host Sample.ld_bfd Sample.elf_env
       "/home/user/build" "" ["/opt/lib"] "/opt/lib" ""
     = Ok ["-Wl,-rpath,/opt/lib"; "-Wl,-rpath-link,/opt/lib"]
  /\ build_rpath_args Sample.linux_host Sample.solaris_ld Sample.elf_env
       "/home/user/build" "" ["/opt/lib"] "/opt/lib" ""
     = Ok ["-Wl,-rpath,/opt/lib"]
  /\ build_rpath_args Sample.linux_host Sample.solaris_ld Sample.elf_env
       "/home/user/build" "" ["/opt/lib"] "/opt/lib" ""
     <> Ok ["-Wl,-rpath,/opt/lib:/opt/lib"].
Proof. repeat split; try reflexivity. discriminate. Qed.

(** C5, amended: a non-empty [build_rpath] is added, as it is, to the
    set of the placeholder-prefixed paths; it becomes the last element
    when it is not among them already, and leaves the set unchanged
    when it is.  Either way it is embedded exactly once. *)
Theorem build_rpath_added_as_is (host : Host) (gnu sol : Linker)
        (env : Environment) (build_dir from_dir : string)
        (raw : list string) (build_rpath install_rpath : string) :
  is_gnu_like (class_of gnu) = true ->
  class_of sol = SolarisDynamicLinker ->
  is_windows (machines env (for_machine gnu))
  || is_cygwin (machines env (for_machine gnu)) = false ->
  build_rpath <> "" ->
  (build_dir <> "" ->
   cwd_at_hand host build_dir ->
   exists processed, prepare_rpaths host raw build_dir from_dir = Ok processed)
  /\ forall processed,
       prepare_rpaths host raw build_dir from_dir = Ok processed ->
       let prefixed :=
         map (fun p => PosixPath.join2 "$ORIGIN" p) processed in
       let all_paths := collect_all_paths "$ORIGIN" processed build_rpath in
       build_rpath_args host gnu env build_dir from_dir raw build_rpath
         install_rpath
       = Ok (origin_args host gnu
             ++ _apply_prefix gnu
                  ("-rpath,"
                   ++ pad_to_install_rpath (PyStr.join ":" all_paths)
                        install_rpath)%string
             ++ rpath_link_args host gnu build_dir raw)
       /\ build_rpath_args host sol env build_dir from_dir raw build_rpath
            install_rpath
          = Ok (_apply_prefix sol
                  ("-rpath,"
                   ++ pad_to_install_rpath (PyStr.join ":" all_paths)
                        install_rpath)%string)
       /\ (~ In build_rpath prefixed ->
           all_paths = OrderedSet.of_list prefixed ++ [build_rpath])
       /\ (In build_rpath prefixed ->
           all_paths = OrderedSet.of_list prefixed)
       /\ count_occ string_dec all_paths build_rpath = 1.
Proof.
  intros Hg Hs Hw Hb. split; [apply prepare_rpaths_returns|].
  intros processed Hp prefixed all_paths.
  pose proof (nothing_to_embed_build raw build_rpath install_rpath Hb) as Hn.
  assert (Hall : all_paths
                 = OrderedSet.add (OrderedSet.of_list prefixed) build_rpath).
  { unfold all_paths, collect_all_paths. fold prefixed.
    apply String.eqb_neq in Hb. now rewrite Hb. }
  split; [|split; [|split; [|split]]].
  - rewrite (gnu_like_build_rpath_args gnu host Hg).
    now apply gnu_like_embeds.
  - rewrite (solaris_build_rpath_args sol host Hs).
    now apply solaris_embeds.
  - intro Hnot. rewrite Hall. apply add_fresh. now rewrite of_list_In.
  - intro Hin. rewrite Hall. apply add_present. now rewrite of_list_In.
  - apply NoDup_count_occ'; [apply collect_all_paths_NoDup|].
    apply collect_all_paths_In. right. now split.
Qed.

Lemma build_rpath_added_as_is_witness :
  build_rpath_args Sample.linux_host Sample.ld_bfd Sample.elf_env
    "/home/user/build" "" ["sub"] "/home/user/build/sub" ""
  = Ok ["-Wl,-rpath,$ORIGIN/sub:/home/user/build/sub";
        "-Wl,-rpath-link,/home/user/build/sub"]
  /\ build_rpath_args Sample.linux_host Sample.solaris_ld Sample.elf_env
       "/home/user/build" "" ["sub"] "/home/user/build/sub" ""
     = Ok ["-Wl,-rpath,$ORIGIN/sub:/home/user/build/sub"]
  /\ collect_all_paths "$ORIGIN" ["sub"] "/home/user/build/sub"
     = ["$ORIGIN/sub"; "/home/user/build/sub"].
Proof.
  destruct (build_rpath_added_as_is Sample.linux_host Sample.ld_bfd
              Sample.solaris_ld Sample.elf_env "/home/user/build" ""
              ["sub"] "/home/user/build/sub" ""
              eq_refl eq_refl eq_refl)
    as [_ H]; [discriminate|].
  destruct (H ["sub"] eq_refl) as (Hgnu & Hsol & Hfresh & _ & _).
  split; [exact Hgnu|]. split; [exact Hsol|].
  rewrite Hfresh; [reflexivity|].
  intros [E|[]]. discriminate E.
Defined.

(** ** The methods at work *)

(** On OpenBSD the origin argument comes first; the padding leaves room
    for the install RPATH. *)
Example build_rpath_args_openbsd :
  build_rpath_args Sample.openbsd_host Sample.ld_bfd Sample.elf_env
    "/home/user/build" "src" ["lib"; "/opt/lib"; "src"] "" "/usr/local/lib64"
  = Ok ["-Wl,-z,origin";
        "-Wl,-rpath,$ORIGIN/../lib:$ORIGIN/:/opt/lib";
        "-Wl,-rpath-link,/home/user/build/lib";
        "-Wl,-rpath-link,/opt/lib";
        "-Wl,-rpath-link,/home/user/build/src"].
Proof. reflexivity. Qed.

(** With no path at all the embedded value is the padding alone. *)
Example build_rpath_args_padding_only :
  build_rpath_args Sample.linux_host Sample.ld_bfd Sample.elf_env
    "/home/user/build" "" [] "" "/usr/lib"
  = Ok ["-Wl,-rpath,XXXXXXXX"].
Proof. reflexivity. Qed.

(** A linker whose prefix is a list keeps the directive as a token of
    its own. *)
Example apply_prefix_list :
  _apply_prefix Sample.nvlink "--whole-archive"
  = ["-Xlinker"; "--whole-archive"].
Proof. reflexivity. Qed.

(** The ARM linker supplies no [get_soname_args] anywhere along its
    MRO, and inherits the refusal of [get_pie_args]. *)
Example armlink_methods :
  get_soname_args Sample.armlink Sample.elf_env "lib" "foo" "so" None None
    false
  = Raise (AttributeError "get_soname_args")
  /\ get_pie_args Sample.armlink
     = Raise (EnvironmentException
                "Linker armlink does not support position-independent executable").
Proof. split; reflexivity. Qed.

(* ================================================================== *)
(** * Further properties of the linkers *)

(** ** Which variant answers which capability *)

(** Every concrete variant supplies [get_allow_undefined_args]: the
    refusal of [DynamicLinker] is reached by none of them, and the call
    returns a list of arguments. *)
Theorem get_allow_undefined_args_never_refused (self : Linker) :
  is_variant (class_of self) = true ->
  (exists c m,
      resolve own_get_allow_undefined_args (class_of self) = Some (c, m)
      /\ c <> DynamicLinker)
  /\ exists args, get_allow_undefined_args self = Ok args.
Proof.
  intro Hv. unfold get_allow_undefined_args.
  destruct (class_of self); try discriminate Hv;
    (split; [do 2 eexists; split; [reflexivity | discriminate]
            | eexists; reflexivity]).
Qed.

Lemma get_allow_undefined_args_never_refused_witness :
  exists args, get_allow_undefined_args Sample.armlink = Ok args.
Proof.
  exact (proj2 (get_allow_undefined_args_never_refused Sample.armlink
                  eq_refl)).
Defined.

(** Coverage arguments come from the GNU-like and the Apple variants
    only, bitcode arguments from the Apple variants only.  Every other
    variant raises: for coverage an [EnvironmentException] that names
    the linker, for bitcode a [MesonException] with a fixed message. *)
Theorem coverage_and_bitcode_support (self : Linker) :
  is_variant (class_of self) = true ->
  get_coverage_args self
  = (if is_gnu_like (class_of self) || is_apple_like (class_of self)
     then Ok ["--coverage"]
     else Raise (EnvironmentException
                   ("Linker " ++ id self
                    ++ " doesn't implement coverage data generation.")%string))
  /\ bitcode_args self
     = (if is_apple_like (class_of self)
        then Ok (_apply_prefix self "-bitcode_bundle")
        else Raise (MesonException
                      "This linker does not support bitcode bundles")).
Proof.
  intro Hv. unfold get_coverage_args, bitcode_args.
  destruct (class_of self); try discriminate Hv; split; reflexivity.
Qed.

Lemma coverage_and_bitcode_support_witness :
  get_coverage_args Sample.solaris_ld
  = Raise (EnvironmentException
             "Linker ld.solaris doesn't implement coverage data generation.")
  /\ bitcode_args Sample.ld64 = Ok ["-Wl,-bitcode_bundle"].
Proof.
  split.
  - exact (proj1 (coverage_and_bitcode_support Sample.solaris_ld eq_refl)).
  - exact (proj2 (coverage_and_bitcode_support Sample.ld64 eq_refl)).
Defined.

(** The loop of [VisualStudioLikeLinkerMixin.get_link_whole_for]. *)
Lemma wholearchive_loop (self : Linker) (args acc : list string) :
  fold_left
    (fun l a => l ++ _apply_prefix self ("/WHOLEARCHIVE:" ++ a)%string)
    args acc
  = acc ++ flat_map
             (fun a => _apply_prefix self ("/WHOLEARCHIVE:" ++ a)%string) args.
Proof.
  exact (extend_loop self (fun a => ("/WHOLEARCHIVE:" ++ a)%string) args acc).
Qed.

(** Besides the GNU-like and the Apple variants, [get_link_whole_for]
    is answered by the Visual-Studio-like variants, with one prefixed
    [/WHOLEARCHIVE:<member>] per member, and by the Solaris linker,
    which wraps like GNU ld; the remaining variants (rlink, the ARM
    linkers, PGI, nvlink) raise an [EnvironmentException] that names the
    linker, also for the empty list. *)
Theorem get_link_whole_for_other_variants (self : Linker)
        (args : list string) :
  is_variant (class_of self) = true ->
  is_gnu_like (class_of self) || is_apple_like (class_of self) = false ->
  get_link_whole_for self args
  = if is_vs_like (class_of self) then
      Ok (flat_map
            (fun a => _apply_prefix self ("/WHOLEARCHIVE:" ++ a)%string) args)
    else match class_of self with
         | SolarisDynamicLinker =>
             Ok (match args with
                 | [] => []
                 | _ => _apply_prefix self "--whole-archive" ++ args
                        ++ _apply_prefix self "--no-whole-archive"
                 end)
         | _ => Raise (EnvironmentException
                         ("Linker " ++ id self
                          ++ " does not support link_whole")%string)
         end.
Proof.
  intros Hv Hn. unfold get_link_whole_for.
  destruct (class_of self); try discriminate Hv; try discriminate Hn; simpl;
    try reflexivity;
    try (unfold VisualStudioLikeLinkerMixin.get_link_whole_for;
         now rewrite wholearchive_loop).
  unfold SolarisDynamicLinker.get_link_whole_for. now destruct args.
Qed.

Lemma get_link_whole_for_other_variants_witness :
  get_link_whole_for Sample.nvlink []
  = Raise (EnvironmentException "Linker nvlink does not support link_whole")
  /\ get_link_whole_for Sample.solaris_ld ["a.a"]
     = Ok ["-Wl,--whole-archive"; "a.a"; "-Wl,--no-whole-archive"].
Proof.
  split.
  - exact (get_link_whole_for_other_variants Sample.nvlink [] eq_refl
             eq_refl).
  - exact (get_link_whole_for_other_variants Sample.solaris_ld ["a.a"]
             eq_refl eq_refl).
Defined.

(** Where a SONAME has no meaning the result is empty, whatever the
    components: on rlink, PGI, the Visual-Studio-like variants and
    nvlink, on the GNU-like variants when the target is Windows or
    Cygwin, and on the Apple variants for a shared module.  The ARM
    linkers have no [get_soname_args] at all. *)
Theorem get_soname_args_without_soname (self : Linker) (env : Environment)
        (prefix shlib_name suffix : string) (soversion : option string)
        (darwin_versions : option (string * string))
        (is_shared_module : bool) :
  is_variant (class_of self) = true ->
  let call :=
    get_soname_args self env prefix shlib_name suffix soversion
      darwin_versions is_shared_module in
  (is_vs_like (class_of self) = true
   \/ class_of self = CcrxDynamicLinker \/ class_of self = PGIDynamicLinker
   \/ class_of self = CudaLinker ->
   call = Ok [])
  /\ (is_gnu_like (class_of self) = true ->
      is_windows (machines env (for_machine self))
      || is_cygwin (machines env (for_machine self)) = true ->
      call = Ok [])
  /\ (is_apple_like (class_of self) = true -> is_shared_module = true ->
      call = Ok [])
  /\ (class_of self = ArmDynamicLinker
      \/ class_of self = ArmClangDynamicLinker ->
      call = Raise (AttributeError "get_soname_args")).
Proof.
  intros Hv call. unfold call, get_soname_args.
  split; [|split; [|split]].
  - intros [H|[H|[H|H]]]; destruct (class_of self);
      try discriminate H; reflexivity.
  - intros Hg Hw. destruct (class_of self); try discriminate Hg; simpl;
      unfold GnuLikeDynamicLinkerMixin.get_soname_args; now rewrite Hw.
  - intros Ha ->. destruct (class_of self); try discriminate Ha; reflexivity.
  - intros [H|H]; rewrite H; reflexivity.
Qed.

Lemma get_soname_args_without_soname_witness :
  get_soname_args Sample.nvlink Sample.elf_env "lib" "foo" "so" (Some "1")
    None false = Ok []
  /\ get_soname_args Sample.ld64 Sample.elf_env "lib" "foo" "dylib" (Some "1")
       None true = Ok []
  /\ get_soname_args Sample.armlink Sample.elf_env "lib" "foo" "so" None
       None false = Raise (AttributeError "get_soname_args").
Proof.
  split; [|split].
  - destruct (get_soname_args_without_soname Sample.nvlink Sample.elf_env
                "lib" "foo" "so" (Some "1") None false eq_refl)
      as (H & _ & _ & _).
    apply H. right; right; right; reflexivity.
  - destruct (get_soname_args_without_soname Sample.ld64 Sample.elf_env
                "lib" "foo" "dylib" (Some "1") None true eq_refl)
      as (_ & _ & H & _).
    apply H; reflexivity.
  - destruct (get_soname_args_without_soname Sample.armlink Sample.elf_env
                "lib" "foo" "so" None None false eq_refl)
      as (_ & _ & _ & H).
    apply H. left; reflexivity.
Defined.

(** ** Splitting and joining *)

Section SplitJoin.

Variable c : ascii.

(** Joining the pieces of a split with the separator gives the string
    back. *)
Lemma join_split (s : string) :
  PyStr.join (String c "") (PyStr.split c s) = s.
Proof.
  induction s as [|a s IH]; [reflexivity|]. simpl PyStr.split.
  destruct (Ascii.eqb_spec a c) as [->|Hne].
  - destruct (PyStr.split c s) as [|w ws] eqn:Hs;
      [now destruct (split_not_nil c s)|].
    change (PyStr.join (String c "") ("" :: w :: ws))
      with (String c (PyStr.join (String c "") (w :: ws))).
    now rewrite IH.
  - destruct (PyStr.split c s) as [|w ws] eqn:Hs;
      [now destruct (split_not_nil c s)|].
    destruct ws as [|w' ws].
    + simpl in *. now rewrite IH.
    + change (PyStr.join (String c "") (String a w :: w' :: ws))
        with (String a (PyStr.join (String c "") (w :: w' :: ws))).
      now rewrite IH.
Qed.

Lemma join_snoc (sp : string) (l : list string) (x : string) :
  l <> [] ->
  PyStr.join sp (l ++ [x]) = (PyStr.join sp l ++ sp ++ x)%string.
Proof.
  induction l as [|y l IH]; intro H; [now contradiction H|].
  destruct l as [|z l]; [reflexivity|].
  change (PyStr.join sp ((y :: z :: l) ++ [x]))
    with (y ++ sp ++ PyStr.join sp ((z :: l) ++ [x]))%string.
  rewrite IH by discriminate.
  change (PyStr.join sp (y :: z :: l))
    with (y ++ sp ++ PyStr.join sp (z :: l))%string.
  now rewrite !str_app_assoc.
Qed.

Lemma endswith_char_app (a b : string) :
  b <> "" -> PyStr.endswith c (a ++ b) = PyStr.endswith c b.
Proof.
  intro Hb. induction a as [|x a IH]; [reflexivity|].
  simpl. destruct (a ++ b)%string eqn:E; [|exact IH].
  destruct a; simpl in E; [now subst | discriminate].
Qed.

(** The last piece of a split: the string ends with it, it holds no
    separator, and what precedes it is empty or ends with the
    separator. *)
Lemma last_item_split (s : string) :
  exists pre,
    s = (pre ++ PyStr.last_item (PyStr.split c s))%string
    /\ PyStr.contains c (PyStr.last_item (PyStr.split c s)) = false
    /\ (pre = "" \/ PyStr.endswith c pre = true).
Proof.
  pose proof (split_not_nil c s) as Hne.
  pose proof (join_split s) as Hj.
  unfold PyStr.last_item.
  set (v := List.last (PyStr.split c s) "") in *.
  set (l := removelast (PyStr.split c s)) in *.
  assert (Hv : PyStr.contains c v = false).
  { apply split_pieces_free with (s := s).
    rewrite (app_removelast_last "" Hne). apply in_or_app. right. now left. }
  rewrite (app_removelast_last "" Hne) in Hj. fold v l in Hj.
  destruct l as [|y l].
  - exists "". simpl in Hj. repeat split; auto.
  - rewrite join_snoc in Hj by discriminate.
    exists (PyStr.join (String c "") (y :: l) ++ String c "")%string.
    split; [|split; [exact Hv|]].
    + rewrite <- Hj at 1. now rewrite str_app_assoc.
    + right. rewrite endswith_char_app by discriminate. simpl.
      apply Ascii.eqb_refl.
Qed.

End SplitJoin.

(** ** The version of nvlink *)

(** Whenever the probe returns, the version that [parse_version] gives
    holds no [V], the stripped output ends with it, and what precedes it
    in the stripped output is empty or ends with [V]. *)
Theorem parse_version_after_last_V (Popen_safe : CudaLinker.Popen_safe_t)
        (p : nat) (out err : string) :
  Popen_safe ["nvlink"; "--version"] = Ok (p, out, err) ->
  exists v pre,
    CudaLinker.parse_version Popen_safe = Ok v
    /\ PyStr.contains "V" v = false
    /\ PyStr.strip out = (pre ++ v)%string
    /\ (pre = "" \/ PyStr.endswith "V" pre = true).
Proof.
  intro H. unfold CudaLinker.parse_version. rewrite H.
  destruct (last_item_split "V" (PyStr.strip out)) as (pre & Hs & Hv & Hp).
  exists (PyStr.last_item (PyStr.split "V" (PyStr.strip out))), pre.
  repeat split; assumption.
Qed.

Lemma parse_version_after_last_V_witness :
  exists v pre,
    CudaLinker.parse_version Sample.probe_ok = Ok v
    /\ PyStr.contains "V" v = false
    /\ PyStr.strip Sample.nvlink_banner = (pre ++ v)%string
    /\ (pre = "" \/ PyStr.endswith "V" pre = true).
Proof.
  exact (parse_version_after_last_V Sample.probe_ok 0 Sample.nvlink_banner ""
           eq_refl).
Defined.

(** ** Shared libraries, outputs and search directories *)

(** Except on the Apple variants, [get_std_shared_module_args] is the
    call [self.get_std_shared_lib_args()] on the same object; on the ARM
    linkers both raise the [MesonException] of
    [ArmDynamicLinker.get_std_shared_lib_args].  The Apple variants
    build a bundle instead. *)
Theorem shared_module_args_follow_shared_lib_args (run : Running)
        (vs : VSAttrs) (self : Linker) :
  is_variant (class_of self) = true ->
  (is_apple_like (class_of self) = false ->
   get_std_shared_module_args run vs self
   = get_std_shared_lib_args run vs self)
  /\ (is_apple_like (class_of self) = true ->
      get_std_shared_module_args run vs self
      = Ok ("-bundle" :: _apply_prefix self "-undefined,dynamic_lookup")
      /\ get_std_shared_lib_args run vs self = Ok ["-shared"])
  /\ (class_of self = ArmDynamicLinker
      \/ class_of self = ArmClangDynamicLinker ->
      get_std_shared_module_args run vs self
      = Raise (MesonException
                 "The Arm Linkers do not support shared libraries")).
Proof.
  intro Hv.
  unfold get_std_shared_module_args, get_std_shared_lib_args.
  split; [|split].
  - intro Ha. destruct (class_of self) eqn:Hc; try discriminate Hv;
      try discriminate Ha; simpl;
      unfold DynamicLinker_get_std_shared_module_args,
        get_std_shared_lib_args; now rewrite Hc.
  - intro Ha. destruct (class_of self); try discriminate Ha;
      split; reflexivity.
  - intros [Hc|Hc]; rewrite Hc; simpl;
      unfold DynamicLinker_get_std_shared_module_args,
        get_std_shared_lib_args; now rewrite Hc.
Qed.

Lemma shared_module_args_follow_shared_lib_args_witness :
  get_std_shared_module_args {| on_windows := false; on_linux := true |}
    {| direct := true; machine := "x86" |} Sample.armlink
  = Raise (MesonException "The Arm Linkers do not support shared libraries")
  /\ get_std_shared_module_args {| on_windows := false; on_linux := true |}
       {| direct := true; machine := "x86" |} Sample.ld_bfd
     = get_std_shared_lib_args {| on_windows := false; on_linux := true |}
         {| direct := true; machine := "x86" |} Sample.ld_bfd
  /\ get_std_shared_module_args {| on_windows := false; on_linux := true |}
       {| direct := true; machine := "x86" |} Sample.ld64
     = Ok ["-bundle"; "-Wl,-undefined,dynamic_lookup"].
Proof.
  split; [|split].
  - destruct (shared_module_args_follow_shared_lib_args
                {| on_windows := false; on_linux := true |}
                {| direct := true; machine := "x86" |} Sample.armlink eq_refl)
      as (_ & _ & H).
    apply H. left; reflexivity.
  - destruct (shared_module_args_follow_shared_lib_args
                {| on_windows := false; on_linux := true |}
                {| direct := true; machine := "x86" |} Sample.ld_bfd eq_refl)
      as (H & _ & _).
    apply H. reflexivity.
  - destruct (shared_module_args_follow_shared_lib_args
                {| on_windows := false; on_linux := true |}
                {| direct := true; machine := "x86" |} Sample.ld64 eq_refl)
      as (_ & H & _).
    apply H. reflexivity.
Defined.

(** The argument given to [_apply_prefix] ends the last token of the
    result, whatever comes before. *)
Lemma apply_prefix_last (self : Linker) (arg : string) (acc : list string) :
  exists pre,
    List.last (acc ++ _apply_prefix self arg) "" = (pre ++ arg)%string.
Proof.
  unfold _apply_prefix. destruct (prefix_arg self) as [s|l].
  - exists s. apply last_last.
  - exists "". rewrite app_assoc. apply last_last.
Qed.

(** Every concrete variant overrides the two abstract methods, so that
    it can be instantiated.  [get_output_args] always returns, and the
    output name ends its last token; [get_search_args] does the same
    with the directory, except on rlink, where it raises. *)
Theorem output_and_search_args (vs : VSAttrs) (self : Linker)
        (name : string) :
  is_variant (class_of self) = true ->
  instantiable (class_of self) = true
  /\ (exists l pre,
         get_output_args vs self name = Some (Ok l)
         /\ List.last l "" = (pre ++ name)%string)
  /\ (class_of self = CcrxDynamicLinker ->
      get_search_args self name
      = Some (Raise (OSError "rlink.exe does not have a search dir argument")))
  /\ (class_of self <> CcrxDynamicLinker ->
      exists l pre,
        get_search_args self name = Some (Ok l)
        /\ List.last l "" = (pre ++ name)%string).
Proof.
  intro Hv.
  assert (Hposix_o : exists l pre,
             More.PosixDynamicLinkerMixin.get_output_args vs self name = Ok l
             /\ List.last l "" = (pre ++ name)%string)
    by (exists ["-o"; name], ""; now split).
  assert (Hccrx_o : exists l pre,
             More.CcrxDynamicLinker.get_output_args vs self name = Ok l
             /\ List.last l "" = (pre ++ name)%string)
    by (exists [("-output=" ++ name)%string], "-output="; now split).
  assert (Hvs_o : exists l pre,
             More.VisualStudioLikeLinkerMixin.get_output_args vs self name
             = Ok l
             /\ List.last l "" = (pre ++ name)%string).
  { destruct (apply_prefix_last self ("/OUT:" ++ name)
                (_apply_prefix self ("/MACHINE:" ++ machine vs)))
      as [pre Hp].
    eexists. exists (pre ++ "/OUT:")%string.
    split; [reflexivity | now rewrite Hp, str_app_assoc]. }
  assert (Hposix_s : exists l pre,
             More.PosixDynamicLinkerMixin.get_search_args self name = Ok l
             /\ List.last l "" = (pre ++ name)%string)
    by (exists [("-L" ++ name)%string], "-L"; now split).
  assert (Hvs_s : exists l pre,
             More.VisualStudioLikeLinkerMixin.get_search_args self name = Ok l
             /\ List.last l "" = (pre ++ name)%string).
  { destruct (apply_prefix_last self ("/LIBPATH:" ++ name) []) as [pre Hp].
    eexists. exists (pre ++ "/LIBPATH:")%string.
    split; [reflexivity | rewrite app_nil_l in Hp;
                          now rewrite Hp, str_app_assoc]. }
  unfold get_output_args, get_search_args.
  split; [|split; [|split]].
  - destruct (class_of self); try discriminate Hv; reflexivity.
  - destruct (class_of self); try discriminate Hv; simpl;
      [ destruct Hposix_o as (l & pre & -> & H)
      | destruct Hposix_o as (l & pre & -> & H)
      | destruct Hposix_o as (l & pre & -> & H)
      | destruct Hposix_o as (l & pre & -> & H)
      | destruct Hposix_o as (l & pre & -> & H)
      | destruct Hccrx_o as (l & pre & -> & H)
      | destruct Hposix_o as (l & pre & -> & H)
      | destruct Hposix_o as (l & pre & -> & H)
      | destruct Hposix_o as (l & pre & -> & H)
      | destruct Hvs_o as (l & pre & -> & H)
      | destruct Hvs_o as (l & pre & -> & H)
      | destruct Hvs_o as (l & pre & -> & H)
      | destruct Hposix_o as (l & pre & -> & H)
      | destruct Hvs_o as (l & pre & -> & H)
      | destruct Hposix_o as (l & pre & -> & H) ];
      exists l, pre; now split.
  - intros ->. reflexivity.
  - intro Hn. destruct (class_of self); try discriminate Hv; simpl;
      try (now contradiction Hn);
      try (destruct Hposix_s as (l & pre & -> & H); exists l, pre;
           now split);
      destruct Hvs_s as (l & pre & -> & H); exists l, pre; now split.
Qed.

Lemma output_and_search_args_witness :
  instantiable CudaLinker = true
  /\ exists l pre,
      get_output_args {| direct := true; machine := "x86" |} Sample.nvlink
        "prog" = Some (Ok l)
      /\ List.last l "" = (pre ++ "prog")%string.
Proof.
  destruct (output_and_search_args {| direct := true; machine := "x86" |}
              Sample.nvlink "prog" eq_refl) as (H1 & H2 & _).
  split; [exact H1 | exact H2].
Defined.

(** The abstract base class itself cannot be instantiated. *)
Example DynamicLinker_is_abstract : instantiable DynamicLinker = false.
Proof. reflexivity. Qed.

(** ** Build types *)

Section BuildTypes.

Variable listify : list (list string) -> list string.

Lemma getitem_missing {A : Type} (d : list (string * A)) (key : string) :
  ~ In key (map fst d) -> getitem d key = KeyError key.
Proof.
  induction d as [|[k v] d IH]; intro H; [reflexivity|]. simpl.
  destruct (String.eqb_spec k key) as [->|Hne].
  - exfalso. apply H. now left.
  - apply IH. intro Hin. apply H. now right.
Qed.

(** [mesonlib.listify] is given a list of lists of strings and
    flattens it, which is the premise on [listify].  A build type
    outside the six names raises [KeyError] on every variant.  [plain],
    [debug], [debugoptimized] and [custom] give no argument anywhere.
    [release] gives the prefixed [-O1] on the GNU-like variants and
    [/OPT:REF] on the Visual-Studio-like ones, [minsize] gives
    [/INCREMENTAL:NO /OPT:REF] on the Visual-Studio-like ones only; the
    Visual Studio arguments are returned as the table has them, without
    the prefix of the linker. *)
Theorem get_buildtype_args_table (self : Linker) (buildtype : string) :
  (forall ls, listify ls = concat ls) ->
  is_variant (class_of self) = true ->
  (~ In buildtype buildtypes ->
   get_buildtype_args listify self buildtype = Some (KeyError buildtype))
  /\ (In buildtype ["plain"; "debug"; "debugoptimized"; "custom"] ->
      get_buildtype_args listify self buildtype = Some (Item []))
  /\ get_buildtype_args listify self "release"
     = Some (Item (if is_gnu_like (class_of self)
                   then _apply_prefix self "-O1"
                   else if is_vs_like (class_of self) then ["/OPT:REF"]
                        else []))
  /\ get_buildtype_args listify self "minsize"
     = Some (Item (if is_vs_like (class_of self)
                   then ["/INCREMENTAL:NO"; "/OPT:REF"]
                   else [])).
Proof.
  intros Hl Hv. unfold get_buildtype_args.
  split; [|split; [|split]].
  - intro Hn.
    assert (H1 : getitem More.DynamicLinker._BUILDTYPE_ARGS buildtype
                 = KeyError buildtype) by now apply getitem_missing.
    assert (H2 : getitem More.GnuLikeDynamicLinkerMixin._BUILDTYPE_ARGS
                   buildtype = KeyError buildtype)
      by now apply getitem_missing.
    assert (H3 : getitem More.VisualStudioLikeLinkerMixin._BUILDTYPE_ARGS
                   buildtype = KeyError buildtype)
      by now apply getitem_missing.
    destruct (class_of self); try discriminate Hv;
      cbv [resolve lookup mro own_get_buildtype_args own__BUILDTYPE_ARGS
           More.DynamicLinker.get_buildtype_args
           More.GnuLikeDynamicLinkerMixin.get_buildtype_args];
      now rewrite ?H1, ?H2, ?H3.
  - intros [<-|[<-|[<-|[<-|[]]]]];
      destruct (class_of self); try discriminate Hv;
      cbv; now rewrite ?Hl.
  - destruct (class_of self); try discriminate Hv; try reflexivity;
      cbv [resolve lookup mro own_get_buildtype_args own__BUILDTYPE_ARGS
           More.GnuLikeDynamicLinkerMixin.get_buildtype_args
           More.GnuLikeDynamicLinkerMixin._BUILDTYPE_ARGS getitem
           String.eqb Ascii.eqb Bool.eqb map is_gnu_like];
      rewrite Hl; cbn [concat]; now rewrite app_nil_r.
  - destruct (class_of self); try discriminate Hv;
      cbv; now rewrite ?Hl.
Qed.

End BuildTypes.

Lemma get_buildtype_args_table_witness :
  get_buildtype_args (@concat string) Sample.ld_bfd "relese"
  = Some (KeyError "relese")
  /\ get_buildtype_args (@concat string) Sample.ld_bfd "debug"
     = Some (Item [])
  /\ get_buildtype_args (@concat string) Sample.ld_bfd "release"
     = Some (Item ["-Wl,-O1"]).
Proof.
  destruct (get_buildtype_args_table (@concat string) Sample.ld_bfd "relese"
              (fun _ => eq_refl) eq_refl) as (H1 & _ & H3 & _).
  destruct (get_buildtype_args_table (@concat string) Sample.ld_bfd "debug"
              (fun _ => eq_refl) eq_refl) as (_ & H2 & _ & _).
  split; [|split].
  - apply H1. simpl. intros [H|[H|[H|[H|[H|[H|[]]]]]]]; discriminate H.
  - apply H2. right; left; reflexivity.
  - exact H3.
Defined.

(** ** The program database of the Visual-Studio-like linkers *)

(** The name of the PDB file is the target file with its last extension
    replaced by [pdb]; a target file without a dot loses its name, the
    file is then called [pdb].  The variants that are not
    Visual-Studio-like have no debug file. *)
Theorem get_debugfile_args_pdb (vs : VSAttrs) (self : Linker)
        (targetfile : string) :
  is_variant (class_of self) = true ->
  (is_vs_like (class_of self) = false ->
   get_debugfile_args vs self targetfile = Ok [])
  /\ (is_vs_like (class_of self) = true ->
      (forall stem ext,
          targetfile = (stem ++ String "." ext)%string ->
          PyStr.contains "." ext = false ->
          get_debugfile_args vs self targetfile
          = Ok (_apply_prefix self "/DEBUG"
                ++ _apply_prefix self ("/PDB:" ++ stem ++ ".pdb")%string))
      /\ (PyStr.contains "." targetfile = false ->
          get_debugfile_args vs self targetfile
          = Ok (_apply_prefix self "/DEBUG"
                ++ _apply_prefix self "/PDB:pdb"))).
Proof.
  intro Hv. split.
  - intro Hn. unfold get_debugfile_args.
    destruct (class_of self); try discriminate Hv; try discriminate Hn;
      reflexivity.
  - intro Hvs.
    assert (H : get_debugfile_args vs self targetfile
                = Ok (More.VisualStudioLikeLinkerMixin.get_debugfile_args
                        vs self targetfile)).
    { unfold get_debugfile_args.
      destruct (class_of self); try discriminate Hvs; reflexivity. }
    rewrite H. unfold More.VisualStudioLikeLinkerMixin.get_debugfile_args.
    split.
    + intros stem ext -> Hext.
      rewrite split_app, (split_free _ _ Hext), removelast_last.
      rewrite (join_snoc "." (PyStr.split "." stem) "pdb")
        by apply split_not_nil.
      now rewrite (join_split "." stem).
    + intro Hd. now rewrite (split_free _ _ Hd).
Qed.

Lemma get_debugfile_args_pdb_witness :
  get_debugfile_args {| direct := true; machine := "x64" |}
    {| class_of := MSVCDynamicLinker; exelist := ["link.exe"];
       for_machine := HOST; version := "14.16"; id := "link";
       prefix_arg := PrefixStr "" |} "sub/prog.v2.exe"
  = Ok ["/DEBUG"; "/PDB:sub/prog.v2.pdb"]
  /\ get_debugfile_args {| direct := true; machine := "x64" |}
       {| class_of := MSVCDynamicLinker; exelist := ["link.exe"];
          for_machine := HOST; version := "14.16"; id := "link";
          prefix_arg := PrefixStr "" |} "prog"
     = Ok ["/DEBUG"; "/PDB:pdb"].
Proof.
  split.
  - destruct (get_debugfile_args_pdb {| direct := true; machine := "x64" |}
                {| class_of := MSVCDynamicLinker; exelist := ["link.exe"];
                   for_machine := HOST; version := "14.16"; id := "link";
                   prefix_arg := PrefixStr "" |} "sub/prog.v2.exe" eq_refl)
      as [_ H].
    destruct (H eq_refl) as [H1 _].
    apply (H1 "sub/prog.v2" "exe"); reflexivity.
  - destruct (get_debugfile_args_pdb {| direct := true; machine := "x64" |}
                {| class_of := MSVCDynamicLinker; exelist := ["link.exe"];
                   for_machine := HOST; version := "14.16"; id := "link";
                   prefix_arg := PrefixStr "" |} "prog" eq_refl)
      as [_ H].
    destruct (H eq_refl) as [_ H2]. apply H2. reflexivity.
Defined.

(** ** More on the RPATH engine *)

(** The value that the GNU-like and the Solaris linkers embed always
    starts with the joined paths and is never shorter than
    [install_rpath]: the room needed to write the install RPATH over it
    is reserved.  When the joined paths are long enough already they are
    embedded as they are. *)
Theorem embedded_rpath_reserves_room (host : Host) (gnu sol : Linker)
        (env : Environment) (build_dir from_dir : string)
        (rpath_paths : list string) (build_rpath install_rpath : string)
        (processed : list string) :
  is_gnu_like (class_of gnu) = true ->
  class_of sol = SolarisDynamicLinker ->
  is_windows (machines env (for_machine gnu))
  || is_cygwin (machines env (for_machine gnu)) = false ->
  nothing_to_embed rpath_paths build_rpath install_rpath = false ->
  prepare_rpaths host rpath_paths build_dir from_dir = Ok processed ->
  let P := PyStr.join ":" (collect_all_paths "$ORIGIN" processed build_rpath) in
  exists value,
    build_rpath_args host gnu env build_dir from_dir rpath_paths build_rpath
      install_rpath
    = Ok (origin_args host gnu
          ++ _apply_prefix gnu ("-rpath," ++ value)%string
          ++ rpath_link_args host gnu build_dir rpath_paths)
    /\ build_rpath_args host sol env build_dir from_dir rpath_paths
         build_rpath install_rpath
       = Ok (_apply_prefix sol ("-rpath," ++ value)%string)
    /\ String.length install_rpath <= String.length value
    /\ (exists filler, value = (P ++ filler)%string)
    /\ (String.length install_rpath <= String.length P -> value = P).
Proof.
  intros Hg Hs Hw Hn Hp P.
  exists (pad_to_install_rpath P install_rpath).
  split; [|split].
  - rewrite (gnu_like_build_rpath_args gnu host Hg).
    now apply gnu_like_embeds.
  - rewrite (solaris_build_rpath_args sol host Hs).
    now apply solaris_embeds.
  - unfold pad_to_install_rpath.
    destruct (Nat.ltb_spec (String.length P) (String.length install_rpath))
      as [Hlt|Hge].
    + destruct (PyStr.is_empty P) eqn:He.
      * apply is_empty_true in He. rewrite He. simpl.
        rewrite Nat.sub_0_r, length_repeat.
        split; [lia|]. split; [now exists (PyStr.repeat "X"
                                            (String.length install_rpath))|].
        intro H. rewrite He in Hlt. simpl in Hlt. lia.
      * split; [rewrite !str_length_app, length_repeat; simpl; lia|].
        split; [eexists; reflexivity|]. intro H. lia.
    + split; [exact Hge|]. split; [|reflexivity].
      exists "". now rewrite str_app_nil_r.
Qed.

Lemma embedded_rpath_reserves_room_witness :
  exists value,
    build_rpath_args Sample.linux_host Sample.solaris_ld Sample.elf_env
      "/home/user/build" "" ["sub"; "/opt/lib"] "" "/usr/lib"
    = Ok (_apply_prefix Sample.solaris_ld ("-rpath," ++ value)%string)
    /\ String.length "/usr/lib" <= String.length value
    /\ value = "$ORIGIN/sub:/opt/lib".
Proof.
  destruct (embedded_rpath_reserves_room Sample.linux_host Sample.ld_bfd
              Sample.solaris_ld Sample.elf_env "/home/user/build" ""
              ["sub"; "/opt/lib"] "" "/usr/lib" ["sub"; "/opt/lib"]
              eq_refl eq_refl eq_refl eq_refl eq_refl)
    as (value & _ & Hsol & Hlen & _ & Hsame).
  exists value. split; [exact Hsol|]. split; [exact Hlen|].
  apply Hsame. vm_compute. lia.
Defined.

Section Raising.

Variable host : Host.
Variables build_dir from_dir : string.

(** Resolving one entry raises in two cases, both on an entry that is
    neither [from_dir] nor absolute: the entry and the build directory
    are empty, then [relpath] raises its [ValueError]; or the joined
    path is not empty, the build directory is not absolute and
    [os.getcwd()] raises, then that exception comes through. *)
Lemma evaluate_rpath_raises (p : string) (e : exn) :
  evaluate_rpath host p build_dir from_dir = Raise e <->
  (p <> from_dir /\ PosixPath.isabs p = false
   /\ ((p = "" /\ build_dir = "" /\ e = ValueError "no path specified")
       \/ ((build_dir <> "" \/ p <> "")
           /\ PosixPath.isabs build_dir = false
           /\ getcwd host = Raise e))).
Proof.
  unfold evaluate_rpath.
  destruct (String.eqb_spec p from_dir) as [Heq|Hne].
  { split; [discriminate | intros (H & _); now contradiction H]. }
  destruct (PosixPath.isabs p) eqn:Hp.
  { split; [discriminate | intros (_ & H & _); discriminate]. }
  unfold PosixPath.relpath.
  destruct (PyStr.is_empty (PosixPath.join2 build_dir p)) eqn:He.
  - apply is_empty_true in He. apply join2_empty in He.
    destruct He as [Hb Hq]. split.
    + intro H. inversion H. repeat split; auto.
    + intros (_ & _ & [(_ & _ & ->)|([Hc|Hc] & _)]);
        [reflexivity | now contradiction Hc | now contradiction Hc].
  - assert (Hj : build_dir <> "" \/ p <> "").
    { destruct build_dir as [|c b]; [|left; discriminate].
      destruct p as [|c q]; [discriminate He | right; discriminate]. }
    assert (Hnot : ~ (p = "" /\ build_dir = "")) by (intros [-> ->]; tauto).
    destruct (PosixPath.isabs build_dir) eqn:Hb.
    + rewrite (abspath_absolute _ _ (join2_isabs _ from_dir Hb)),
        (abspath_absolute _ _ (join2_isabs _ p Hb)).
      cbn [bind]. split.
      * destruct (_ ++ _)%list; discriminate.
      * intros (_ & _ & [(H1 & H2 & _)|(_ & H & _)]);
          [now contradiction Hnot | discriminate].
    + pose proof (join2_not_isabs _ _ Hb Hp) as Hpath.
      destruct (getcwd host) as [d|e0] eqn:Hg.
      * assert (Hs : exists sa,
                   PosixPath.abspath (Ok d)
                     (PosixPath.join2 build_dir from_dir) = Ok sa).
        { unfold PosixPath.abspath.
          destruct (PosixPath.isabs (PosixPath.join2 build_dir from_dir));
            cbn [bind]; eauto. }
        destruct Hs as [sa ->]. rewrite (abspath_relative d _ Hpath).
        cbn [bind]. split.
        -- destruct (_ ++ _)%list; discriminate.
        -- intros (_ & _ & [(H1 & H2 & _)|(_ & _ & H)]);
             [now contradiction Hnot | discriminate].
      * unfold PosixPath.abspath. rewrite Hpath.
        destruct (PosixPath.isabs (PosixPath.join2 build_dir from_dir));
          cbn [bind];
          (split;
           [ intro H; inversion H; subst;
             split; [exact Hne|]; split; [reflexivity|]; right; auto
           | intros (_ & _ & [(H1 & H2 & _)|(_ & _ & H)]);
             [now contradiction Hnot | exact H] ]).
Qed.

Lemma comprehension_raises {A B : Type} (f : A -> result B) (l : list A) :
  (exists e, comprehension f l = Raise e)
  <-> exists x e, In x l /\ f x = Raise e.
Proof.
  induction l as [|x l IH]; simpl.
  - split; [intros [e H]; discriminate | intros (x & e & [] & _)].
  - destruct (f x) as [y|e] eqn:Hx; simpl.
    + destruct (comprehension f l) as [ys|e'] eqn:Hl; simpl.
      * split; [intros [e H]; discriminate|].
        intros (x' & e & [<-|Hin] & Hf); [congruence|].
        destruct (proj2 IH) as [e0 H0]; [eauto | discriminate].
      * split; [|intros _; now exists e'].
        intros _.
        destruct (proj1 IH) as (x' & e0 & Hin & Hf); [now exists e'|].
        exists x', e0. split; [now right | exact Hf].
    + split; [|intros _; now exists e].
      intros _. exists x, e. split; [now left | exact Hx].
Qed.

Lemma comprehension_raise_elem {A B : Type} (f : A -> result B)
      (l : list A) (e : exn) :
  comprehension f l = Raise e -> exists x, In x l /\ f x = Raise e.
Proof.
  induction l as [|x l IH]; simpl; [discriminate|].
  destruct (f x) as [y|e'] eqn:Hx; simpl.
  - destruct (comprehension f l) as [ys|e'']; simpl; [discriminate|].
    intro H. destruct (IH H) as (x' & Hin & Hf).
    exists x'. split; [now right | exact Hf].
  - intro H. inversion H; subst. exists x. split; [now left | exact Hx].
Qed.

(** [prepare_rpaths] raises what its comprehension raises: the ordering
    comes after it and raises nothing. *)
Lemma prepare_rpaths_raise_step (raw : list string) (e : exn) :
  prepare_rpaths host raw build_dir from_dir = Raise e
  <-> comprehension (fun p => evaluate_rpath host p build_dir from_dir) raw
      = Raise e.
Proof.
  unfold prepare_rpaths.
  destruct (comprehension _ raw); simpl; split; intro H;
    try discriminate; exact H.
Qed.

(** When the comprehension over the raw entries raises. *)
Lemma evaluate_rpaths_raise_when (raw : list string) :
  (exists e,
      comprehension (fun p => evaluate_rpath host p build_dir from_dir) raw
      = Raise e)
  <-> ((build_dir = "" /\ from_dir <> "" /\ In "" raw)
       \/ (PosixPath.isabs build_dir = false
           /\ (exists e, getcwd host = Raise e)
           /\ exists p, In p raw /\ needs_cwd build_dir from_dir p)).
Proof.
  rewrite comprehension_raises. split.
  - intros (x & e & Hin & Hx). apply evaluate_rpath_raises in Hx.
    destruct Hx as (Hne & Hp & [(-> & Hb & _)|(Hj & Hb & Hg)]).
    + left. repeat split; auto.
    + right. split; [exact Hb|]. split; [now exists e|].
      exists x. repeat split; assumption.
  - intros [(Hb & Hf & Hin)|(Hb & [e Hg] & p & Hin & Hne & Hp & Hj)].
    + exists "", (ValueError "no path specified"). split; [exact Hin|].
      apply evaluate_rpath_raises. split; [auto|]. split; [reflexivity|].
      left. now repeat split.
    + exists p, e. split; [exact Hin|].
      apply evaluate_rpath_raises. split; [exact Hne|]. split; [exact Hp|].
      right. now repeat split.
Qed.

(** When [prepare_rpaths] raises, and what. *)
Lemma prepare_rpaths_raises_parts (raw : list string) :
  ((exists e, prepare_rpaths host raw build_dir from_dir = Raise e)
   <-> ((build_dir = "" /\ from_dir <> "" /\ In "" raw)
        \/ (PosixPath.isabs build_dir = false
            /\ (exists e, getcwd host = Raise e)
            /\ exists p, In p raw /\ needs_cwd build_dir from_dir p)))
  /\ (forall e,
         prepare_rpaths host raw build_dir from_dir = Raise e ->
         (e = ValueError "no path specified" /\ build_dir = "")
         \/ (getcwd host = Raise e /\ PosixPath.isabs build_dir = false)).
Proof.
  split.
  - rewrite <- evaluate_rpaths_raise_when.
    split; intros [e H]; exists e; now apply prepare_rpaths_raise_step.
  - intros e H. apply prepare_rpaths_raise_step in H.
    destruct (comprehension_raise_elem _ raw e H) as (x & _ & Hx).
    apply evaluate_rpath_raises in Hx.
    destruct Hx as (_ & _ & [(_ & Hb & He)|(_ & Hb & Hg)]); auto.
Qed.

(** With the current directory at hand, [os.getcwd()] does not raise
    where it is called. *)
Lemma cwd_at_hand_returns (e : exn) :
  cwd_at_hand host build_dir ->
  PosixPath.isabs build_dir = false -> getcwd host <> Raise e.
Proof. intros [Hb|[d Hd]] Hb' He; congruence. Qed.

(** [prepare_rpaths] raises in two situations.  The build directory is
    the empty string, [from_dir] is not, and one raw entry is the empty
    string: then [os.path.relpath] raises its [ValueError].  Or the
    build directory is not absolute, [os.getcwd()] raises, and one raw
    entry needs the current directory: then that exception comes
    through.  As long as the current directory can be read, or the
    build directory is absolute, only the first situation is left. *)
Theorem prepare_rpaths_raises_iff (raw : list string) :
  ((exists e, prepare_rpaths host raw build_dir from_dir = Raise e)
   <-> ((build_dir = "" /\ from_dir <> "" /\ In "" raw)
        \/ (PosixPath.isabs build_dir = false
            /\ (exists e, getcwd host = Raise e)
            /\ exists p, In p raw /\ needs_cwd build_dir from_dir p)))
  /\ (forall e,
         prepare_rpaths host raw build_dir from_dir = Raise e ->
         e = ValueError "no path specified" \/ getcwd host = Raise e)
  /\ (cwd_at_hand host build_dir ->
      ((exists e, prepare_rpaths host raw build_dir from_dir = Raise e)
       <-> (build_dir = "" /\ from_dir <> "" /\ In "" raw))
      /\ forall e,
          prepare_rpaths host raw build_dir from_dir = Raise e ->
          e = ValueError "no path specified").
Proof.
  destruct (prepare_rpaths_raises_parts raw) as [Hiff Hexn].
  split; [exact Hiff|]. split.
  - intros e H. destruct (Hexn e H) as [[He _]|[He _]]; auto.
  - intro Hcwd. split.
    + rewrite Hiff. split; [|now left].
      intros [H|(Hb & [e He] & _)]; [exact H|].
      now destruct (cwd_at_hand_returns e Hcwd Hb).
    + intros e H. destruct (Hexn e H) as [[He _]|[He Hb]]; [exact He|].
      now destruct (cwd_at_hand_returns e Hcwd Hb).
Qed.

End Raising.

Lemma prepare_rpaths_raises_iff_witness :
  (exists e, prepare_rpaths Sample.linux_host ["lib"; ""] "" "src" = Raise e)
  /\ (exists e,
         prepare_rpaths Sample.adrift_host ["lib"] "build" "src" = Raise e)
  /\ forall e,
      prepare_rpaths Sample.linux_host ["lib"; ""] "" "src" = Raise e ->
      e = ValueError "no path specified".
Proof.
  destruct (prepare_rpaths_raises_iff Sample.linux_host "" "src" ["lib"; ""])
    as [[_ H1] [_ H3]].
  destruct (prepare_rpaths_raises_iff Sample.adrift_host "build" "src"
              ["lib"]) as [[_ H2] _].
  split; [|split].
  - apply H1. left. split; [reflexivity|]. split; [discriminate|].
    right; left; reflexivity.
  - apply H2. right. split; [reflexivity|]. split; [eexists; reflexivity|].
    exists "lib". split; [now left|].
    split; [discriminate|]. split; [reflexivity | left; discriminate].
  - apply H3. right. eexists. reflexivity.
Defined.

Section Partition.

Variable A : Type.
Variable key : A -> bool.

Lemma partition_permutation (l : list A) :
  Permutation l (filter (key_false key) l ++ filter key l).
Proof.
  induction l as [|x l IH]; simpl; [constructor|].
  unfold key_false at 1. destruct (key x); simpl.
  - now apply Permutation_cons_app.
  - now constructor.
Qed.

Lemma filter_all (f : A -> bool) (l : list A) :
  Forall (fun y => f y = true) l -> filter f l = l.
Proof.
  induction 1 as [|x l Hx _ IH]; simpl; [reflexivity|].
  now rewrite Hx, IH.
Qed.

Lemma filter_none (f : A -> bool) (l : list A) :
  Forall (fun y => f y = false) l -> filter f l = [].
Proof.
  induction 1 as [|x l Hx _ IH]; simpl; [reflexivity|].
  now rewrite Hx.
Qed.

Lemma filter_key_of_partition (l : list A) :
  filter key (filter (key_false key) l ++ filter key l) = filter key l
  /\ filter (key_false key) (filter (key_false key) l ++ filter key l)
     = filter (key_false key) l.
Proof.
  rewrite !filter_app. split.
  - rewrite (filter_none key (filter (key_false key) l))
      by apply filter_key_false.
    rewrite (filter_all key (filter key l)) by apply filter_key_true.
    reflexivity.
  - rewrite (filter_all (key_false key) (filter (key_false key) l)).
    + rewrite (filter_none (key_false key) (filter key l));
        [now rewrite app_nil_r|].
      eapply Forall_impl; [|apply filter_key_true].
      intros y Hy. unfold key_false. now rewrite Hy.
    + eapply Forall_impl; [|apply filter_key_false].
      intros y Hy. unfold key_false. now rewrite Hy.
Qed.

End Partition.

(** [order_rpaths] neither drops nor adds an entry, and ordering an
    ordered list changes nothing. *)
Theorem order_rpaths_permutation_idempotent (rpath_list : list string) :
  Permutation rpath_list (order_rpaths rpath_list)
  /\ List.length (order_rpaths rpath_list) = List.length rpath_list
  /\ order_rpaths (order_rpaths rpath_list) = order_rpaths rpath_list.
Proof.
  unfold order_rpaths. rewrite !sorted_stable_partition.
  pose proof (partition_permutation _ PosixPath.isabs rpath_list) as HP.
  split; [exact HP|]. split.
  - symmetry. now apply Permutation_length.
  - destruct (filter_key_of_partition _ PosixPath.isabs rpath_list)
      as [H1 H2].
    now rewrite H1, H2.
Qed.

(** The absolute entries of the result of [prepare_rpaths] are the
    absolute raw entries other than [from_dir], unchanged and in their
    original order; the result has as many entries as the input. *)
Theorem prepare_rpaths_absolute_entries (host : Host) (raw : list string)
        (build_dir from_dir : string) (processed : list string) :
  prepare_rpaths host raw build_dir from_dir = Ok processed ->
  filter PosixPath.isabs processed
  = filter (fun p => PosixPath.isabs p && negb (String.eqb p from_dir)) raw
  /\ List.length processed = List.length raw.
Proof.
  intro Hp.
  destruct (prepare_rpaths_partition _ _ _ _ _ Hp) as (resolved & HF & ->).
  unfold relative.
  destruct (filter_key_of_partition _ PosixPath.isabs resolved) as [H1 _].
  rewrite H1. split.
  - clear Hp H1. induction HF as [|p r raw resolved Hr HF IH];
      [reflexivity|].
    simpl. rewrite <- IH.
    rewrite (evaluate_rpath_isabs _ _ _ _ _ Hr).
    destruct (PosixPath.isabs p && negb (String.eqb p from_dir)) eqn:Hk;
      [|reflexivity].
    apply andb_true_iff in Hk. destruct Hk as [Ha Hn].
    apply negb_true_iff, String.eqb_neq in Hn.
    rewrite (evaluate_rpath_passes host build_dir from_dir p Ha Hn) in Hr.
    now inversion Hr.
  - rewrite <- (Permutation_length
                  (partition_permutation _ PosixPath.isabs resolved)).
    symmetry. clear - HF. induction HF; simpl; congruence.
Qed.

Lemma prepare_rpaths_absolute_entries_witness :
  filter PosixPath.isabs ["a"; "../lib"; "/usr/lib"; "/opt/lib"]
  = filter (fun p => PosixPath.isabs p && negb (String.eqb p "src"))
           ["/usr/lib"; "src/a"; "/opt/lib"; "lib"]
  /\ List.length ["a"; "../lib"; "/usr/lib"; "/opt/lib"]
     = List.length ["/usr/lib"; "src/a"; "/opt/lib"; "lib"].
Proof.
  exact (prepare_rpaths_absolute_entries Sample.linux_host
           ["/usr/lib"; "src/a"; "/opt/lib"; "lib"] "/home/user/build" "src"
           ["a"; "../lib"; "/usr/lib"; "/opt/lib"] eq_refl).
Defined.

(** [build_rpath_args] returns no argument at all where RPATH has no
    meaning: on the Visual-Studio-like variants, rlink, the ARM linkers
    and nvlink for every input, on the GNU-like variants when the
    target is Windows or Cygwin, on PGI when the target is Windows; and
    on the GNU-like, Apple and Solaris linkers when there is no path,
    no build RPATH and no install RPATH. *)
Theorem build_rpath_args_empty (host : Host) (self : Linker)
        (env : Environment) (build_dir from_dir : string)
        (rpath_paths : list string) (build_rpath install_rpath : string) :
  is_variant (class_of self) = true ->
  let call :=
    build_rpath_args host self env build_dir from_dir rpath_paths
      build_rpath install_rpath in
  (is_vs_like (class_of self) = true
   \/ class_of self = CcrxDynamicLinker \/ class_of self = ArmDynamicLinker
   \/ class_of self = ArmClangDynamicLinker \/ class_of self = CudaLinker ->
   call = Ok [])
  /\ (is_gnu_like (class_of self) = true ->
      is_windows (machines env (for_machine self))
      || is_cygwin (machines env (for_machine self)) = true ->
      call = Ok [])
  /\ (class_of self = PGIDynamicLinker ->
      is_windows (machines env (for_machine self)) = true ->
      call = Ok [])
  /\ (is_gnu_like (class_of self) || is_apple_like (class_of self) = true
      \/ class_of self = SolarisDynamicLinker ->
      rpath_paths = [] -> build_rpath = "" -> install_rpath = "" ->
      call = Ok []).
Proof.
  intros Hv call. unfold call, build_rpath_args.
  split; [|split; [|split]].
  - intros [H|[H|[H|[H|H]]]]; destruct (class_of self);
      try discriminate H; reflexivity.
  - intros Hg Hw. destruct (class_of self); try discriminate Hg; simpl;
      unfold GnuLikeDynamicLinkerMixin.build_rpath_args; now rewrite Hw.
  - intros Hc Hw. rewrite Hc. simpl.
    unfold PGIDynamicLinker.build_rpath_args. now rewrite Hw.
  - intros [H|H] -> -> ->.
    + destruct (class_of self); try discriminate H; simpl;
        unfold GnuLikeDynamicLinkerMixin.build_rpath_args,
          AppleDynamicLinker.build_rpath_args; simpl;
        try reflexivity;
        now destruct (is_windows (machines env (for_machine self))
                      || is_cygwin (machines env (for_machine self))).
    + rewrite H. reflexivity.
Qed.

Lemma build_rpath_args_empty_witness :
  build_rpath_args Sample.linux_host Sample.nvlink Sample.elf_env
    "/home/user/build" "" ["sub"] "/home/user/build/sub" "/usr/lib" = Ok []
  /\ build_rpath_args Sample.linux_host Sample.ld64 Sample.elf_env
       "/home/user/build" "" [] "" "" = Ok [].
Proof.
  split.
  - destruct (build_rpath_args_empty Sample.linux_host Sample.nvlink
                Sample.elf_env "/home/user/build" "" ["sub"]
                "/home/user/build/sub" "/usr/lib" eq_refl) as (H & _).
    apply H. right; right; right; right; reflexivity.
  - destruct (build_rpath_args_empty Sample.linux_host Sample.ld64
                Sample.elf_env "/home/user/build" "" [] "" "" eq_refl)
      as (_ & _ & _ & H).
    apply H; try reflexivity. left; reflexivity.
Defined.

(** On a GNU-like linker whose prefix is a string, for a target that
    is neither Windows nor Cygwin, when there is something to embed and
    the raw entries resolve, the result is: the [-z,origin] argument on
    DragonFly BSD and OpenBSD only; then the one [-rpath] argument,
    whose value is the [:]-joined set of paths, padded to the install
    RPATH; then one [-rpath-link] directive per raw entry, in the order
    of the raw entries and with repeated entries repeated, an absolute
    entry as it is, a relative entry behind the build directory.  A
    SunOS host gets no [-rpath-link] directive. *)
Theorem rpath_link_per_raw_entry (host : Host) (self : Linker)
        (env : Environment) (build_dir from_dir : string)
        (rpath_paths : list string) (build_rpath install_rpath : string)
        (s : string) (processed : list string) :
  is_gnu_like (class_of self) = true ->
  prefix_arg self = PrefixStr s ->
  is_windows (machines env (for_machine self))
  || is_cygwin (machines env (for_machine self)) = false ->
  nothing_to_embed rpath_paths build_rpath install_rpath = false ->
  prepare_rpaths host rpath_paths build_dir from_dir = Ok processed ->
  build_rpath_args host self env build_dir from_dir rpath_paths build_rpath
    install_rpath
  = Ok ((if is_dragonflybsd host || is_openbsd host
         then [(s ++ "-z,origin")%string] else [])
        ++ [(s ++ "-rpath,"
             ++ pad_to_install_rpath
                  (PyStr.join ":"
                     (collect_all_paths "$ORIGIN" processed build_rpath))
                  install_rpath)%string]
        ++ (if is_sunos host then []
            else map (fun p =>
                        (s ++ "-rpath-link,"
                         ++ (if PosixPath.isabs p then p
                             else dir_prefix build_dir ++ p))%string)
                     rpath_paths)).
Proof.
  intros Hg Hs Hw Hn Hp.
  assert (Hl : forall l,
             flat_map
               (fun p => [(s ++ "-rpath-link,"
                           ++ PosixPath.join2 build_dir p)%string]) l
             = map (fun p =>
                      (s ++ "-rpath-link,"
                       ++ (if PosixPath.isabs p then p
                           else dir_prefix build_dir ++ p))%string) l).
  { induction l as [|p l IH]; [reflexivity|].
    cbn [flat_map map app]. rewrite IH.
    destruct (PosixPath.isabs p) eqn:Ha.
    - now rewrite join2_absolute.
    - now rewrite join2_relative. }
  rewrite (gnu_like_build_rpath_args self host Hg).
  rewrite (gnu_like_embeds host self env build_dir from_dir rpath_paths
             build_rpath install_rpath processed Hp Hw Hn).
  unfold origin_args, rpath_link_args, _apply_prefix. rewrite Hs.
  do 3 f_equal.
  destruct (is_sunos host); [reflexivity | apply Hl].
Qed.

Lemma rpath_link_per_raw_entry_witness :
  build_rpath_args Sample.openbsd_host Sample.ld_bfd Sample.elf_env
    "/home/user/build" "" ["sub"; "/opt/lib"; "sub"] "" ""
  = Ok ["-Wl,-z,origin"; "-Wl,-rpath,$ORIGIN/sub:/opt/lib";
        "-Wl,-rpath-link,/home/user/build/sub";
        "-Wl,-rpath-link,/opt/lib";
        "-Wl,-rpath-link,/home/user/build/sub"].
Proof.
  exact (rpath_link_per_raw_entry Sample.openbsd_host Sample.ld_bfd
           Sample.elf_env "/home/user/build" "" ["sub"; "/opt/lib"; "sub"]
           "" "" "-Wl," ["sub"; "sub"; "/opt/lib"]
           eq_refl eq_refl eq_refl eq_refl eq_refl).
Defined.

(** On a SunOS host that is neither DragonFly BSD nor OpenBSD, and for
    a target that is neither Windows nor Cygwin, the methods of the
    GNU-like mixin and those of the Solaris linker agree on every
    input: the RPATH arguments (result or exception), the SONAME
    arguments and the whole-archive wrapping. *)
Theorem gnu_mixin_on_sunos_is_solaris (host : Host) (self : Linker)
        (env : Environment) (build_dir from_dir : string)
        (rpath_paths : list string) (build_rpath install_rpath : string)
        (prefix shlib_name suffix : string) (soversion : option string)
        (darwin_versions : option (string * string))
        (is_shared_module : bool) (args : list string) :
  is_sunos host = true ->
  is_dragonflybsd host || is_openbsd host = false ->
  is_windows (machines env (for_machine self))
  || is_cygwin (machines env (for_machine self)) = false ->
  GnuLikeDynamicLinkerMixin.build_rpath_args host self env build_dir from_dir
    rpath_paths build_rpath install_rpath
  = SolarisDynamicLinker.build_rpath_args host self env build_dir from_dir
      rpath_paths build_rpath install_rpath
  /\ GnuLikeDynamicLinkerMixin.get_soname_args self env prefix shlib_name
       suffix soversion darwin_versions is_shared_module
     = SolarisDynamicLinker.get_soname_args self env prefix shlib_name
         suffix soversion darwin_versions is_shared_module
  /\ GnuLikeDynamicLinkerMixin.get_link_whole_for self args
     = SolarisDynamicLinker.get_link_whole_for self args.
Proof.
  intros Hsun Hbsd Hw. split; [|split].
  - unfold GnuLikeDynamicLinkerMixin.build_rpath_args,
      SolarisDynamicLinker.build_rpath_args.
    rewrite Hw, Hsun, Hbsd.
    destruct (nothing_to_embed rpath_paths build_rpath install_rpath);
      [reflexivity|].
    destruct (prepare_rpaths host rpath_paths build_dir from_dir);
      reflexivity.
  - unfold GnuLikeDynamicLinkerMixin.get_soname_args,
      SolarisDynamicLinker.get_soname_args. now rewrite Hw.
  - reflexivity.
Qed.

Lemma gnu_mixin_on_sunos_is_solaris_witness :
  GnuLikeDynamicLinkerMixin.build_rpath_args
    {| getcwd := Ok "/export/home/user"; is_dragonflybsd := false;
       is_openbsd := false; is_sunos := true |}
    Sample.solaris_ld Sample.elf_env "/export/build" "" ["sub"] "" "/usr/lib"
  = SolarisDynamicLinker.build_rpath_args
      {| getcwd := Ok "/export/home/user"; is_dragonflybsd := false;
         is_openbsd := false; is_sunos := true |}
      Sample.solaris_ld Sample.elf_env "/export/build" "" ["sub"] ""
      "/usr/lib".
Proof.
  exact (proj1 (gnu_mixin_on_sunos_is_solaris
                  {| getcwd := Ok "/export/home/user"; is_dragonflybsd := false;
                     is_openbsd := false; is_sunos := true |}
                  Sample.solaris_ld Sample.elf_env "/export/build" ""
                  ["sub"] "" "/usr/lib" "lib" "foo" "so" None None false []
                  eq_refl eq_refl eq_refl)).
Defined.

Lemma NoDup_map_injective {A B : Type} (f : A -> B) (l : list A) :
  (forall x y, f x = f y -> x = y) -> NoDup l -> NoDup (map f l).
Proof.
  intros Hinj Hnd. induction Hnd as [|x l Hx Hnd IH]; simpl; constructor.
  - intro Hin. apply in_map_iff in Hin. destruct Hin as (y & Hy & Hin).
    apply Hinj in Hy. now subst.
  - exact IH.
Qed.

(** Apple's linker never gets the same [-rpath] argument twice: after
    the header padding argument come the [-rpath] arguments of the
    distinct paths, one each; nothing is padded, the install RPATH only
    decides whether there is anything to embed. *)
Theorem apple_rpath_args_distinct (host : Host) (self : Linker)
        (env : Environment) (build_dir from_dir : string)
        (rpath_paths : list string) (build_rpath install_rpath : string)
        (s : string) (processed : list string) :
  is_apple_like (class_of self) = true ->
  prefix_arg self = PrefixStr s ->
  nothing_to_embed rpath_paths build_rpath install_rpath = false ->
  prepare_rpaths host rpath_paths build_dir from_dir = Ok processed ->
  exists rpaths,
    build_rpath_args host self env build_dir from_dir rpath_paths build_rpath
      install_rpath
    = Ok ((s ++ "-headerpad_max_install_names")%string :: rpaths)
    /\ NoDup rpaths
    /\ rpaths
       = map (fun rp => (s ++ "-rpath," ++ rp)%string)
             (collect_all_paths "@loader_path" processed build_rpath)
    /\ forall other_install_rpath,
        nothing_to_embed rpath_paths build_rpath other_install_rpath = false ->
        build_rpath_args host self env build_dir from_dir rpath_paths
          build_rpath other_install_rpath
        = build_rpath_args host self env build_dir from_dir rpath_paths
            build_rpath install_rpath.
Proof.
  intros Ha Hs Hn Hp.
  rewrite (apple_like_build_rpath_args self host Ha).
  assert (Hflat : forall l,
             flat_map (fun rp => _apply_prefix self ("-rpath," ++ rp)%string) l
             = map (fun rp => (s ++ "-rpath," ++ rp)%string) l).
  { intro l. unfold _apply_prefix. rewrite Hs.
    induction l as [|x l IH]; [reflexivity|].
    cbn [flat_map map app]. now rewrite IH. }
  eexists. split; [|split; [|split; [reflexivity|]]].
  - rewrite (apple_embeds host self env build_dir from_dir rpath_paths
               build_rpath install_rpath processed Hp Hn).
    rewrite Hflat. unfold _apply_prefix. rewrite Hs. reflexivity.
  - apply NoDup_map_injective; [|apply collect_all_paths_NoDup].
    intros x y H. apply str_app_inv_head in H.
    now apply (str_app_inv_head "-rpath,") in H.
  - intros other Ho.
    rewrite (apple_embeds host self env build_dir from_dir rpath_paths
               build_rpath install_rpath processed Hp Hn).
    now rewrite (apple_embeds host self env build_dir from_dir rpath_paths
                   build_rpath other processed Hp Ho).
Qed.

Lemma apple_rpath_args_distinct_witness :
  exists rpaths,
    build_rpath_args Sample.linux_host Sample.ld64 Sample.elf_env
      "/home/user/build" "" ["sub"; "/opt/lib"; "sub"] "" "/usr/lib"
    = Ok ("-Wl,-headerpad_max_install_names" :: rpaths)
    /\ NoDup rpaths
    /\ rpaths = ["-Wl,-rpath,@loader_path/sub"; "-Wl,-rpath,/opt/lib"].
Proof.
  destruct (apple_rpath_args_distinct Sample.linux_host Sample.ld64
              Sample.elf_env "/home/user/build" ""
              ["sub"; "/opt/lib"; "sub"] "" "/usr/lib" "-Wl,"
              ["sub"; "sub"; "/opt/lib"] eq_refl eq_refl eq_refl eq_refl)
    as (rpaths & H1 & H2 & H3 & _).
  exists rpaths. split; [exact H1|]. split; [exact H2 | exact H3].
Defined.

(** ** Moving the build tree *)

Section Relocation.

Lemma normpath_loop_no_dotdot (k : nat) (comps acc : list string) :
  ~ In ".." comps ->
  fold_left (PosixPath.normpath_step k) comps acc
  = acc ++ filter (fun c => negb (String.eqb c "" || String.eqb c "."))
                  comps.
Proof.
  revert acc. induction comps as [|c comps IH]; intros acc Hn; simpl.
  - now rewrite app_nil_r.
  - rewrite IH by (intro H; apply Hn; now right).
    unfold PosixPath.normpath_step.
    destruct (String.eqb c "" || String.eqb c "."); simpl; [reflexivity|].
    destruct (String.eqb_spec c "..") as [->|Hc].
    + exfalso. apply Hn. now left.
    + simpl. now rewrite <- app_assoc.
Qed.

Lemma kept_components_plain (q : string) :
  Forall plain (kept_components q).
Proof.
  apply Forall_forall. intros e He. unfold kept_components in He.
  apply filter_In in He. destruct He as [Hin Hk]. split.
  - intros ->. discriminate Hk.
  - now apply split_pieces_free with (s := q).
Qed.

(** Normalising a path below an absolute directory [w/]. *)
Lemma normpath_under (w q : string) :
  PosixPath.isabs (w ++ "/") = true ->
  PyStr.startswith PosixPath.sep q = false ->
  no_dotdot q ->
  exists S,
    (forall q', PyStr.startswith PosixPath.sep q' = false -> no_dotdot q' ->
                PosixPath.components (PosixPath.normpath ((w ++ "/") ++ q'))
                = S ++ kept_components q')
    /\ PosixPath.components (PosixPath.normpath ((w ++ "/") ++ q))
       = S ++ kept_components q.
Proof.
  intros Habs Hq Hnq.
  assert (Hk : exists k', PosixPath.initial_slashes (w ++ "/") = S k').
  { unfold PosixPath.initial_slashes.
    unfold PosixPath.isabs in Habs. rewrite Habs.
    destruct (_ && _); eauto. }
  destruct Hk as [k' Hk].
  set (S0 := fold_left (PosixPath.normpath_step (S k'))
                       (PyStr.split PosixPath.sep w) []).
  assert (HS : Forall plain S0).
  { apply normpath_loop_plain; [apply split_sep_free | constructor]. }
  assert (Hgen : forall q',
             PyStr.startswith PosixPath.sep q' = false -> no_dotdot q' ->
             PosixPath.components (PosixPath.normpath ((w ++ "/") ++ q'))
             = S0 ++ kept_components q').
  { intros q' Hs Hn.
    assert (E : PyStr.is_empty ((w ++ "/") ++ q') = false)
      by (now destruct w).
    assert (Hsp : PyStr.split PosixPath.sep ((w ++ "/") ++ q')
                  = PyStr.split PosixPath.sep w
                    ++ PyStr.split PosixPath.sep q').
    { rewrite str_app_assoc. apply (split_app PosixPath.sep w q'). }
    unfold PosixPath.normpath.
    rewrite (initial_slashes_app w q' Hs), E, Hsp, Hk, fold_left_app.
    fold S0. rewrite (normpath_loop_no_dotdot (S k') _ S0 Hn).
    fold (kept_components q').
    assert (E3 : forall x,
               PyStr.is_empty (PyStr.repeat PosixPath.sep (S k') ++ x)
               = false) by reflexivity.
    rewrite E3, components_repeat_sep.
    apply components_join. apply Forall_app. split; [exact HS|].
    apply kept_components_plain. }
  exists S0. split; [exact Hgen | now apply Hgen].
Qed.

Lemma commonprefix_under (s a b : list string) :
  PosixPath.commonprefix (s ++ a) (s ++ b)
  = s ++ PosixPath.commonprefix a b.
Proof.
  induction s as [|x s IH]; simpl; [reflexivity|].
  now rewrite String.eqb_refl, IH.
Qed.

Lemma skipn_under (s l : list string) (n : nat) :
  skipn (List.length s + n) (s ++ l) = skipn n l.
Proof. induction s as [|x s IH]; simpl; [reflexivity | exact IH]. Qed.

(** The closed form of the resolution of a relative entry in an
    absolute build directory. *)
Lemma evaluate_rpath_relocatable (host : Host) (p build_dir from_dir : string) :
  PosixPath.isabs build_dir = true ->
  PosixPath.isabs p = false ->
  PosixPath.isabs from_dir = false ->
  p <> from_dir ->
  no_dotdot p -> no_dotdot from_dir ->
  evaluate_rpath host p build_dir from_dir
  = Ok (relative_from (kept_components from_dir) (kept_components p)).
Proof.
  intros Hbd Hp Hfd Hne Hnp Hnf. unfold evaluate_rpath.
  apply String.eqb_neq in Hne. rewrite Hne, Hp.
  unfold PosixPath.isabs in Hp, Hfd.
  rewrite !join2_relative by assumption.
  assert (Hb : build_dir <> "")
    by (intro E; rewrite E in Hbd; discriminate).
  destruct (endswith_app_sep _ (dir_prefix_endswith _ Hb)) as [w Hw].
  assert (Hwabs : PosixPath.isabs (w ++ "/") = true)
    by (rewrite <- Hw; now rewrite dir_prefix_isabs).
  rewrite Hw.
  destruct (normpath_under w p Hwabs Hp Hnp) as (S0 & Hgen & HSp).
  pose proof (Hgen from_dir Hfd Hnf) as HSf.
  assert (Habs : forall q, PyStr.startswith PosixPath.sep q = false ->
                           PosixPath.abspath (getcwd host) ((w ++ "/") ++ q)
                           = Ok (PosixPath.normpath ((w ++ "/") ++ q))).
  { intros q Hq. apply abspath_absolute.
    unfold PosixPath.isabs in *. rewrite startswith_app; [exact Hwabs|].
    now destruct w. }
  unfold PosixPath.relpath.
  assert (E : PyStr.is_empty ((w ++ "/") ++ p) = false) by (now destruct w).
  rewrite E, !Habs by assumption. cbn [bind]. rewrite HSp, HSf.
  rewrite commonprefix_under, !length_app.
  replace (List.length S0 + List.length (kept_components from_dir)
           - (List.length S0
              + List.length (PosixPath.commonprefix
                               (kept_components from_dir)
                               (kept_components p))))
    with (List.length (kept_components from_dir)
          - List.length (PosixPath.commonprefix
                           (kept_components from_dir) (kept_components p)))
    by lia.
  rewrite skipn_under. unfold relative_from. cbv zeta.
  match goal with
  | |- match ?l with _ => _ end = _ => destruct l; reflexivity
  end.
Qed.

(** Reproducibility: the resolved form of a relative entry depends
    neither on where the build directory is nor on the current
    directory, as long as the build directory is absolute and neither
    the entry nor [from_dir] climbs with [..]. *)
Theorem evaluate_rpath_build_dir_independent (host host' : Host)
        (p build_dir build_dir' from_dir : string) :
  PosixPath.isabs build_dir = true ->
  PosixPath.isabs build_dir' = true ->
  PosixPath.isabs p = false ->
  PosixPath.isabs from_dir = false ->
  no_dotdot p -> no_dotdot from_dir ->
  evaluate_rpath host p build_dir from_dir
  = evaluate_rpath host' p build_dir' from_dir
  /\ exists r, evaluate_rpath host p build_dir from_dir = Ok r.
Proof.
  intros Hb Hb' Hp Hf Hnp Hnf.
  destruct (String.eqb_spec p from_dir) as [->|Hne].
  - unfold evaluate_rpath. rewrite String.eqb_refl. eauto.
  - rewrite !evaluate_rpath_relocatable by assumption. eauto.
Qed.

End Relocation.

Lemma evaluate_rpath_build_dir_independent_witness :
  evaluate_rpath Sample.linux_host "lib/./core" "/home/user/build" "src/app"
  = evaluate_rpath Sample.openbsd_host "lib/./core" "/tmp/b//" "src/app"
  /\ exists r,
      evaluate_rpath Sample.linux_host "lib/./core" "/home/user/build"
        "src/app" = Ok r.
Proof.
  apply (evaluate_rpath_build_dir_independent Sample.linux_host
           Sample.openbsd_host "lib/./core" "/home/user/build" "/tmp/b//"
           "src/app"); try reflexivity;
    unfold no_dotdot; simpl; intuition discriminate.
Defined.

Example evaluate_rpath_relocated :
  evaluate_rpath Sample.linux_host "lib/./core" "/home/user/build" "src/app"
  = Ok "../../lib/core".
Proof. reflexivity. Qed.

(** ** The archiver and its probe *)

Lemma has_prefix_iff (n h : string) :
  PyStr.has_prefix n h = true <-> exists b, h = (n ++ b)%string.
Proof.
  revert h. induction n as [|c n IH]; intro h; simpl.
  - split; [intros _; now exists h | reflexivity].
  - destruct h as [|d h].
    + split; [discriminate | intros [b H]; discriminate].
    + rewrite andb_true_iff, IH. split.
      * intros [Hc [b ->]]. apply Ascii.eqb_eq in Hc. subst. now exists b.
      * intros [b H]. inversion H; subst. split; [apply Ascii.eqb_refl|].
        now exists b.
Qed.

(** [needle in hay] holds exactly when [hay] is [needle] between two
    strings. *)
Lemma str_in_iff (n h : string) :
  str_in n h = true <-> exists a b, h = (a ++ n ++ b)%string.
Proof.
  induction h as [|d h IH]; simpl.
  - rewrite orb_false_r, has_prefix_iff. split.
    + intros [b H]. now exists "", b.
    + intros (a & b & H). destruct a; [now exists b | discriminate].
  - rewrite orb_true_iff, has_prefix_iff, IH. split.
    + intros [[b H]|(a & b & H)].
      * now exists "", b.
      * exists (String d a), b. simpl. now rewrite H.
    + intros (a & b & H). destruct a as [|c a].
      * left. now exists b.
      * right. inversion H; subst. now exists a, b.
Qed.

(** [ArLinker] asks for the deterministic mode [csrD] exactly when the
    help text of the archiver, asked with [-h] after the command line,
    holds the marker [[D]], and for [csr] otherwise.  The constructor
    has no fallback: what the probe raises, it raises. *)
Theorem ar_deterministic_iff_marker (Popen_safe : CudaLinker.Popen_safe_t)
        (exelist : list string) :
  (forall pc stdo err,
      Popen_safe (exelist ++ ["-h"]) = Ok (pc, stdo, err) ->
      exists self,
        ArLinker.__init__ Popen_safe exelist = Ok self
        /\ ar_id self = "ar" /\ ar_exelist self = exelist
        /\ (ArLinker.get_std_link_args self = ["csrD"]
            <-> exists a b, stdo = (a ++ "[D]" ++ b)%string)
        /\ (ArLinker.get_std_link_args self = ["csr"]
            <-> ~ exists a b, stdo = (a ++ "[D]" ++ b)%string))
  /\ (forall e,
         Popen_safe (exelist ++ ["-h"]) = Raise e ->
         ArLinker.__init__ Popen_safe exelist = Raise e).
Proof.
  unfold ArLinker.__init__. split.
  - intros pc stdo err ->. cbn [bind].
    pose proof (str_in_iff "[D]" stdo) as Hiff.
    destruct (str_in "[D]" stdo) eqn:Hin; eexists;
      (split; [reflexivity|]);
      (split; [reflexivity|]); (split; [reflexivity|]);
      unfold ArLinker.get_std_link_args; cbn [std_args]; split; split.
    + intros _. now apply Hiff.
    + reflexivity.
    + discriminate.
    + intro H. exfalso. apply H. now apply Hiff.
    + discriminate.
    + intro H. apply Hiff in H. discriminate.
    + intros _ H. apply Hiff in H. discriminate.
    + reflexivity.
  - intros e ->. reflexivity.
Qed.

Lemma ar_deterministic_iff_marker_witness :
  exists self,
    ArLinker.__init__
      (fun _ => Ok (0, "Usage: ar [-]{dmpqrstx}[abcDfilMNoOPsSTuvV]  [D] - use zero for timestamps", ""))
      ["ar"] = Ok self
    /\ ArLinker.get_std_link_args self = ["csrD"].
Proof.
  destruct (ar_deterministic_iff_marker
              (fun _ => Ok (0, "Usage: ar [-]{dmpqrstx}[abcDfilMNoOPsSTuvV]  [D] - use zero for timestamps", ""))
              ["ar"]) as [H _].
  destruct (H _ _ _ eq_refl) as (self & Hs & _ & _ & Hd & _).
  exists self. split; [exact Hs|]. apply Hd.
  exists "Usage: ar [-]{dmpqrstx}[abcDfilMNoOPsSTuvV]  ",
    " - use zero for timestamps".
  reflexivity.
Defined.

(** ** Copies and aliases *)

Section Sharing.

Lemma deref_alloc_old (st : Store) (l : list string) (r : ref) :
  r < List.length st -> deref (fst (alloc st l)) r = deref st r.
Proof. intro H. unfold deref, alloc. simpl. now rewrite app_nth1. Qed.

Lemma deref_alloc_new (st : Store) (l : list string) :
  deref (fst (alloc st l)) (snd (alloc st l)) = l.
Proof.
  unfold deref, alloc. simpl. rewrite app_nth2 by lia.
  now rewrite Nat.sub_diag.
Qed.

Lemma deref_assign_other (st : Store) (r r' : ref) (l : list string) :
  r <> r' -> deref (assign st r l) r' = deref st r'.
Proof.
  unfold deref. revert r r'. induction st as [|x st IH]; intros r r' H.
  - now destruct r.
  - destruct r as [|r], r' as [|r']; simpl; try reflexivity.
    + now contradiction H.
    + apply IH. congruence.
Qed.

Lemma deref_assign_same (st : Store) (r : ref) (l : list string) :
  r < List.length st -> deref (assign st r l) r = l.
Proof.
  unfold deref. revert r. induction st as [|x st IH]; intros r H; simpl in H.
  - lia.
  - destruct r as [|r]; simpl; [reflexivity|]. apply IH. lia.
Qed.

(** [get_exelist] hands out a new list with the content of the
    command line: whatever the caller does to it, the command line of
    the linker stays what it was.  [get_std_link_args] of the archivers
    hands out the attribute itself: what the caller does to it is what
    the linker holds afterwards. *)
Theorem get_exelist_is_a_copy (st : Store) (self : ListAttrs) :
  exelist_at self < List.length st ->
  std_args_at self < List.length st ->
  let (st1, r) := get_exelist st self in
  let (st2, a) := get_std_link_args st self in
  deref st1 r = deref st (exelist_at self)
  /\ (forall l,
         deref (assign st1 r l) (exelist_at self)
         = deref st (exelist_at self))
  /\ deref st2 a = deref st (std_args_at self)
  /\ (forall l, deref (assign st2 a l) (std_args_at self) = l).
Proof.
  intros He Hs. unfold get_exelist, get_std_link_args.
  destruct (alloc st (deref st (exelist_at self))) as [st1 r] eqn:Ha.
  pose proof (deref_alloc_new st (deref st (exelist_at self))) as Hnew.
  pose proof (deref_alloc_old st (deref st (exelist_at self)) _ He) as Hold.
  rewrite Ha in Hnew, Hold. simpl in Hnew, Hold.
  assert (Hr : r = List.length st) by (unfold alloc in Ha; congruence).
  split; [exact Hnew|]. split; [|split; [reflexivity|]].
  - intro l. rewrite deref_assign_other by lia. exact Hold.
  - intro l. now apply deref_assign_same.
Qed.

End Sharing.

Lemma get_exelist_is_a_copy_witness :
  let st := [["ar"]; ["csrD"]] in
  let self := {| exelist_at := 0; std_args_at := 1 |} in
  deref (assign (fst (get_exelist st self)) (snd (get_exelist st self))
                ["rm"; "-rf"]) 0 = ["ar"]
  /\ deref (assign (fst (get_std_link_args st self))
                   (snd (get_std_link_args st self)) ["x"]) 1 = ["x"].
Proof.
  pose proof (get_exelist_is_a_copy [["ar"]; ["csrD"]]
                {| exelist_at := 0; std_args_at := 1 |}) as H.
  simpl in H. destruct H as (_ & H1 & _ & H2); [lia | lia |].
  split; [exact (H1 ["rm"; "-rf"]) | exact (H2 ["x"])].
Defined.

(** ** When the RPATH arguments cannot be built *)

(** On a concrete variant [build_rpath_args] raises exactly what
    [prepare_rpaths] raises, and only on the linkers that resolve the
    raw entries: a GNU-like variant for a target that is neither
    Windows nor Cygwin, an Apple variant or the Solaris linker.  The
    exception is the [ValueError] of [os.path.relpath] or what
    [os.getcwd()] raises.  As long as the current directory can be
    read, or the build directory is absolute, the call raises in one
    situation only: on such a linker, with an empty build directory, a
    [from_dir] that is not empty and a raw entry that is the empty
    string. *)
Theorem build_rpath_args_raises_iff (host : Host) (self : Linker)
        (env : Environment) (build_dir from_dir : string)
        (rpath_paths : list string) (build_rpath install_rpath : string) :
  is_variant (class_of self) = true ->
  let resolves :=
    is_gnu_like (class_of self)
    && negb (is_windows (machines env (for_machine self))
             || is_cygwin (machines env (for_machine self)))
    || is_apple_like (class_of self)
    || match class_of self with
       | SolarisDynamicLinker => true
       | _ => false
       end in
  let call :=
    build_rpath_args host self env build_dir from_dir rpath_paths
      build_rpath install_rpath in
  (forall e,
      call = Raise e
      <-> (resolves = true
           /\ prepare_rpaths host rpath_paths build_dir from_dir = Raise e))
  /\ (forall e,
         call = Raise e ->
         e = ValueError "no path specified" \/ getcwd host = Raise e)
  /\ (cwd_at_hand host build_dir ->
      ((exists e, call = Raise e)
       <-> (resolves = true
            /\ build_dir = "" /\ from_dir <> "" /\ In "" rpath_paths))
      /\ forall e, call = Raise e -> e = ValueError "no path specified").
Proof.
  intros Hv resolves call.
  set (prep := prepare_rpaths host rpath_paths build_dir from_dir).
  assert (Hnil : nothing_to_embed rpath_paths build_rpath install_rpath
                 = true -> forall e, prep <> Raise e).
  { unfold nothing_to_embed, prep. destruct rpath_paths as [|x l].
    - intros _ e. discriminate.
    - discriminate. }
  assert (Hbind : forall (k : list string -> result (list string)) e,
             (forall l, exists r, k l = Ok r) ->
             (processed <- prep ;; k processed) = Raise e
             <-> prep = Raise e).
  { intros k e Hk. destruct prep as [l|e0]; simpl.
    - destruct (Hk l) as [r ->]. split; discriminate.
    - tauto. }
  assert (Hgnu : forall e,
             GnuLikeDynamicLinkerMixin.build_rpath_args host self env
               build_dir from_dir rpath_paths build_rpath install_rpath
             = Raise e
             <-> (negb (is_windows (machines env (for_machine self))
                        || is_cygwin (machines env (for_machine self)))
                  = true
                  /\ prep = Raise e)).
  { intro e. unfold GnuLikeDynamicLinkerMixin.build_rpath_args.
    destruct (is_windows (machines env (for_machine self))
              || is_cygwin (machines env (for_machine self))); simpl negb.
    - split; [discriminate | intros [H _]; discriminate].
    - destruct (nothing_to_embed rpath_paths build_rpath install_rpath).
      + split; [discriminate|]. intros [_ H]. now destruct (Hnil eq_refl e).
      + fold prep. cbv zeta. rewrite Hbind.
        * tauto.
        * intro l. destruct (is_sunos host); eauto. }
  assert (Happle : forall e,
             AppleDynamicLinker.build_rpath_args host self env build_dir
               from_dir rpath_paths build_rpath install_rpath = Raise e
             <-> prep = Raise e).
  { intro e. unfold AppleDynamicLinker.build_rpath_args.
    destruct (nothing_to_embed rpath_paths build_rpath install_rpath).
    - split; [discriminate|]. intro H. now destruct (Hnil eq_refl e).
    - fold prep. cbv zeta. apply Hbind. intro l. eauto. }
  assert (Hsol : forall e,
             SolarisDynamicLinker.build_rpath_args host self env build_dir
               from_dir rpath_paths build_rpath install_rpath = Raise e
             <-> prep = Raise e).
  { intro e. unfold SolarisDynamicLinker.build_rpath_args.
    destruct (nothing_to_embed rpath_paths build_rpath install_rpath).
    - split; [discriminate|]. intro H. now destruct (Hnil eq_refl e).
    - fold prep. cbv zeta. apply Hbind. intro l. eauto. }
  assert (Hpgi : forall e,
             PGIDynamicLinker.build_rpath_args host self env build_dir
               from_dir rpath_paths build_rpath install_rpath <> Raise e).
  { intros e H. unfold PGIDynamicLinker.build_rpath_args in H.
    destruct (is_windows (machines env (for_machine self)));
      discriminate H. }
  assert (Hcore : forall e,
             call = Raise e <-> (resolves = true /\ prep = Raise e)).
  { intro e. unfold call, resolves, build_rpath_args.
    destruct (class_of self); try discriminate Hv; simpl resolve; cbv iota;
      rewrite ?andb_false_l, ?orb_false_l, ?orb_false_r, ?andb_true_l,
        ?orb_true_r;
      try exact (Hgnu e);
      try (rewrite (Happle e); tauto);
      try (rewrite (Hsol e); tauto);
      try (split; [intro H; try discriminate H; now apply Hpgi in H
                  | intros [H _]; discriminate H]). }
  destruct (prepare_rpaths_raises_parts host build_dir from_dir rpath_paths)
    as (Hiff & Hexn).
  fold prep in Hiff, Hexn.
  split; [exact Hcore|]. split.
  - intros e H. apply Hcore in H. destruct H as [_ H].
    destruct (Hexn e H) as [[He _]|[He _]]; auto.
  - intro Hg. split.
    + split.
      * intros [e H]. apply Hcore in H. destruct H as [Hr H].
        split; [exact Hr|].
        destruct (proj1 Hiff (ex_intro _ e H))
          as [Hc|(Hb & [e' He'] & _)]; [exact Hc|].
        now destruct (cwd_at_hand_returns host build_dir e' Hg Hb).
      * intros (Hr & H).
        destruct (proj2 Hiff (or_introl H)) as [e He].
        exists e. apply Hcore. now split.
    + intros e H. apply Hcore in H. destruct H as [_ H].
      destruct (Hexn e H) as [[He _]|[He Hb]]; [exact He|].
      now destruct (cwd_at_hand_returns host build_dir e Hg Hb).
Qed.

Lemma build_rpath_args_raises_iff_witness :
  build_rpath_args Sample.linux_host Sample.ld64 Sample.elf_env
    "" "src" ["lib"; ""] "" "" = Raise (ValueError "no path specified")
  /\ build_rpath_args Sample.adrift_host Sample.ld_bfd Sample.elf_env
       "build" "src" ["lib"] "" ""
     = Raise (OSError "[Errno 2] No such file or directory").
Proof.
  destruct (build_rpath_args_raises_iff Sample.linux_host Sample.ld64
              Sample.elf_env "" "src" ["lib"; ""] "" "" eq_refl)
    as [H1 _].
  destruct (build_rpath_args_raises_iff Sample.adrift_host Sample.ld_bfd
              Sample.elf_env "build" "src" ["lib"] "" "" eq_refl)
    as [H2 _].
  split.
  - apply H1. split; reflexivity.
  - apply H2. split; reflexivity.
Defined.

(** ** The install name on macOS *)

(** For a shared library the Apple variants pass [-install_name] and
    the name as two bare tokens, without the prefix of the linker.  The
    name is [@rpath/], the prefix, the library name, the soversion
    behind a dot if there is one, and [.dylib]: the suffix of the
    caller is not used, nor is the environment.  The two version
    arguments follow when the Darwin versions are given. *)
Theorem apple_install_name (self : Linker) (env : Environment)
        (prefix shlib_name suffix : string) (soversion : option string)
        (darwin_versions : option (string * string)) :
  is_apple_like (class_of self) = true ->
  get_soname_args self env prefix shlib_name suffix soversion
    darwin_versions false
  = Ok ("-install_name"
        :: ("@rpath/" ++ prefix ++ shlib_name
            ++ match soversion with
               | Some v => "." ++ v
               | None => ""
               end ++ ".dylib")%string
        :: match darwin_versions with
           | Some (compat, current) =>
               ["-compatibility_version"; compat; "-current_version"; current]
           | None => []
           end)
  /\ forall (other : Linker) (env' : Environment) (suffix' : string),
      is_apple_like (class_of other) = true ->
      get_soname_args other env' prefix shlib_name suffix' soversion
        darwin_versions false
      = get_soname_args self env prefix shlib_name suffix soversion
          darwin_versions false.
Proof.
  intro Ha.
  assert (Hcall : forall (l : Linker) (e : Environment) (sfx : string),
             is_apple_like (class_of l) = true ->
             get_soname_args l e prefix shlib_name sfx soversion
               darwin_versions false
             = AppleDynamicLinker.get_soname_args l e prefix shlib_name sfx
                 soversion darwin_versions false).
  { intros l e sfx Hl. unfold get_soname_args.
    destruct (class_of l); try discriminate Hl; reflexivity. }
  split.
  - rewrite (Hcall self env suffix Ha).
    unfold AppleDynamicLinker.get_soname_args.
    destruct soversion as [v|], darwin_versions as [[compat current]|];
      cbn [app PyStr.join]; rewrite ?str_app_nil_r, ?str_app_assoc;
      reflexivity.
  - intros other env' suffix' Ho.
    rewrite (Hcall self env suffix Ha), (Hcall other env' suffix' Ho).
    reflexivity.
Qed.

Lemma apple_install_name_witness :
  get_soname_args Sample.ld64 Sample.elf_env "lib" "foo" "so" (Some "1")
    (Some ("1.0.0", "1.2.3")) false
  = Ok ["-install_name"; "@rpath/libfoo.1.dylib";
        "-compatibility_version"; "1.0.0"; "-current_version"; "1.2.3"].
Proof.
  exact (proj1 (apple_install_name Sample.ld64 Sample.elf_env "lib" "foo"
                  "so" (Some "1") (Some ("1.0.0", "1.2.3")) eq_refl)).
Defined.
